(** * Bayesian oil-market insights: query, statistics and event-correlation

    A shallow embedding of the data-transformation logic of
    [src/dashboard/backend/app.py] (the Flask API) and of
    [src/dashboard/app.py] (the Streamlit dashboard).

    - Python values the handlers pass around are modelled as they are in
      the source: a DataFrame is a heap object reached through a
      reference, [.copy()] and boolean indexing allocate, column
      assignment mutates in place, an exception aborts the [try] block
      and is turned into the 500 reply by the [except] clause.
    - pandas and Flask are libraries, not code of the repository.  The
      date parser [pd.to_datetime], the formatter [strftime], the
      floating square root and numpy's [argsort] are parameters of the
      development; a strict ISO parser, a rational square root and a
      stable [argsort] are provided to run the code on concrete data.
    - Floating-point rounding is abstracted: a finite float is an exact
      rational, the not-a-number value is explicit. *)

From Stdlib Require Import ZArith QArith List String Ascii Permutation Sorted Lia Lqa.
From stdpp Require Import base list strings gmap.

Set Default Proof Using "Type".
Local Open Scope Z_scope.

(** ** Python values *)

(** The exceptions the modelled code can raise. *)
Inductive Exn :=
| AttributeError (msg : string)
| TypeError (msg : string)
| ValueError (msg : string)
| SystemError (msg : string).

(** [str(e)] *)
Definition str (e : Exn) : string :=
  match e with
  | AttributeError m | TypeError m | ValueError m | SystemError m => m
  end.

(** What [pd.to_datetime] raises on a string it cannot read. *)
Definition parse_error (s : string) : Exn :=
  ValueError ("Unknown datetime string format, unable to parse: " +:+ s).

(** Truthiness of the result of [request.args.get(name)]: [None] and the
    empty string are falsy.  [if_str o f d] is
    [f s if o (is a non-empty s) else d]. *)
Definition if_str {A} (o : option string) (then_ : string → A) (else_ : A) : A :=
  match o with
  | Some s => if String.eqb s "" then else_ else then_ s
  | None => else_
  end.

(** [request.args]: a multi-dict; [get] returns the first value of the key. *)
Definition Args := list (string * string).

Fixpoint args_get (args : Args) (key : string) : option string :=
  match args with
  | [] => None
  | (k, v) :: rest => if String.eqb k key then Some v else args_get rest key
  end.

(** ** Timestamps *)

(** A pandas [Timestamp] ([datetime64[ns]]): nanoseconds since the epoch. *)
Definition Timestamp := Z.

Definition ns_per_day : Z := 86400000000000.

(** [Timestamp.date()] / [Series.dt.date]: the calendar day, as a day
    number since the epoch. *)
Definition dt_date (t : Timestamp) : Z := t / ns_per_day.

(** [Timedelta.days] of the difference [a - b] (floor, as in Python). *)
Definition timedelta_days (a b : Timestamp) : Z := (a - b) / ns_per_day.

(** *** A strict ISO-8601 instance of the date parser and formatter *)

Module Iso.

(** Day number of the proleptic Gregorian date [y-m-d]. *)
Definition days_from_civil (y m d : Z) : Z :=
  let y' := if m <=? 2 then y - 1 else y in
  let era := y' / 400 in
  let yoe := y' - era * 400 in
  let mp := if 2 <? m then m - 3 else m + 9 in
  let doy := (153 * mp + 2) / 5 + d - 1 in
  let doe := yoe * 365 + yoe / 4 - yoe / 100 + doy in
  era * 146097 + doe - 719468.

Definition civil_from_days (z : Z) : Z * Z * Z :=
  let z := z + 719468 in
  let era := z / 146097 in
  let doe := z - era * 146097 in
  let yoe := (doe - doe / 1460 + doe / 36524 - doe / 146096) / 365 in
  let y := yoe + era * 400 in
  let doy := doe - (365 * yoe + yoe / 4 - yoe / 100) in
  let mp := (5 * doy + 2) / 153 in
  let d := doy - (153 * mp + 2) / 5 + 1 in
  let m := if mp <? 10 then mp + 3 else mp - 9 in
  (if m <=? 2 then y + 1 else y, m, d).

Definition is_leap (y : Z) : bool :=
  ((y mod 4 =? 0) && negb (y mod 100 =? 0)) || (y mod 400 =? 0).

Definition days_in_month (y m : Z) : Z :=
  if m =? 2 then (if is_leap y then 29 else 28)
  else if (m =? 4) || (m =? 6) || (m =? 9) || (m =? 11) then 30
  else 31.

Definition digit (c : ascii) : option Z :=
  let n := Z.of_nat (nat_of_ascii c) in
  if (48 <=? n) && (n <=? 57) then Some (n - 48) else None.

Definition is_dash (c : ascii) : bool := (nat_of_ascii c =? 45)%nat.

(** ["YYYY-MM-DD"] and nothing else. *)
Definition parse_ymd (s : string) : option (Z * Z * Z) :=
  match s with
  | String y1 (String y2 (String y3 (String y4 (String s1
    (String m1 (String m2 (String s2 (String d1 (String d2 EmptyString))))))))) =>
      match digit y1, digit y2, digit y3, digit y4,
            digit m1, digit m2, digit d1, digit d2 with
      | Some a, Some b, Some c, Some d, Some e, Some f, Some g, Some h =>
          if is_dash s1 && is_dash s2
          then Some (1000 * a + 100 * b + 10 * c + d, 10 * e + f, 10 * g + h)
          else None
      | _, _, _, _, _, _, _, _ => None
      end
  | _ => None
  end.

Definition to_datetime (s : string) : option Timestamp :=
  match parse_ymd s with
  | Some (y, m, d) =>
      if (1 <=? m) && (m <=? 12) && (1 <=? d) && (d <=? days_in_month y m)
      then Some (days_from_civil y m d * ns_per_day)
      else None
  | None => None
  end.

Definition digit_char (n : Z) : ascii := ascii_of_nat (Z.to_nat (48 + n mod 10)).

Definition two_digits (n : Z) : string :=
  String (digit_char (n / 10)) (String (digit_char n) EmptyString).

Definition four_digits (n : Z) : string :=
  String (digit_char (n / 1000)) (String (digit_char (n / 100)) (two_digits n)).

(** [strftime('%Y-%m-%d')] *)
Definition strftime (t : Timestamp) : string :=
  let '(y, m, d) := civil_from_days (dt_date t) in
  (four_digits y ++ "-" ++ two_digits m ++ "-" ++ two_digits d)%string.

End Iso.

(** ** Floats and the statistics of a numeric column *)

(** A Python float: a finite value (rounding abstracted away) or NaN. *)
Inductive pyfloat :=
| NaN
| Fin (q : Q).

Definition isna (x : pyfloat) : bool :=
  match x with NaN => true | Fin _ => false end.

Definition Qsum (l : list Q) : Q := fold_right Qplus 0%Q l.

(** Float division of a sum by a count: [0/0] is NaN. *)
Definition fdiv (a : Q) (n : nat) : pyfloat :=
  match n with
  | O => NaN
  | S _ => Fin (a / inject_Z (Z.of_nat n))
  end.

(** The reductions of a float column as pandas' [nanops] computes them
    with [skipna=True]: NaN entries are masked out (replaced by zero in
    the sums) and the divisor counts the remaining entries. *)
Module nanops.

Definition fill0 (x : pyfloat) : Q :=
  match x with NaN => 0%Q | Fin q => q end.

(** number of non-NaN entries *)
Definition get_counts (s : list pyfloat) : nat :=
  length (List.filter (λ x, negb (isna x)) s).

Definition dropna (s : list pyfloat) : list Q :=
  flat_map (λ x, match x with NaN => [] | Fin q => [q] end) s.

Definition nanmean (s : list pyfloat) : pyfloat :=
  fdiv (Qsum (map fill0 s)) (get_counts s).

(** [ddof = 1]: NaN as soon as [count <= ddof]. *)
Definition nanvar (s : list pyfloat) : pyfloat :=
  let count := get_counts s in
  if (count <=? 1)%nat then NaN
  else
    let avg := (Qsum (map fill0 s) / inject_Z (Z.of_nat count))%Q in
    let sqr := map (λ x, match x with
                         | NaN => 0%Q
                         | Fin q => ((avg - q) * (avg - q))%Q
                         end) s in
    Fin (Qsum sqr / inject_Z (Z.of_nat (count - 1)))%Q.

Definition nanstd (sqrt : Q → Q) (s : list pyfloat) : pyfloat :=
  match nanvar s with
  | NaN => NaN
  | Fin v => Fin (sqrt v)
  end.

Definition qmin (a b : Q) : Q := if Qle_bool a b then a else b.
Definition qmax (a b : Q) : Q := if Qle_bool a b then b else a.

Definition nanmin (s : list pyfloat) : pyfloat :=
  match dropna s with
  | [] => NaN
  | x :: l => Fin (fold_left qmin l x)
  end.

Definition nanmax (s : list pyfloat) : pyfloat :=
  match dropna s with
  | [] => NaN
  | x :: l => Fin (fold_left qmax l x)
  end.

Fixpoint insert_sorted (x : Q) (l : list Q) : list Q :=
  match l with
  | [] => [x]
  | y :: l' => if Qle_bool x y then x :: l else y :: insert_sorted x l'
  end.

Definition sort (l : list Q) : list Q := fold_right insert_sorted [] l.

(** middle value of the sorted non-NaN entries, the mean of the two
    middle ones for an even count *)
Definition nanmedian (s : list pyfloat) : pyfloat :=
  let v := sort (dropna s) in
  let n := length v in
  match n with
  | O => NaN
  | S _ =>
      if Nat.even n
      then Fin ((nth (n / 2 - 1) v 0 + nth (n / 2) v 0) / 2)%Q
      else Fin (nth (n / 2) v 0%Q)
  end.

End nanops.

(** A dyadic-style approximation of the square root, to run the
    statistics on concrete data. *)
Definition Qsqrt_approx (q : Q) : Q :=
  Z.sqrt (Qnum q * 1000000000000 / Zpos (Qden q)) # 1000000.

(** ** Data frames *)

(** The non-date columns of the price series
    ([brent_with_changepoint.csv]): [log_return] is NaN where it is
    undefined. *)
Record PriceFields := {
  Price : Q;
  log_return : pyfloat
}.

(** The non-date columns of the event catalog ([structured_events.csv]). *)
Record EventFields := {
  Event_Type : string;
  Description : string;
  Expected_Impact : string
}.

(** The rows of a frame.  The dtype of the [Date] column is a property
    of the column: [datetime64] after [pd.to_datetime], [object]
    (strings) as read from the CSV or after [.dt.strftime]. *)
Inductive Rows (F : Type) :=
| DatetimeRows (l : list (Timestamp * F))
| ObjectRows (l : list (string * F)).
Arguments DatetimeRows {F} l.
Arguments ObjectRows {F} l.

(** [columns] is the header ([df.columns]); the code consults it for the
    optional [log_return] column. *)
Record DataFrame (F : Type) := {
  columns : list string;
  rows : Rows F
}.
Arguments columns {F} d.
Arguments rows {F} d.
Arguments Build_DataFrame {F} columns rows.

(** [df['Date']] *)
Inductive DateSeries :=
| DatetimeSeries (l : list Timestamp)
| ObjectSeries (l : list string).

(** A cell of the [Date] column in a record of [to_dict]. *)
Inductive DateCell :=
| Datetime (t : Timestamp)
| DateStr (s : string).

Definition fields {F} (r : Rows F) : list F :=
  match r with
  | DatetimeRows l => map snd l
  | ObjectRows l => map snd l
  end.

Definition date_series {F} (r : Rows F) : DateSeries :=
  match r with
  | DatetimeRows l => DatetimeSeries (map fst l)
  | ObjectRows l => ObjectSeries (map fst l)
  end.

Definition records {F} (r : Rows F) : list (DateCell * F) :=
  match r with
  | DatetimeRows l => map (λ x, (Datetime (fst x), snd x)) l
  | ObjectRows l => map (λ x, (DateStr (fst x), snd x)) l
  end.

(** [l[mask]]: the entries whose mask bit is set, in order. *)
Definition boolean_index {A} (l : list A) (mask : list bool) : list A :=
  map fst (List.filter snd (combine l mask)).

Definition rows_index {F} (r : Rows F) (mask : list bool) : Rows F :=
  match r with
  | DatetimeRows l => DatetimeRows (boolean_index l mask)
  | ObjectRows l => ObjectRows (boolean_index l mask)
  end.

(** [col in df.columns] *)
Definition in_columns {F} (col : string) (df : DataFrame F) : bool :=
  existsb (String.eqb col) (columns df).

(** ** The heap of frames and the monad of the handlers *)

Definition ref := nat.
Abbreviation Heap F := (list (DataFrame F)).

(** A computation over the heap: it raises or returns, and leaves a heap
    in both cases (what was mutated before a [raise] stays mutated). *)
Definition M (F A : Type) : Type := Heap F → (Exn + A) * Heap F.

Definition ret {F A} (a : A) : M F A := λ h, (inr a, h).
Definition raise {F A} (e : Exn) : M F A := λ h, (inl e, h).

Definition bind {F A B} (m : M F A) (k : A → M F B) : M F B :=
  λ h, match m h with
       | (inr a, h') => k a h'
       | (inl e, h') => (inl e, h')
       end.

(** [try: m  except Exception as e: handler e] *)
Definition try_except {F A} (m : M F A) (handler : Exn → M F A) : M F A :=
  λ h, match m h with
       | (inr a, h') => (inr a, h')
       | (inl e, h') => handler e h'
       end.

Global Instance M_ret {F} : MRet (M F) := λ A, ret.
Global Instance M_bind {F} : MBind (M F) := λ A B k m, bind m k.

Section HeapOps.
Context {F : Type}.

Definition deref (r : ref) : M F (DataFrame F) :=
  λ h, match h !! r with
       | Some d => (inr d, h)
       | None => (inl (SystemError "dangling reference"), h)
       end.

Definition alloc (d : DataFrame F) : M F ref :=
  λ h, (inr (length h), h ++ [d]).

Definition store (r : ref) (d : DataFrame F) : M F unit :=
  λ h, (inr tt, <[r := d]> h).

(** [obj.copy()] where [obj] is [None] or a frame *)
Definition copy (obj : option ref) : M F ref :=
  match obj with
  | None => raise (AttributeError "'NoneType' object has no attribute 'copy'")
  | Some r => d ← deref r; alloc d
  end.

(** [df['Date']] *)
Definition getitem_Date (df : ref) : M F DateSeries :=
  d ← deref df; ret (date_series (rows d)).

(** [col >= ts] and [col <= ts] on a date column *)
Definition series_ge (col : DateSeries) (ts : Timestamp) : M F (list bool) :=
  match col with
  | DatetimeSeries l => ret (map (λ d, ts <=? d) l)
  | ObjectSeries _ =>
      raise (TypeError "'>=' not supported between instances of 'str' and 'Timestamp'")
  end.

Definition series_le (col : DateSeries) (ts : Timestamp) : M F (list bool) :=
  match col with
  | DatetimeSeries l => ret (map (λ d, d <=? ts) l)
  | ObjectSeries _ =>
      raise (TypeError "'<=' not supported between instances of 'str' and 'Timestamp'")
  end.

(** [df[mask]]: a new frame *)
Definition getitem_mask (df : ref) (mask : list bool) : M F ref :=
  d ← deref df;
  alloc {| columns := columns d; rows := rows_index (rows d) mask |}.

(** [df['Date'] = col]: in place *)
Definition setitem_Date (df : ref) (col : list string) : M F unit :=
  d ← deref df;
  if (length col =? length (fields (rows d)))%nat
  then store df {| columns := columns d;
                   rows := ObjectRows (combine col (fields (rows d))) |}
  else raise (ValueError "Length of values does not match length of index").

(** [len(df)] *)
Definition len (df : ref) : M F nat :=
  d ← deref df; ret (length (fields (rows d))).

(** [df.to_dict(orient='records')] *)
Definition to_dict (df : ref) : M F (list (DateCell * F)) :=
  d ← deref df; ret (records (rows d)).

End HeapOps.

(** ** Replies of the API *)

(** A Flask response: the status code and the JSON document. *)
Record Response (B : Type) := {
  status_code : Z;
  json : B
}.
Arguments Build_Response {B} status_code json.
Arguments status_code {B} r.
Arguments json {B} r.

(** The two shapes the data endpoints answer with:
    [{'success': True, ...payload}] and [{'success': False, 'error': msg}]. *)
Inductive Reply (A : Type) :=
| Success (payload : A)
| Failure (error : string).
Arguments Success {A} payload.
Arguments Failure {A} error.

(** [return jsonify(doc)] and [return jsonify(doc), code] *)
Definition jsonify {B} (doc : B) : Response B :=
  {| status_code := 200; json := doc |}.
Definition jsonify_code {B} (doc : B) (code : Z) : Response B :=
  {| status_code := code; json := doc |}.

(** [app.errorhandler(500)]: what Flask answers when a view raises. *)
Definition internal_error {A} : Response (Reply A) :=
  jsonify_code (Failure "Internal server error") 500.

(** The payload of [/api/prices] and [/api/events]. *)
Record Listing (F : Type) := {
  count : nat;
  data : list (DateCell * F)
}.
Arguments Build_Listing {F} count data.
Arguments count {F} l.
Arguments data {F} l.

(** The document of [/api/health]. *)
Record Health := {
  status : string;
  message : string;
  version : string
}.

(** The payload of [/api/date-range]. *)
Record DateRange := {
  min_date : string;
  max_date : string
}.

(** The payload of [/api/statistics]; [None] is JSON [null]. *)
Module Stats.
Record t := {
  count : nat;
  mean_price : pyfloat;
  median_price : pyfloat;
  std_price : pyfloat;
  min_price : pyfloat;
  max_price : pyfloat;
  mean_return : option pyfloat;
  volatility : option pyfloat
}.
End Stats.

(** [changepoint_results.json] *)
Record Results := {
  change_point_date : string;
  change_point_index : Z;
  change_point_uncertainty_days : Q;
  mu_before : Q;
  mu_after : Q;
  sigma_before : Q;
  sigma_after : Q;
  mean_change : Q;
  volatility_change : Q;
  prob_mean_increase : Q;
  prob_volatility_increase : Q;
  price_before : Q;
  price_after : Q;
  price_change_pct : Q
}.

(** ** The process state of the backend *)

(** The module globals [price_data], [events_data], [changepoint_results]
    ([None] after a failed load) and the frames they refer to.  A view
    function has no [global] statement: it can mutate the objects the
    globals refer to, not rebind the globals. *)
Record World := {
  price_heap : Heap PriceFields;
  event_heap : Heap EventFields;
  price_data : option ref;
  events_data : option ref;
  changepoint_results : option Results
}.

Definition set_price_heap (w : World) (h : Heap PriceFields) : World :=
  {| price_heap := h; event_heap := event_heap w;
     price_data := price_data w; events_data := events_data w;
     changepoint_results := changepoint_results w |}.

Definition set_event_heap (w : World) (h : Heap EventFields) : World :=
  {| price_heap := price_heap w; event_heap := h;
     price_data := price_data w; events_data := events_data w;
     changepoint_results := changepoint_results w |}.

(** What the three reads of [load_all_data] yield: [None] where the read
    raises (missing or malformed file).  A frame read by [pd.read_csv]
    has its dates as strings. *)
Record Artifacts := {
  brent_with_changepoint_csv : option (DataFrame PriceFields);
  structured_events_csv : option (DataFrame EventFields);
  changepoint_results_json : option Results
}.

(** Running a view: an exception that escapes it is answered by the
    500 handler. *)
Definition dispatch {F A} (view : M F (Response (Reply A))) (h : Heap F)
  : Response (Reply A) * Heap F :=
  match view h with
  | (inr r, h') => (r, h')
  | (inl _, h') => (internal_error, h')
  end.

(** First-appearance order, as [Series.unique()]. *)
Definition unique (l : list string) : list string :=
  fold_left (λ acc x, if existsb (String.eqb x) acc then acc else acc ++ [x]) l [].

Section Backend.
Context (to_datetime : string → option Timestamp).
Context (strftime : Timestamp → string).
Context (sqrt : Q → Q).

(** [pd.to_datetime(s)] on a string *)
Definition pd_to_datetime {F} (s : string) : M F Timestamp :=
  match to_datetime s with
  | Some t => ret t
  | None => raise (parse_error s)
  end.

(** [df['Date'] = pd.to_datetime(df['Date'])] on a freshly read frame *)
Definition parse_dates {F} (d : DataFrame F) : option (DataFrame F) :=
  match rows d with
  | DatetimeRows _ => Some d
  | ObjectRows l =>
      l' ← mapM (λ r, t ← to_datetime (fst r); Some (t, snd r)) l;
      Some {| columns := columns d; rows := DatetimeRows l' |}
  end.

(** [load_all_data()] followed by the binding of the three globals:
    any exception leaves all three [None]. *)
Definition load_all_data (a : Artifacts) : World :=
  let loaded :=
    df ← brent_with_changepoint_csv a;
    df ← parse_dates df;
    events_df ← structured_events_csv a;
    events_df ← parse_dates events_df;
    results ← changepoint_results_json a;
    Some (df, events_df, results) in
  match loaded with
  | Some (df, events_df, results) =>
      {| price_heap := [df]; event_heap := [events_df];
         price_data := Some 0%nat; events_data := Some 0%nat;
         changepoint_results := Some results |}
  | None =>
      {| price_heap := []; event_heap := [];
         price_data := None; events_data := None;
         changepoint_results := None |}
  end.

(** [.dt.strftime('%Y-%m-%d')] *)
Definition dt_strftime {F} (col : DateSeries) : M F (list string) :=
  match col with
  | DatetimeSeries l => ret (map strftime l)
  | ObjectSeries _ =>
      raise (AttributeError "Can only use .dt accessor with datetimelike values")
  end.

(** The block "Apply date filters" of [get_prices], [get_events] and
    [get_statistics]:
<<
    if start_date: df = df[df['Date'] >= pd.to_datetime(start_date)]
    if end_date:   df = df[df['Date'] <= pd.to_datetime(end_date)]
>> *)
Definition apply_date_filters {F} (df : ref) (start_date end_date : option string)
  : M F ref :=
  df ← if_str start_date
         (λ s, col ← getitem_Date df;
               ts ← pd_to_datetime s;
               mask ← series_ge col ts;
               getitem_mask df mask)
         (mret df);
  if_str end_date
    (λ s, col ← getitem_Date df;
          ts ← pd_to_datetime s;
          mask ← series_le col ts;
          getitem_mask df mask)
    (mret df).

(** The block "Convert to JSON-friendly format" and the reply of
    [get_prices] and [get_events]. *)
Definition listing_reply {F} (df : ref) : M F (Response (Reply (Listing F))) :=
  col ← getitem_Date df;
  strs ← dt_strftime col;
  setitem_Date df strs;;
  n ← len df;
  recs ← to_dict df;
  mret (jsonify (Success {| count := n; data := recs |})).

(** [except Exception as e: return jsonify({'success': False, 'error': str(e)}), 500] *)
Definition on_exception {F A} (e : Exn) : M F (Response (Reply A)) :=
  mret (jsonify_code (Failure (str e)) 500).

Definition get_prices_view (price_data : option ref) (args : Args)
  : M PriceFields (Response (Reply (Listing PriceFields))) :=
  try_except
    (df ← copy price_data;
     let start_date := args_get args "start_date" in
     let end_date := args_get args "end_date" in
     df ← apply_date_filters df start_date end_date;
     listing_reply df)
    on_exception.

(** [df['Event_Type']] *)
Definition getitem_Event_Type (df : ref) : M EventFields (list string) :=
  d ← deref df; mret (map Event_Type (fields (rows d))).

Definition get_events_view (events_data : option ref) (args : Args)
  : M EventFields (Response (Reply (Listing EventFields))) :=
  try_except
    (df ← copy events_data;
     let start_date := args_get args "start_date" in
     let end_date := args_get args "end_date" in
     let event_type := args_get args "event_type" in
     df ← apply_date_filters df start_date end_date;
     df ← if_str event_type
            (λ s, col ← getitem_Event_Type df;
                  getitem_mask df (map (λ t, String.eqb t s) col))
            (mret df);
     listing_reply df)
    on_exception.

(** [df['Price']] and [df['log_return']] *)
Definition getitem_Price (df : ref) : M PriceFields (list pyfloat) :=
  d ← deref df; mret (map (λ f, Fin (Price f)) (fields (rows d))).

Definition getitem_log_return (df : ref) : M PriceFields (list pyfloat) :=
  d ← deref df; mret (map log_return (fields (rows d))).

Definition get_statistics_view (price_data : option ref) (args : Args)
  : M PriceFields (Response (Reply Stats.t)) :=
  try_except
    (df ← copy price_data;
     let start_date := args_get args "start_date" in
     let end_date := args_get args "end_date" in
     df ← apply_date_filters df start_date end_date;
     n ← len df;
     price ← getitem_Price df;
     d ← deref df;
     ret_col ← getitem_log_return df;
     let stats :=
       {| Stats.count := n;
          Stats.mean_price := nanops.nanmean price;
          Stats.median_price := nanops.nanmedian price;
          Stats.std_price := nanops.nanstd sqrt price;
          Stats.min_price := nanops.nanmin price;
          Stats.max_price := nanops.nanmax price;
          Stats.mean_return :=
            if in_columns "log_return" d then Some (nanops.nanmean ret_col) else None;
          Stats.volatility :=
            if in_columns "log_return" d then Some (nanops.nanstd sqrt ret_col) else None |} in
     mret (jsonify (Success stats)))
    on_exception.

(** [obj['Event_Type']] / [obj['Date']] where [obj] is [None] or a frame *)
Definition subscript {F} (obj : option ref) : M F ref :=
  match obj with
  | None => raise (TypeError "'NoneType' object is not subscriptable")
  | Some r => mret r
  end.

Definition get_event_types_view (events_data : option ref)
  : M EventFields (Response (Reply (list string))) :=
  try_except
    (df ← subscript events_data;
     col ← getitem_Event_Type df;
     mret (jsonify (Success (unique col))))
    on_exception.

(** [col.min().strftime('%Y-%m-%d')] and the same with [max]: the
    extremum of an empty datetime column is [NaT]. *)
Definition extremum_strftime {F} (pick : Timestamp → Timestamp → Timestamp)
    (col : DateSeries) : M F string :=
  match col with
  | DatetimeSeries [] => raise (ValueError "NaTType does not support strftime")
  | DatetimeSeries (t :: l) => mret (strftime (fold_left pick l t))
  | ObjectSeries _ => raise (AttributeError "object has no attribute 'strftime'")
  end.

Definition get_date_range_view (price_data : option ref)
  : M PriceFields (Response (Reply DateRange)) :=
  try_except
    (df ← subscript price_data;
     col ← getitem_Date df;
     lo ← extremum_strftime Z.min col;
     df ← subscript price_data;
     col ← getitem_Date df;
     hi ← extremum_strftime Z.max col;
     mret (jsonify (Success {| min_date := lo; max_date := hi |})))
    on_exception.

(** *** The endpoints, as functions of the process state *)

Definition health_check (w : World) : Response Health * World :=
  (jsonify {| status := "healthy";
              message := "Bayesian Oil Market API is running";
              version := "1.0.0" |}, w).

Definition get_prices (w : World) (args : Args)
  : Response (Reply (Listing PriceFields)) * World :=
  let (r, h) := dispatch (get_prices_view (price_data w) args) (price_heap w) in
  (r, set_price_heap w h).

Definition get_events (w : World) (args : Args)
  : Response (Reply (Listing EventFields)) * World :=
  let (r, h) := dispatch (get_events_view (events_data w) args) (event_heap w) in
  (r, set_event_heap w h).

(** [jsonify] of the global, whatever it holds: [None] becomes [null]. *)
Definition get_changepoint (w : World) : Response (Reply (option Results)) * World :=
  (jsonify (Success (changepoint_results w)), w).

Definition get_statistics (w : World) (args : Args)
  : Response (Reply Stats.t) * World :=
  let (r, h) := dispatch (get_statistics_view (price_data w) args) (price_heap w) in
  (r, set_price_heap w h).

Definition get_event_types (w : World) : Response (Reply (list string)) * World :=
  let (r, h) := dispatch (get_event_types_view (events_data w)) (event_heap w) in
  (r, set_event_heap w h).

Definition get_date_range (w : World) : Response (Reply DateRange) * World :=
  let (r, h) := dispatch (get_date_range_view (price_data w)) (price_heap w) in
  (r, set_price_heap w h).

End Backend.

(** ** The dashboard ([src/dashboard/app.py]) *)

(** The dashboard works on the frames returned by [load_data], whose
    dates are datetimes; every frame it derives is a new object
    (boolean indexing, [.copy()], [sort_values]), so its computations
    are modelled on the lists of rows. *)
Module Dashboard.

Definition Frame (F : Type) := list (Timestamp * F).

(** A row of [events_analysis]: an event with the two added columns. *)
Record AnalysisRow := {
  event : Timestamp * EventFields;
  days_from_changepoint : Z;
  abs_days : Z
}.

(** [l.sort_values(key)]: pandas sorts the key column alone with
    numpy's [argsort] and takes the rows in the order of the indexer it
    returns.  Which permutation [argsort] yields on equal keys depends
    on the sorting algorithm ([kind='quicksort'] by default, not
    guaranteed stable): it is a parameter. *)
Definition take_rows {A} (l : list A) (indexer : list nat) : list A :=
  omap (λ i, l !! i) indexer.

Definition sort_values {A} (argsort : list Z → list nat) (key : A → Z) (l : list A)
  : list A :=
  take_rows l (argsort (map key l)).

(** A stable [argsort], to run the dashboard on concrete data: an
    insertion sort of the keys paired with their positions. *)
Fixpoint insert_by {A} (key : A → Z) (x : A) (l : list A) : list A :=
  match l with
  | [] => [x]
  | y :: l' => if key x <=? key y then x :: l else y :: insert_by key x l'
  end.

Definition insertion_sort {A} (key : A → Z) (l : list A) : list A :=
  fold_right (insert_by key) [] l.

Definition stable_argsort (ks : list Z) : list nat :=
  map snd (insertion_sort fst (zip ks (seq 0 (length ks)))).

Section Main.
Context (argsort : list Z → list nat).
Context (to_datetime : string → option Timestamp).

(** [pd.to_datetime(results['change_point_date'])] *)
Definition change_date (results : Results) : option Timestamp :=
  to_datetime (change_point_date results).

(** The block "Filter data" of [main]; [date_range] is the tuple of
    the date picker, its entries day numbers. *)
Definition df_filtered (df : Frame PriceFields) (date_range : list Z)
  : Frame PriceFields :=
  match date_range with
  | [d0; d1] =>
      let dates := map (λ r, dt_date (fst r)) df in
      boolean_index df
        (zip_with andb (map (λ d, d0 <=? d) dates) (map (λ d, d <=? d1) dates))
  | _ => df
  end.

(** [events_df[events_df['Event_Type'].isin(event_types)]] *)
Definition events_filtered (events_df : Frame EventFields) (event_types : list string)
  : Frame EventFields :=
  boolean_index events_df
    (map (λ r, existsb (String.eqb (Event_Type (snd r))) event_types) events_df).

(** [df[df['Date'] < change_date]] and [df[df['Date'] >= change_date]]:
    the regime split of [main] ("Summary Statistics") and of
    [create_returns_chart] ([before_data], [after_data]). *)
Definition before {F} (df : Frame F) (cd : Timestamp) : Frame F :=
  boolean_index df (map (λ r, fst r <? cd) df).

Definition after {F} (df : Frame F) (cd : Timestamp) : Frame F :=
  boolean_index df (map (λ r, cd <=? fst r) df).

(** The block "Calculate distances from change point" of [main]
    (page "Event Analysis"). *)
Definition with_distances (events : Frame EventFields) (cd : Timestamp)
  : list AnalysisRow :=
  map (λ r, let days := timedelta_days (fst r) cd in
            {| event := r; days_from_changepoint := days; abs_days := Z.abs days |})
      events.

Definition events_analysis (results : Results) (events : Frame EventFields)
  : option (list AnalysisRow) :=
  cd ← change_date results;
  Some (sort_values argsort abs_days (with_distances events cd)).

(** [events_analysis.head(5)] *)
Definition closest_events (analysis : list AnalysisRow) : list AnalysisRow :=
  take 5 analysis.

End Main.

End Dashboard.

(** ** The charts and tables of the dashboard *)

(** What the figures are built from: the traces, lines and table
    columns, before any formatting.  [None] is a call that raises. *)
Module Charts.

(** [s.replace('_', ' ')] *)
Fixpoint replace_underscore (s : string) : string :=
  match s with
  | EmptyString => EmptyString
  | String c s' =>
      String (if Ascii.eqb c "_" then " "%char else c) (replace_underscore s')
  end.

(** [np.argmin]: the first position of the least value; an empty
    sequence has none. *)
Fixpoint argmin_from (best_i : nat) (best : Z) (i : nat) (l : list Z) : nat :=
  match l with
  | [] => best_i
  | v :: l' =>
      if v <? best then argmin_from i v (S i) l'
      else argmin_from best_i best (S i) l'
  end.

Definition argmin (l : list Z) : option nat :=
  match l with
  | [] => None
  | v :: l' => Some (argmin_from 0 v 1 l')
  end.

(** [(df['Date'] - date).abs().argmin()] *)
Definition closest_idx (df : Dashboard.Frame PriceFields) (date : Timestamp)
  : option nat :=
  argmin (map (λ r, Z.abs (fst r - date)) df).

(** [df.iloc[closest_idx]['Price']] *)
Definition closest_price (df : Dashboard.Frame PriceFields) (date : Timestamp)
  : option Q :=
  i ← closest_idx df date;
  r ← df !! i;
  Some (Price (snd r)).

(** A marker trace of [create_price_chart]. *)
Module Trace.
Record t := {
  name : string;
  x : list Timestamp;
  y : list Q;
  marker_color : string;
  text : list string
}.
End Trace.

Definition event_colors : gmap string string :=
  list_to_map [("OPEC_Decision", "green"); ("Geopolitical", "darkred");
               ("Economic_Shock", "orange")]%string.

(** The body of the loop [for event_type in events_df['Event_Type'].unique()]. *)
Definition event_trace (df : Dashboard.Frame PriceFields)
    (events_df : Dashboard.Frame EventFields) (event_type : string) : option Trace.t :=
  let event_data :=
    boolean_index events_df
      (map (λ r, String.eqb (Event_Type (snd r)) event_type) events_df) in
  event_prices ← mapM (closest_price df) (map fst event_data);
  Some {| Trace.name := replace_underscore event_type;
          Trace.x := map fst event_data;
          Trace.y := event_prices;
          Trace.marker_color := default "gray"%string (event_colors !! event_type);
          Trace.text := map (λ r, Description (snd r)) event_data |}.

Record PriceChart := {
  price_line : list (Timestamp * Q);
  change_line : Timestamp;
  event_traces : list Trace.t
}.

Definition create_price_chart (to_datetime : string → option Timestamp)
    (df : Dashboard.Frame PriceFields) (events_df : Dashboard.Frame EventFields)
    (results : Results) : option PriceChart :=
  change_date ← to_datetime (change_point_date results);
  traces ← mapM (event_trace df events_df)
                (unique (map (λ r, Event_Type (snd r)) events_df));
  Some {| price_line := map (λ r, (fst r, Price (snd r))) df;
          change_line := change_date;
          event_traces := traces |}.

(** A horizontal line of [create_returns_chart]. *)
Module HLine.
Record t := {
  y : Q;
  annotation_position : string
}.
End HLine.

Definition create_returns_chart (to_datetime : string → option Timestamp)
    (df : Dashboard.Frame PriceFields) (results : Results) : option (list HLine.t) :=
  change_date ← to_datetime (change_point_date results);
  let before_data := Dashboard.before df change_date in
  let after_data := Dashboard.after df change_date in
  Some ((if (0 <? length before_data)%nat
         then [{| HLine.y := mu_before results; HLine.annotation_position := "left" |}]
         else [])
        ++ (if (0 <? length after_data)%nat
            then [{| HLine.y := mu_after results; HLine.annotation_position := "right" |}]
            else [])).

(** A row of the frame [create_event_timeline] plots. *)
Module Timeline.
Record t := {
  event : Timestamp * EventFields;
  days_from_cp : Z;
  abs_days : Z;
  color : option string
}.
End Timeline.

Definition color_map : gmap string string :=
  list_to_map [("OPEC_Decision", "#2ecc71"); ("Geopolitical", "#e74c3c");
               ("Economic_Shock", "#f39c12")]%string.

(** The frame of [create_event_timeline]: the two distance columns,
    [sort_values('Date')], then the colour column; a type outside
    [color_map] maps to no colour (NaN). *)
Definition create_event_timeline (argsort : list Z → list nat)
    (to_datetime : string → option Timestamp)
    (events_df : Dashboard.Frame EventFields) (results : Results)
  : option (list Timeline.t) :=
  change_date ← to_datetime (change_point_date results);
  let with_days :=
    map (λ r, let days := timedelta_days (fst r) change_date in
              {| Timeline.event := r; Timeline.days_from_cp := days;
                 Timeline.abs_days := Z.abs days; Timeline.color := None |})
        events_df in
  let sorted := Dashboard.sort_values argsort (λ x, fst (Timeline.event x)) with_days in
  Some (map (λ x, {| Timeline.event := Timeline.event x;
                     Timeline.days_from_cp := Timeline.days_from_cp x;
                     Timeline.abs_days := Timeline.abs_days x;
                     Timeline.color := color_map !! Event_Type (snd (Timeline.event x)) |})
            sorted).

(** A column of the table "Summary Statistics" of [main], before the
    values are formatted. *)
Module Regime.
Record t := {
  Count : nat;
  Mean_Price : pyfloat;
  Std_Dev : pyfloat;
  Min_Price : pyfloat;
  Max_Price : pyfloat;
  Mean_Return : pyfloat;
  Return_Volatility : pyfloat
}.
End Regime.



End Charts.

(** ** Vocabulary of the statements *)

(** The timestamp a request parameter stands for: an absent or empty
    parameter imposes no bound ([Some None]), a parameter the parser
    rejects has no reading ([None]). *)
Definition bound (to_datetime : string → option Timestamp) (o : option string)
  : option (option Timestamp) :=
  match o with
  | None => Some None
  | Some s => if String.eqb s "" then Some None else Some <$> to_datetime s
  end.

Definition lower_ok (lo : option Timestamp) (t : Timestamp) : bool :=
  match lo with Some a => a <=? t | None => true end.

Definition upper_ok (hi : option Timestamp) (t : Timestamp) : bool :=
  match hi with Some b => t <=? b | None => true end.

(** [from_date <= date <= to_date], a missing bound imposing nothing *)
Definition in_range (lo hi : option Timestamp) (t : Timestamp) : bool :=
  lower_ok lo t && upper_ok hi t.

(** A stored row as it appears in a listing: the date formatted. *)
Definition render {F} (strftime : Timestamp → string) (row : Timestamp * F)
  : DateCell * F :=
  (DateStr (strftime (fst row)), snd row).

(** What the globals of a process state give access to. *)
Definition snapshot (w : World)
  : option (DataFrame PriceFields) * option (DataFrame EventFields) * option Results :=
  (r ← price_data w; price_heap w !! r,
   r ← events_data w; event_heap w !! r,
   changepoint_results w).

(** A view leaves the process state as it found it: the globals, the
    frames they give access to, and every frame object that existed
    before the call (new objects may have been allocated). *)
Definition unchanged (w w' : World) : Prop :=
  snapshot w' = snapshot w
  ∧ price_data w' = price_data w
  ∧ events_data w' = events_data w
  ∧ price_heap w `prefix_of` price_heap w'
  ∧ event_heap w `prefix_of` event_heap w'.

(** In a successful listing the [count] field is the length of [data]. *)
Definition count_matches {F} (r : Response (Reply (Listing F))) : Prop :=
  ∀ l, json r = Success l → count l = length (data l).

(** A failure reply, whatever its status code and text. *)
Definition is_failure {B} (r : Response (Reply B)) : Prop :=
  ∃ e, json r = Failure e.

(** A 4xx status: the request is at fault. *)
Definition client_error {B} (r : Response B) : Prop :=
  400 <= status_code r < 500.

(** The rows of the stored frame a global refers to. *)
Definition stored_rows {F} (h : Heap F) (g : option ref) (l : list (Timestamp * F)) : Prop :=
  ∃ r d, g = Some r ∧ h !! r = Some d ∧ rows d = DatetimeRows l.

(** The event-type test of a request: no constraint when the parameter
    is absent or empty. *)
Definition type_ok (event_type : option string) (e : EventFields) : bool :=
  if_str event_type (λ s, String.eqb (Event_Type e) s) true.

(** The reading of "a malformed date is a client-input error, distinct
    from the failure of an unloaded store": on a loaded store a request
    whose date the parser rejects is answered by a failure with a 4xx
    status, which is not the status the same request gets from a store
    that is not loaded. *)
Definition malformed_date_is_client_error
    (to_datetime : string → option Timestamp) (strftime : Timestamp → string) : Prop :=
  ∀ (w w0 : World) (args : Args) (l : list (Timestamp * PriceFields)),
    stored_rows (price_heap w) (price_data w) l →
    price_data w0 = None →
    bound to_datetime (args_get args "start_date") = None →
    let r := (get_prices to_datetime strftime w args).1 in
    let r0 := (get_prices to_datetime strftime w0 args).1 in
    is_failure r ∧ client_error r ∧ status_code r ≠ status_code r0.

(** The one failure reply of the views: status 500 and
    [{'success': False, 'error': ...}]. *)
Definition generic_failure {B} (r : Response (Reply B)) : Prop :=
  status_code r = 500 ∧ is_failure r.

(** *** Statistics, in the words of the specification *)

(** The arithmetic mean of the values. *)
Definition Qmean (xs : list Q) : Q :=
  (Qsum xs / inject_Z (Z.of_nat (length xs)))%Q.

(** The sample variance: squared deviations from the mean, summed,
    over [N - 1].  The sample standard deviation is its square root. *)
Definition sample_variance (xs : list Q) : Q :=
  (Qsum (map (λ x, (x - Qmean xs) * (x - Qmean xs)) xs)
   / inject_Z (Z.of_nat (length xs) - 1))%Q.

(** No field of the statistics is NaN. *)
Definition no_nan (st : Stats.t) : Prop :=
  Stats.mean_price st ≠ NaN ∧ Stats.median_price st ≠ NaN
  ∧ Stats.std_price st ≠ NaN ∧ Stats.min_price st ≠ NaN
  ∧ Stats.max_price st ≠ NaN
  ∧ Stats.mean_return st ≠ Some NaN ∧ Stats.volatility st ≠ Some NaN.

(** The reading of the N-policy on a reply: no NaN, and a zero
    standard deviation for a single observation. *)
Definition n_policy (st : Stats.t) : Prop :=
  no_nan st
  ∧ (Stats.count st = 1%nat → ∃ z, Stats.std_price st = Fin z ∧ (z == 0)%Q).

Definition statistics_follow_n_policy
    (to_datetime : string → option Timestamp) (sqrt : Q → Q) : Prop :=
  ∀ (w : World) (args : Args) (st : Stats.t),
    (get_statistics to_datetime sqrt w args).1 = jsonify (Success st) →
    n_policy st.

(** The reading of "the return statistics are present iff some
    observation of the slice has a defined [log_return]": [None] is the
    absent value of the reply. *)
Definition returns_present_iff_defined
    (to_datetime : string → option Timestamp) (sqrt : Q → Q) : Prop :=
  ∀ (w : World) (args : Args) (l : list (Timestamp * PriceFields))
    (lo hi : option Timestamp) (st : Stats.t),
    stored_rows (price_heap w) (price_data w) l →
    bound to_datetime (args_get args "start_date") = Some lo →
    bound to_datetime (args_get args "end_date") = Some hi →
    (get_statistics to_datetime sqrt w args).1 = jsonify (Success st) →
    (Stats.mean_return st ≠ None ∧ Stats.volatility st ≠ None)
    ↔ (∃ row, In row (List.filter (λ row, in_range lo hi (fst row)) l)
              ∧ log_return (snd row) ≠ NaN).

(** The statistics dict of [get_statistics] for a filtered frame whose
    non-date columns are [sel]; [has_returns] is the test
    ['log_return' in df.columns]. *)
Definition stats_of_slice (sqrt : Q → Q) (has_returns : bool) (sel : list PriceFields)
  : Stats.t :=
  let price := map (λ f, Fin (Price f)) sel in
  let ret_col := map log_return sel in
  {| Stats.count := length sel;
     Stats.mean_price := nanops.nanmean price;
     Stats.median_price := nanops.nanmedian price;
     Stats.std_price := nanops.nanstd sqrt price;
     Stats.min_price := nanops.nanmin price;
     Stats.max_price := nanops.nanmax price;
     Stats.mean_return := if has_returns then Some (nanops.nanmean ret_col) else None;
     Stats.volatility := if has_returns then Some (nanops.nanstd sqrt ret_col) else None |}.

(** *** Orderings of the event analysis *)

(** Ascending on [abs_days]. *)
Definition nearer (x y : Dashboard.AnalysisRow) : Prop :=
  Dashboard.abs_days x <= Dashboard.abs_days y.

(** Of two rows at the same distance, the one listed first has the
    earlier (or the same) date. *)
Definition ties_by_earlier_date (out : list Dashboard.AnalysisRow) : Prop :=
  ∀ (i j : nat) (x y : Dashboard.AnalysisRow),
    (i < j)%nat → out !! i = Some x → out !! j = Some y →
    Dashboard.abs_days x = Dashboard.abs_days y →
    fst (Dashboard.event x) <= fst (Dashboard.event y).

(** The rows at distance [k], in the order of the list. *)
Definition at_distance (k : Z) (l : list Dashboard.AnalysisRow)
  : list Dashboard.AnalysisRow :=
  List.filter (λ x, Dashboard.abs_days x =? k) l.

(** What numpy documents of [argsort]: the indexer is a permutation of
    the positions, and taking the keys in its order sorts them. *)
Definition argsort_ok (argsort : list Z → list nat) : Prop :=
  ∀ ks, Permutation (argsort ks) (seq 0 (length ks))
        ∧ Sorted Z.le (Dashboard.take_rows ks (argsort ks)).

(** The reading of "nearest-first, ties broken by earlier date". *)
Definition nearest_first_with_date_ties
    (argsort : list Z → list nat) (to_datetime : string → option Timestamp) : Prop :=
  ∀ (results : Results) (events : Dashboard.Frame EventFields)
    (out : list Dashboard.AnalysisRow),
    Dashboard.events_analysis argsort to_datetime results events = Some out →
    Sorted nearer out ∧ ties_by_earlier_date out.

(** *** The reply of a view, as a function of the stored rows *)

(** The date window of a request: the two bounds, or the exception of
    the first supplied date the parser rejects ([start_date] is read
    before [end_date]). *)
Definition window (to_datetime : string → option Timestamp) (args : Args)
  : Exn + (option Timestamp * option Timestamp) :=
  match bound to_datetime (args_get args "start_date") with
  | None => inl (parse_error (default ""%string (args_get args "start_date")))
  | Some lo =>
      match bound to_datetime (args_get args "end_date") with
      | None => inl (parse_error (default ""%string (args_get args "end_date")))
      | Some hi => inr (lo, hi)
      end
  end.

(** A reply is coherent: status 200 with [success] true, or status 500
    with [success] false. *)
Definition coherent {A} (r : Response (Reply A)) : Prop :=
  match json r with
  | Success _ => status_code r = 200
  | Failure _ => status_code r = 500
  end.

(** Every date string of a frame as read from the CSV is one the
    parser reads and the formatter gives back. *)
Definition canonical_dates {F} (to_datetime : string → option Timestamp)
    (strftime : Timestamp → string) (csv : list (string * F)) : Prop :=
  Forall (λ r, ∃ t, to_datetime (fst r) = Some t ∧ strftime t = fst r) csv.

(** Every date of a frame as read from the CSV is one the parser
    reads. *)
Definition dates_readable {F} (to_datetime : string → option Timestamp)
    (d : DataFrame F) : Prop :=
  match rows d with
  | DatetimeRows _ => True
  | ObjectRows csv => Forall (λ r, is_Some (to_datetime (fst r))) csv
  end.

(** *** The table of the two regimes *)


(** *** A Hoare triple for heap computations

    [hoare pre m post epost]: from a heap satisfying [pre], [m] ends in
    a heap satisfying [post a] when it returns [a], [epost] when it
    raises. *)
Definition hoare {F A} (pre : Heap F → Prop) (m : M F A)
    (post : A → Heap F → Prop) (epost : Heap F → Prop) : Prop :=
  ∀ h, pre h →
    match m h with
    | (inr a, h') => post a h'
    | (inl _, h') => epost h'
    end.

(** The heap still starts with the objects of [h0]. *)
Definition extends {F} (h0 : Heap F) : Heap F → Prop := λ h, h0 `prefix_of` h.

(** A reference to an object allocated after [h0]. *)
Definition fresh {F} (h0 : Heap F) (r : ref) : Prop := (length h0 ≤ r)%nat.

(** ** A small data set *)

(** The five-row price fixture and a three-event catalog around the
    changepoint date 2020-01-03. *)
Module Fixture.

Definition price_row (p : Z) (r : pyfloat) : PriceFields :=
  {| Price := inject_Z p; log_return := r |}.

Definition prices_csv : DataFrame PriceFields :=
  {| columns := ["Date"; "Price"; "log_return"]%string;
     rows := ObjectRows
       [("2020-01-01", price_row 50 NaN);
        ("2020-01-02", price_row 51 (Fin (198 # 10000)));
        ("2020-01-03", price_row 49 (Fin (-400 # 10000)));
        ("2020-01-04", price_row 52 (Fin (594 # 10000)));
        ("2020-01-05", price_row 53 (Fin (190 # 10000)))]%string |}.

Definition event_row (t d : string) : EventFields :=
  {| Event_Type := t; Description := d; Expected_Impact := "Price volatility" |}.

Definition events_csv : DataFrame EventFields :=
  {| columns := ["Date"; "Event_Type"; "Description"; "Expected_Impact"]%string;
     rows := ObjectRows
       [("2020-01-05", event_row "OPEC_Decision" "Production cut announced");
        ("2020-01-04", event_row "Geopolitical" "Sanctions");
        ("2020-01-03", event_row "Economic_Shock" "Demand shock");
        ("2020-01-02", event_row "Geopolitical" "Regional tension")]%string |}.

Definition results : Results :=
  {| change_point_date := "2020-01-03";
     change_point_index := 2;
     change_point_uncertainty_days := 1;
     mu_before := 198 # 10000;
     mu_after := 128 # 10000;
     sigma_before := 0;
     sigma_after := 497 # 10000;
     mean_change := -70 # 10000;
     volatility_change := 497 # 10000;
     prob_mean_increase := 1 # 2;
     prob_volatility_increase := 9 # 10;
     price_before := 101 # 2;
     price_after := 154 # 3;
     price_change_pct := 165 # 100 |}.

Definition artifacts : Artifacts :=
  {| brent_with_changepoint_csv := Some prices_csv;
     structured_events_csv := Some events_csv;
     changepoint_results_json := Some results |}.

(** The events file is missing. *)
Definition broken_artifacts : Artifacts :=
  {| brent_with_changepoint_csv := Some prices_csv;
     structured_events_csv := None;
     changepoint_results_json := Some results |}.

Definition world : World := load_all_data Iso.to_datetime artifacts.
Definition failed_world : World := load_all_data Iso.to_datetime broken_artifacts.

(** The loaded frames, as the dashboard's [load_data] returns them. *)
Definition df : Dashboard.Frame PriceFields :=
  match price_heap world with
  | {| rows := DatetimeRows l |} :: _ => l
  | _ => []
  end.

Definition events_df : Dashboard.Frame EventFields :=
  match event_heap world with
  | {| rows := DatetimeRows l |} :: _ => l
  | _ => []
  end.

End Fixture.

(** ** Lists and masks *)

Lemma boolean_index_map {A} (p : A → bool) (l : list A) :
  boolean_index l (map p l) = List.filter p l.
Proof.
  unfold boolean_index.
  induction l as [|x l IH]; simpl; [done|].
  destruct (p x); simpl; by rewrite IH.
Qed.

Lemma boolean_index_zip_and {A} (p q : A → bool) (l : list A) :
  boolean_index l (zip_with andb (map p l) (map q l))
  = List.filter (λ x, p x && q x) l.
Proof.
  rewrite <- boolean_index_map. f_equal.
  induction l as [|x l IH]; simpl; [done|]. by rewrite IH.
Qed.

Lemma filter_filter_and {A} (p q : A → bool) (l : list A) :
  List.filter q (List.filter p l) = List.filter (λ x, p x && q x) l.
Proof.
  induction l as [|x l IH]; simpl; [done|].
  destruct (p x); simpl; [destruct (q x)|]; by rewrite IH.
Qed.

Lemma filter_all {A} (l : list A) : List.filter (λ _, true) l = l.
Proof. induction l as [|x l IH]; simpl; congruence. Qed.

Lemma filter_none {A} (p : A → bool) (l : list A) :
  (∀ x, In x l → p x = false) → List.filter p l = [].
Proof.
  induction l as [|x l IH]; simpl; [done|]. intros H.
  rewrite (H x) by auto. apply IH. auto.
Qed.

Lemma filter_sublist {A} (p : A → bool) (l : list A) :
  List.filter p l `sublist_of` l.
Proof.
  induction l as [|x l IH]; simpl; [done|].
  destruct (p x); by constructor.
Qed.

Lemma combine_map_map {A B C} (f : A → B) (g : A → C) (l : list A) :
  combine (map f l) (map g l) = map (λ x, (f x, g x)) l.
Proof. induction l as [|x l IH]; simpl; congruence. Qed.

(** ** The heap operations, step by step *)

Lemma frame_eta {F} (d : DataFrame F) r :
  rows d = r → d = {| columns := columns d; rows := r |}.
Proof. destruct d; simpl; congruence. Qed.

(** Unfolds the monad and the primitive operations, leaving the heap
    lookups and the library functions in place. *)
Ltac mrun :=
  cbv [mbind M_bind bind mret M_ret ret raise try_except
       deref alloc store copy subscript getitem_Date getitem_mask setitem_Date len to_dict
       series_ge series_le pd_to_datetime dt_strftime
       getitem_Event_Type getitem_Price getitem_log_return on_exception].

Section Steps.
Context (to_datetime : string → option Timestamp).
Context (strftime : Timestamp → string).
Context {F : Type}.
Implicit Types (h : Heap F) (d : DataFrame F) (l : list (Timestamp * F)).

Lemma copy_ok h r d :
  h !! r = Some d → copy (Some r) h = (inr (length h), h ++ [d]).
Proof.
  intros H. mrun. by rewrite H.
Qed.

Lemma lookup_fresh h d : (h ++ [d]) !! length h = Some d.
Proof. by rewrite lookup_app_r, Nat.sub_diag. Qed.

(** [if start_date: df = df[df['Date'] >= pd.to_datetime(start_date)]] *)
Lemma filter_from_ok h df d l s lo :
  h !! df = Some d → rows d = DatetimeRows l →
  bound to_datetime s = Some lo →
  ∃ df' h',
    if_str s (λ s, col ← getitem_Date df;
                   ts ← pd_to_datetime to_datetime s;
                   mask ← series_ge col ts;
                   getitem_mask df mask) (mret df) h = (inr df', h')
    ∧ h' !! df' = Some {| columns := columns d;
                          rows := DatetimeRows (List.filter (λ r, lower_ok lo (fst r)) l) |}.
Proof.
  intros Hd Hl Hb. unfold bound, if_str in *.
  destruct s as [s|]; [destruct (String.eqb s "") eqn:Hs|].
  - injection Hb as <-. exists df, h. split; [done|].
    simpl. rewrite filter_all. rewrite Hd. f_equal. by apply frame_eta.
  - destruct (to_datetime s) as [t|] eqn:Ht; [|done]. injection Hb as <-.
    eexists _, _. split.
    + mrun. repeat (first [rewrite Hd | rewrite Ht | rewrite Hl]; simpl). reflexivity.
    + rewrite lookup_fresh. simpl. by rewrite map_map, boolean_index_map.
  - injection Hb as <-. exists df, h. split; [done|].
    simpl. rewrite filter_all. rewrite Hd. f_equal. by apply frame_eta.
Qed.

(** [if end_date: df = df[df['Date'] <= pd.to_datetime(end_date)]] *)
Lemma filter_to_ok h df d l s hi :
  h !! df = Some d → rows d = DatetimeRows l →
  bound to_datetime s = Some hi →
  ∃ df' h',
    if_str s (λ s, col ← getitem_Date df;
                   ts ← pd_to_datetime to_datetime s;
                   mask ← series_le col ts;
                   getitem_mask df mask) (mret df) h = (inr df', h')
    ∧ h' !! df' = Some {| columns := columns d;
                          rows := DatetimeRows (List.filter (λ r, upper_ok hi (fst r)) l) |}.
Proof.
  intros Hd Hl Hb. unfold bound, if_str in *.
  destruct s as [s|]; [destruct (String.eqb s "") eqn:Hs|].
  - injection Hb as <-. exists df, h. split; [done|].
    simpl. rewrite filter_all. rewrite Hd. f_equal. by apply frame_eta.
  - destruct (to_datetime s) as [t|] eqn:Ht; [|done]. injection Hb as <-.
    eexists _, _. split.
    + mrun. repeat (first [rewrite Hd | rewrite Ht | rewrite Hl]; simpl). reflexivity.
    + rewrite lookup_fresh. simpl. by rewrite map_map, boolean_index_map.
  - injection Hb as <-. exists df, h. split; [done|].
    simpl. rewrite filter_all. rewrite Hd. f_equal. by apply frame_eta.
Qed.

Lemma bind_ok {A B} (m : M F A) (k : A → M F B) h a h' :
  m h = (inr a, h') → (m ≫= k) h = k a h'.
Proof. intros H. cbv [mbind M_bind bind]. by rewrite H. Qed.

Lemma bind_raise {A B} (m : M F A) (k : A → M F B) h e h' :
  m h = (inl e, h') → (m ≫= k) h = (inl e, h').
Proof. intros H. cbv [mbind M_bind bind]. by rewrite H. Qed.

(** The two date filters select the rows inside the range. *)
Lemma apply_date_filters_ok h df d l s e lo hi :
  h !! df = Some d → rows d = DatetimeRows l →
  bound to_datetime s = Some lo → bound to_datetime e = Some hi →
  ∃ df' h',
    apply_date_filters to_datetime df s e h = (inr df', h')
    ∧ h' !! df' = Some {| columns := columns d;
                          rows := DatetimeRows (List.filter (λ r, in_range lo hi (fst r)) l) |}.
Proof.
  intros Hd Hl Hs He.
  destruct (filter_from_ok h df d l s lo Hd Hl Hs) as (df1 & h1 & E1 & L1).
  destruct (filter_to_ok h1 df1 _ _ e hi L1 eq_refl He) as (df2 & h2 & E2 & L2).
  exists df2, h2. split.
  - unfold apply_date_filters. by rewrite (bind_ok _ _ _ _ _ E1).
  - rewrite L2. simpl. by rewrite filter_filter_and.
Qed.

(** The conversion of the dates and the reply: the frame [df] refers
    to is rewritten in place. *)
Lemma listing_reply_ok h df d l :
  h !! df = Some d → rows d = DatetimeRows l →
  listing_reply strftime df h
  = (inr (jsonify (Success {| count := length l; data := map (render strftime) l |})),
     <[df := {| columns := columns d;
                rows := ObjectRows (map (λ r, (strftime (fst r), snd r)) l) |}]> h).
Proof.
  intros Hd Hl. unfold listing_reply. mrun.
  rewrite Hd, Hl. simpl. rewrite Hd, Hl. simpl.
  rewrite !length_map, Nat.eqb_refl.
  rewrite list_lookup_insert_eq by (by eapply lookup_lt_Some).
  simpl. rewrite list_lookup_insert_eq by (by eapply lookup_lt_Some).
  simpl. rewrite map_map, combine_map_map, !map_map, length_map. done.
Qed.

End Steps.

(** ** The price listing *)

Section Prices.
Context (to_datetime : string → option Timestamp).
Context (strftime : Timestamp → string).

Lemma get_prices_view_ok h r d l args lo hi :
  h !! r = Some d → rows d = DatetimeRows l →
  bound to_datetime (args_get args "start_date") = Some lo →
  bound to_datetime (args_get args "end_date") = Some hi →
  ∃ h',
    get_prices_view to_datetime strftime (Some r) args h
    = (inr (jsonify (Success
         {| count := length (List.filter (λ row, in_range lo hi (fst row)) l);
            data := map (render strftime)
                        (List.filter (λ row, in_range lo hi (fst row)) l) |})), h').
Proof.
  intros Hd Hl Hs He. unfold get_prices_view, try_except.
  rewrite (bind_ok _ _ _ _ _ (copy_ok h r d Hd)).
  destruct (apply_date_filters_ok to_datetime (h ++ [d]) (length h) d l _ _ lo hi
              (lookup_fresh h d) Hl Hs He) as (df' & h' & E & L).
  rewrite (bind_ok _ _ _ _ _ E).
  rewrite (listing_reply_ok strftime h' df' _ _ L eq_refl).
  eauto.
Qed.

End Prices.

(** C1.  On a loaded price series, with each date bound absent or a
    date the parser reads, [get_prices] succeeds and lists exactly the
    stored observations whose date lies in [from_date <= date <= to_date]
    (a missing bound imposing no constraint), in the order of the
    series, each with its date formatted; for an inverted range the
    listing is empty and the call still succeeds. *)
Theorem get_prices_filters_by_date
    (to_datetime : string → option Timestamp) (strftime : Timestamp → string)
    (w : World) (args : Args) (r : ref) (d : DataFrame PriceFields)
    (l : list (Timestamp * PriceFields)) (lo hi : option Timestamp) :
  price_data w = Some r →
  price_heap w !! r = Some d →
  rows d = DatetimeRows l →
  bound to_datetime (args_get args "start_date") = Some lo →
  bound to_datetime (args_get args "end_date") = Some hi →
  ∃ sel : list (Timestamp * PriceFields),
    (get_prices to_datetime strftime w args).1
      = jsonify (Success {| count := length sel; data := map (render strftime) sel |})
    ∧ sel = List.filter (λ row, in_range lo hi (fst row)) l
    ∧ sel `sublist_of` l
    ∧ (∀ row, In row sel ↔
              In row l
              ∧ (∀ a, lo = Some a → a <= fst row)
              ∧ (∀ b, hi = Some b → fst row <= b))
    ∧ (∀ a b, lo = Some a → hi = Some b → b < a → sel = []).
Proof.
  intros Hg Hd Hl Hs He.
  exists (List.filter (λ row, in_range lo hi (fst row)) l).
  assert (Hin : ∀ row : Timestamp * PriceFields, in_range lo hi (fst row) = true ↔
                       (∀ a, lo = Some a → a <= fst row)
                       ∧ (∀ b, hi = Some b → fst row <= b)).
  { intros row. unfold in_range, lower_ok, upper_ok.
    rewrite andb_true_iff. destruct lo as [a|], hi as [b|];
      rewrite ?Z.leb_le; split; intros [H1 H2]; split;
      try done; try (intros ? [= <-]; done); try (by apply H1); by apply H2. }
  split; [|split; [done|split; [apply filter_sublist|split]]].
  - destruct (get_prices_view_ok to_datetime strftime _ _ _ _ args lo hi Hd Hl Hs He)
      as [h' E].
    unfold get_prices, dispatch. rewrite Hg, E. done.
  - intros row. rewrite filter_In, Hin. done.
  - intros a b -> -> Hlt. apply filter_none. intros row _.
    apply not_true_is_false. rewrite Hin. intros [H1 H2].
    specialize (H1 a eq_refl). specialize (H2 b eq_refl). lia.
Qed.

Lemma get_prices_filters_by_date_witness :
  ∃ sel,
    (get_prices Iso.to_datetime Iso.strftime Fixture.world
       [("start_date", "2020-01-02"); ("end_date", "2020-01-04")]%string).1
      = jsonify (Success {| count := length sel; data := map (render Iso.strftime) sel |})
    ∧ length sel = 3%nat.
Proof.
  destruct (get_prices_filters_by_date Iso.to_datetime Iso.strftime Fixture.world
              [("start_date", "2020-01-02"); ("end_date", "2020-01-04")]%string
              0%nat _ _ _ _ eq_refl eq_refl eq_refl eq_refl eq_refl)
    as (sel & E & -> & _).
  eexists. split; [exact E|]. vm_compute. reflexivity.
Defined.

(** An inverted range on the fixture: success, nothing listed. *)
Example get_prices_inverted_range :
  (get_prices Iso.to_datetime Iso.strftime Fixture.world
     [("start_date", "2020-01-04"); ("end_date", "2020-01-02")]%string).1
  = jsonify (Success {| count := 0; data := [] |}).
Proof. vm_compute. reflexivity. Qed.

(** ** Rules of the triples *)

Section Hoare.
Context {F : Type}.
Implicit Types (h : Heap F).

Lemma hoare_ret {A} (pre : Heap F → Prop) (a : A) post epost :
  (∀ h, pre h → post a h) → hoare pre (mret a) post epost.
Proof. intros H h Hp. by apply H. Qed.

Lemma hoare_raise {A} (pre : Heap F → Prop) (e : Exn) (post : A → Heap F → Prop) epost :
  (∀ h, pre h → epost h) → hoare pre (raise e) post epost.
Proof. intros H h Hp. by apply H. Qed.

Lemma hoare_bind {A B} pre (m : M F A) (k : A → M F B) mid post epost :
  hoare pre m mid epost →
  (∀ a, hoare (mid a) (k a) post epost) →
  hoare pre (m ≫= k) post epost.
Proof.
  intros Hm Hk h Hp. specialize (Hm h Hp).
  cbv [mbind M_bind bind]. destruct (m h) as [[e|a] h']; [done|].
  by apply Hk.
Qed.

Lemma hoare_try {A} pre (m : M F A) handler post mid epost :
  hoare pre m post mid →
  (∀ e, hoare mid (handler e) post epost) →
  hoare pre (try_except m handler) post epost.
Proof.
  intros Hm Hh h Hp. specialize (Hm h Hp).
  unfold try_except. destruct (m h) as [[e|a] h']; [|done].
  by apply Hh.
Qed.

Lemma hoare_conseq {A} (pre pre' : Heap F → Prop) (m : M F A)
    (post post' : A → Heap F → Prop) (epost epost' : Heap F → Prop) :
  hoare pre' m post' epost' →
  (∀ h, pre h → pre' h) →
  (∀ a h, post' a h → post a h) →
  (∀ h, epost' h → epost h) →
  hoare pre m post epost.
Proof.
  intros Hm H1 H2 H3 h Hp. specialize (Hm h (H1 h Hp)).
  destruct (m h) as [[e|a] h']; auto.
Qed.

Lemma hoare_if_str {A} pre (o : option string) (f : string → M F A) (g : M F A) post epost :
  (∀ s, hoare pre (f s) post epost) →
  hoare pre g post epost →
  hoare pre (if_str o f g) post epost.
Proof.
  intros Hf Hg. unfold if_str. destruct o as [s|]; [|done].
  destruct (String.eqb s ""); auto.
Qed.

(** A computation that does not write keeps any property of the heap
    that allocation preserves. *)
Lemma hoare_deref (I : Heap F → Prop) r :
  hoare I (deref r) (λ _, I) I.
Proof. intros h Hp. unfold deref. by destruct (h !! r). Qed.

Lemma hoare_alloc h0 d :
  hoare (extends h0) (alloc d) (λ r h, extends h0 h ∧ fresh h0 r) (extends h0).
Proof.
  intros h Hp. unfold alloc, extends, fresh in *. split.
  - by apply prefix_app_r.
  - by apply prefix_length.
Qed.

Lemma hoare_store h0 r d :
  fresh h0 r →
  hoare (extends h0) (store r d) (λ _, extends h0) (extends h0).
Proof.
  intros Hr h [k ->]. unfold store, extends.
  rewrite insert_app_r_alt by done. by apply prefix_app_r.
Qed.

End Hoare.

(** ** What the views may touch *)

Section Frame.
Context (to_datetime : string → option Timestamp).
Context (strftime : Timestamp → string).
Context (sqrt : Q → Q).
Context {F : Type}.
Implicit Types (h : Heap F).

Lemma hoare_assume {A} (P : Prop) (pre : Heap F → Prop) (m : M F A) post epost :
  (P → hoare pre m post epost) →
  hoare (λ h, pre h ∧ P) m post epost.
Proof. intros H h [Hp HP]. by apply H. Qed.

(** Operations that only read. *)
Lemma hoare_reader {A} (I : Heap F → Prop) (m : M F A) :
  (∀ h, (m h).2 = h) → hoare I m (λ _, I) I.
Proof.
  intros H h Hp. specialize (H h). destruct (m h) as [[e|a] h']; simpl in H; by subst.
Qed.

Lemma reader_deref r h : (deref (F:=F) r h).2 = h.
Proof. unfold deref. by destruct (h !! r). Qed.

Lemma reader_bind_ret {A B} (m : M F A) (f : A → B) h :
  (m h).2 = h → ((a ← m; mret (f a)) h).2 = h.
Proof. cbv [mbind M_bind bind mret M_ret ret]. by destruct (m h) as [[e|a] h']. Qed.

Lemma hoare_getitem_Date (I : Heap F → Prop) df :
  hoare I (getitem_Date df) (λ _, I) I.
Proof. apply hoare_reader. intros h. apply reader_bind_ret, reader_deref. Qed.

Lemma hoare_len (I : Heap F → Prop) df : hoare I (len df) (λ _, I) I.
Proof. apply hoare_reader. intros h. apply reader_bind_ret, reader_deref. Qed.

Lemma hoare_to_dict (I : Heap F → Prop) df : hoare I (to_dict df) (λ _, I) I.
Proof. apply hoare_reader. intros h. apply reader_bind_ret, reader_deref. Qed.

Lemma hoare_series_ge (I : Heap F → Prop) col ts : hoare I (series_ge col ts) (λ _, I) I.
Proof. apply hoare_reader. intros h. by destruct col. Qed.

Lemma hoare_series_le (I : Heap F → Prop) col ts : hoare I (series_le col ts) (λ _, I) I.
Proof. apply hoare_reader. intros h. by destruct col. Qed.

Lemma hoare_pd_to_datetime (I : Heap F → Prop) s :
  hoare I (pd_to_datetime to_datetime s) (λ _, I) I.
Proof.
  apply hoare_reader. intros h. unfold pd_to_datetime. by destruct (to_datetime s).
Qed.

Lemma hoare_dt_strftime (I : Heap F → Prop) col :
  hoare I (dt_strftime strftime col) (λ _, I) I.
Proof. apply hoare_reader. intros h. by destruct col. Qed.

Lemma hoare_subscript (I : Heap F → Prop) obj : hoare I (subscript obj) (λ _, I) I.
Proof. apply hoare_reader. intros h. by destruct obj. Qed.

(** Operations that allocate: the result is fresh. *)
Lemma hoare_copy h0 obj :
  hoare (extends h0) (copy obj) (λ r h, extends h0 h ∧ fresh h0 r) (extends h0).
Proof.
  destruct obj as [r|]; simpl.
  - eapply hoare_bind; [apply hoare_deref|]. intros d. apply hoare_alloc.
  - by apply hoare_raise.
Qed.

Lemma hoare_getitem_mask h0 df mask :
  hoare (extends h0) (getitem_mask df mask)
        (λ r h, extends h0 h ∧ fresh h0 r) (extends h0).
Proof.
  unfold getitem_mask. eapply hoare_bind; [apply hoare_deref|].
  intros d. apply hoare_alloc.
Qed.

Lemma hoare_apply_date_filters h0 df s e :
  fresh h0 df →
  hoare (extends h0) (apply_date_filters to_datetime df s e)
        (λ r h, extends h0 h ∧ fresh h0 r) (extends h0).
Proof.
  intros Hdf. unfold apply_date_filters.
  eapply hoare_bind with (mid := λ r h, extends h0 h ∧ fresh h0 r).
  - apply hoare_if_str; [|by apply hoare_ret].
    intros s'. eapply hoare_bind; [apply hoare_getitem_Date|]. intros col.
    eapply hoare_bind; [apply hoare_pd_to_datetime|]. intros ts.
    eapply hoare_bind; [apply hoare_series_ge|]. intros mask.
    apply hoare_getitem_mask.
  - intros df1. apply hoare_assume. intros Hdf1.
    apply hoare_if_str; [|by apply hoare_ret].
    intros s'. eapply hoare_bind; [apply hoare_getitem_Date|]. intros col.
    eapply hoare_bind; [apply hoare_pd_to_datetime|]. intros ts.
    eapply hoare_bind; [apply hoare_series_le|]. intros mask.
    apply hoare_getitem_mask.
Qed.

(** Operations that write: only at a fresh reference. *)
Lemma hoare_setitem_Date h0 df col :
  fresh h0 df →
  hoare (extends h0) (setitem_Date df col) (λ _, extends h0) (extends h0).
Proof.
  intros Hdf. unfold setitem_Date.
  eapply hoare_bind; [apply hoare_deref|]. intros d.
  destruct (_ =? _)%nat; [by apply hoare_store | by apply hoare_raise].
Qed.

Lemma hoare_listing_reply h0 df :
  fresh h0 df →
  hoare (extends h0) (listing_reply strftime df) (λ _, extends h0) (extends h0).
Proof.
  intros Hdf. unfold listing_reply.
  eapply hoare_bind; [apply hoare_getitem_Date|]. intros col.
  eapply hoare_bind; [apply hoare_dt_strftime|]. intros strs.
  eapply hoare_bind; [by apply hoare_setitem_Date|]. intros u.
  eapply hoare_bind; [apply hoare_len|]. intros n.
  eapply hoare_bind; [apply hoare_to_dict|]. intros recs.
  by apply hoare_ret.
Qed.

Lemma hoare_on_exception {A} (I : Heap F → Prop) e :
  hoare I (on_exception (A:=A) e) (λ _, I) I.
Proof. by apply hoare_ret. Qed.

End Frame.

(** ** The views keep the stored frames *)

Section Purity.
Context (to_datetime : string → option Timestamp).
Context (strftime : Timestamp → string).
Context (sqrt : Q → Q).

Lemma get_prices_view_frame (h0 : Heap PriceFields) g args :
  hoare (extends h0) (get_prices_view to_datetime strftime g args)
        (λ _, extends h0) (extends h0).
Proof.
  unfold get_prices_view.
  eapply hoare_try; [|intros e; apply hoare_on_exception].
  eapply hoare_bind; [apply hoare_copy|]. intros df. apply hoare_assume. intros Hdf.
  eapply hoare_bind; [by apply hoare_apply_date_filters|].
  intros df'. apply hoare_assume. intros Hdf'.
  by apply hoare_listing_reply.
Qed.

Lemma get_events_view_frame (h0 : Heap EventFields) g args :
  hoare (extends h0) (get_events_view to_datetime strftime g args)
        (λ _, extends h0) (extends h0).
Proof.
  unfold get_events_view.
  eapply hoare_try; [|intros e; apply hoare_on_exception].
  eapply hoare_bind; [apply hoare_copy|]. intros df. apply hoare_assume. intros Hdf.
  eapply hoare_bind; [by apply hoare_apply_date_filters|].
  intros df'. apply hoare_assume. intros Hdf'.
  eapply hoare_bind with (mid := λ r h, extends h0 h ∧ fresh h0 r).
  - apply hoare_if_str; [|by apply hoare_ret].
    intros s. eapply hoare_bind; [|intros col; apply hoare_getitem_mask].
    apply hoare_reader. intros h. apply reader_bind_ret, reader_deref.
  - intros df''. apply hoare_assume. intros Hdf''.
    by apply hoare_listing_reply.
Qed.

Lemma get_statistics_view_frame (h0 : Heap PriceFields) g args :
  hoare (extends h0) (get_statistics_view to_datetime sqrt g args)
        (λ _, extends h0) (extends h0).
Proof.
  unfold get_statistics_view.
  eapply hoare_try; [|intros e; apply hoare_on_exception].
  eapply hoare_bind; [apply hoare_copy|]. intros df. apply hoare_assume. intros Hdf.
  eapply hoare_bind; [by apply hoare_apply_date_filters|].
  intros df'. apply hoare_assume. intros Hdf'.
  eapply hoare_bind; [apply hoare_len|]. intros n.
  eapply hoare_bind;
    [apply hoare_reader; intros h; apply reader_bind_ret, reader_deref|]. intros price.
  eapply hoare_bind; [apply hoare_deref|]. intros d.
  eapply hoare_bind;
    [apply hoare_reader; intros h; apply reader_bind_ret, reader_deref|]. intros ret_col.
  by apply hoare_ret.
Qed.

(** A global that refers to no object: [copy] raises before anything
    is allocated. *)
Lemma copy_dangling {F A} (h : Heap F) r (k : ref → M F A) handler :
  h !! r = None →
  (∀ e h', (handler e h').2 = h') →
  (try_except (copy (Some r) ≫= k) handler h).2 = h.
Proof.
  intros Hr Hh. unfold try_except.
  assert (E : copy (Some r) h = (inl (SystemError "dangling reference"), h)).
  { mrun. by rewrite Hr. }
  rewrite (bind_raise _ _ _ _ _ E). apply Hh.
Qed.

Lemma lookup_kept {F} (h0 h' : Heap F) (g : option ref) :
  h0 `prefix_of` h' →
  (∀ r, g = Some r → h0 !! r = None → h' = h0) →
  (r ← g; h' !! r) = (r ← g; h0 !! r).
Proof.
  intros Hp Hn. destruct g as [r|]; simpl; [|done].
  destruct (h0 !! r) as [d|] eqn:E.
  - by eapply prefix_lookup_Some.
  - by rewrite (Hn r eq_refl E).
Qed.

Lemma dispatch_frame {F A} (view : M F (Response (Reply A))) (h0 : Heap F) :
  hoare (extends h0) view (λ _, extends h0) (extends h0) →
  h0 `prefix_of` (dispatch view h0).2.
Proof.
  intros H. specialize (H h0 (reflexivity _)). unfold dispatch.
  by destruct (view h0) as [[e|a] h'].
Qed.

Lemma dispatch_heap {F A} (view : M F (Response (Reply A))) (h : Heap F) :
  (dispatch view h).2 = (view h).2.
Proof. unfold dispatch. by destruct (view h) as [[e|a] h']. Qed.

End Purity.

(** C8.  Whatever the arguments and the state, [get_prices],
    [get_events] and [get_statistics] leave the loaded snapshot as it
    was: the globals, the price series and the event catalog they
    refer to, and every frame object that existed before the call. *)
Theorem views_leave_store_unchanged
    (to_datetime : string → option Timestamp) (strftime : Timestamp → string)
    (sqrt : Q → Q) (w : World) (args : Args) :
  unchanged w (get_prices to_datetime strftime w args).2
  ∧ unchanged w (get_events to_datetime strftime w args).2
  ∧ unchanged w (get_statistics to_datetime sqrt w args).2.
Proof.
  assert (Hh : ∀ F A (e : Exn) (h' : Heap F),
             (on_exception (F:=F) (A:=A) e h').2 = h') by done.
  split; [|split].
  - pose proof (dispatch_frame _ _ (get_prices_view_frame to_datetime strftime
                                      (price_heap w) (price_data w) args)) as Hp.
    unfold get_prices.
    destruct (dispatch _ (price_heap w)) as [r h'] eqn:E. simpl in *.
    unfold unchanged, snapshot. simpl. split; [|done].
    rewrite (lookup_kept (price_heap w) h' (price_data w) Hp); [done|].
    intros g Hg Hn. pose proof (dispatch_heap
      (get_prices_view to_datetime strftime (price_data w) args) (price_heap w)) as Hd.
    rewrite E in Hd. simpl in Hd. rewrite Hd, Hg.
    by apply copy_dangling.
  - pose proof (dispatch_frame _ _ (get_events_view_frame to_datetime strftime
                                      (event_heap w) (events_data w) args)) as Hp.
    unfold get_events.
    destruct (dispatch _ (event_heap w)) as [r h'] eqn:E. simpl in *.
    unfold unchanged, snapshot. simpl. split; [|done].
    rewrite (lookup_kept (event_heap w) h' (events_data w) Hp); [done|].
    intros g Hg Hn. pose proof (dispatch_heap
      (get_events_view to_datetime strftime (events_data w) args) (event_heap w)) as Hd.
    rewrite E in Hd. simpl in Hd. rewrite Hd, Hg.
    by apply copy_dangling.
  - pose proof (dispatch_frame _ _ (get_statistics_view_frame to_datetime sqrt
                                      (price_heap w) (price_data w) args)) as Hp.
    unfold get_statistics.
    destruct (dispatch _ (price_heap w)) as [r h'] eqn:E. simpl in *.
    unfold unchanged, snapshot. simpl. split; [|done].
    rewrite (lookup_kept (price_heap w) h' (price_data w) Hp); [done|].
    intros g Hg Hn. pose proof (dispatch_heap
      (get_statistics_view to_datetime sqrt (price_data w) args) (price_heap w)) as Hd.
    rewrite E in Hd. simpl in Hd. rewrite Hd, Hg.
    by apply copy_dangling.
Qed.

(** The copy matters: the conversion of the dates, run on the stored
    frame itself, would rewrite it. *)
Example listing_reply_writes_in_place :
  (listing_reply Iso.strftime 0%nat (price_heap Fixture.world)).2 !! 0%nat
  ≠ price_heap Fixture.world !! 0%nat.
Proof. vm_compute. discriminate. Qed.

(** ** The count of a listing *)

Section Count.
Context (to_datetime : string → option Timestamp).
Context (strftime : Timestamp → string).
Context {F : Type}.

Lemma hoare_any {A} (pre : Heap F → Prop) (m : M F A) :
  hoare pre m (λ _ _, True) (λ _, True).
Proof. intros h _. by destruct (m h) as [[e|a] h']. Qed.

Lemma length_records (r : Rows F) : length (records r) = length (fields r).
Proof. destruct r; simpl; by rewrite !length_map. Qed.

(** [len(df)] and [df.to_dict()] read the same frame. *)
Lemma len_to_dict_count df :
  hoare (λ _, True)
        (n ← len df; recs ← to_dict (F:=F) df;
         mret (jsonify (Success {| count := n; data := recs |})))
        (λ r _, count_matches r) (λ _, True).
Proof.
  intros h _. mrun. destruct (h !! df) as [d|] eqn:E; simpl; [|done].
  rewrite E. unfold count_matches. simpl. intros l [= <-]. simpl. by rewrite length_records.
Qed.

Lemma listing_reply_count df :
  hoare (λ _, True) (listing_reply strftime df)
        (λ r _, count_matches (F:=F) r) (λ _, True).
Proof.
  unfold listing_reply.
  eapply hoare_bind; [apply hoare_any|]. intros col.
  eapply hoare_bind; [apply hoare_any|]. intros strs.
  eapply hoare_bind; [apply hoare_any|]. intros u.
  apply len_to_dict_count.
Qed.

Lemma on_exception_count e :
  hoare (F:=F) (λ _, True) (on_exception e) (λ r _, count_matches (F:=F) r) (λ _, True).
Proof. apply hoare_ret. intros h _. unfold count_matches. simpl. intros l. discriminate. Qed.

Lemma dispatch_count (view : M F (Response (Reply (Listing F)))) h :
  hoare (λ _, True) view (λ r _, count_matches r) (λ _, True) →
  count_matches (dispatch view h).1.
Proof.
  intros H. specialize (H h I). unfold dispatch.
  destruct (view h) as [[e|a] h']; simpl; [|done].
  unfold count_matches. simpl. intros l. discriminate.
Qed.

End Count.

(** C10.  In every successful reply of [get_prices] and of [get_events]
    the [count] field is the number of records of [data], whatever the
    date-range and event-type arguments. *)
Theorem listing_count_is_length_of_data
    (to_datetime : string → option Timestamp) (strftime : Timestamp → string)
    (w : World) (args : Args) :
  count_matches (get_prices to_datetime strftime w args).1
  ∧ count_matches (get_events to_datetime strftime w args).1.
Proof.
  split.
  - unfold get_prices.
    pose proof (dispatch_count
      (get_prices_view to_datetime strftime (price_data w) args) (price_heap w)) as H.
    destruct (dispatch _ _) as [r h']. simpl in *. apply H.
    unfold get_prices_view.
    eapply hoare_try; [|intros e; apply on_exception_count].
    eapply hoare_bind; [apply hoare_any|]. intros df.
    eapply hoare_bind; [apply hoare_any|]. intros df'.
    apply listing_reply_count.
  - unfold get_events.
    pose proof (dispatch_count
      (get_events_view to_datetime strftime (events_data w) args) (event_heap w)) as H.
    destruct (dispatch _ _) as [r h']. simpl in *. apply H.
    unfold get_events_view.
    eapply hoare_try; [|intros e; apply on_exception_count].
    eapply hoare_bind; [apply hoare_any|]. intros df.
    eapply hoare_bind; [apply hoare_any|]. intros df'.
    eapply hoare_bind; [apply hoare_any|]. intros df''.
    apply listing_reply_count.
Qed.

(** The property is not vacuous: a listing of the fixture. *)
Example get_events_fixture_count :
  ∃ l, json (get_events Iso.to_datetime Iso.strftime Fixture.world
               [("event_type", "Geopolitical")]%string).1 = Success l
       ∧ count l = 2%nat ∧ length (data l) = 2%nat.
Proof. eexists. vm_compute. done. Qed.

(** ** The event listing *)

Section Events.
Context (to_datetime : string → option Timestamp).
Context (strftime : Timestamp → string).

(** [if event_type: df = df[df['Event_Type'] == event_type]] *)
Lemma filter_type_ok (h : Heap EventFields) df d l et :
  h !! df = Some d → rows d = DatetimeRows l →
  ∃ df' h',
    if_str et (λ s, col ← getitem_Event_Type df;
                    getitem_mask df (map (λ t, String.eqb t s) col)) (mret df) h
    = (inr df', h')
    ∧ h' !! df' = Some {| columns := columns d;
                          rows := DatetimeRows (List.filter (λ r, type_ok et (snd r)) l) |}.
Proof.
  intros Hd Hl. unfold type_ok, if_str.
  destruct et as [s|]; [destruct (String.eqb s "") eqn:Hs|].
  - exists df, h. split; [done|].
    rewrite filter_all, Hd. f_equal. by apply frame_eta.
  - eexists _, _. split.
    + mrun. repeat (first [rewrite Hd | rewrite Hl]; simpl). reflexivity.
    + rewrite lookup_fresh. simpl. by rewrite !map_map, boolean_index_map.
  - exists df, h. split; [done|].
    rewrite filter_all, Hd. f_equal. by apply frame_eta.
Qed.

Lemma get_events_view_ok h r d l args lo hi :
  h !! r = Some d → rows d = DatetimeRows l →
  bound to_datetime (args_get args "start_date") = Some lo →
  bound to_datetime (args_get args "end_date") = Some hi →
  let sel := List.filter (λ row, in_range lo hi (fst row)
                                 && type_ok (args_get args "event_type") (snd row)) l in
  ∃ h',
    get_events_view to_datetime strftime (Some r) args h
    = (inr (jsonify (Success {| count := length sel;
                                data := map (render strftime) sel |})), h').
Proof.
  intros Hd Hl Hs He sel. unfold get_events_view, try_except.
  rewrite (bind_ok _ _ _ _ _ (copy_ok h r d Hd)).
  destruct (apply_date_filters_ok to_datetime (h ++ [d]) (length h) d l _ _ lo hi
              (lookup_fresh h d) Hl Hs He) as (df1 & h1 & E1 & L1).
  rewrite (bind_ok _ _ _ _ _ E1).
  destruct (filter_type_ok h1 df1 _ _ (args_get args "event_type") L1 eq_refl)
    as (df2 & h2 & E2 & L2).
  rewrite (bind_ok _ _ _ _ _ E2).
  rewrite (listing_reply_ok strftime h2 df2 _ _ L2 eq_refl).
  simpl. rewrite filter_filter_and. eauto.
Qed.

End Events.

(** C6.  On a loaded catalog, a request for an event type that no event
    of the catalog carries succeeds with an empty listing: count 0 and
    no data, not an error. *)
Theorem get_events_unknown_type_is_empty
    (to_datetime : string → option Timestamp) (strftime : Timestamp → string)
    (w : World) (args : Args) (l : list (Timestamp * EventFields))
    (lo hi : option Timestamp) (t : string) :
  stored_rows (event_heap w) (events_data w) l →
  bound to_datetime (args_get args "start_date") = Some lo →
  bound to_datetime (args_get args "end_date") = Some hi →
  args_get args "event_type" = Some t →
  t ≠ ""%string →
  (∀ row, In row l → Event_Type (snd row) ≠ t) →
  (get_events to_datetime strftime w args).1
  = jsonify (Success {| count := 0; data := [] |}).
Proof.
  intros (r & d & Hg & Hd & Hl) Hs He Ht Hne Habs.
  destruct (get_events_view_ok to_datetime strftime _ _ _ _ args lo hi Hd Hl Hs He)
    as [h' E].
  unfold get_events, dispatch. rewrite Hg, E. simpl.
  rewrite filter_none; [done|].
  intros row Hin. rewrite Ht. unfold type_ok, if_str.
  apply String.eqb_neq in Hne. rewrite Hne.
  apply andb_false_intro2. apply String.eqb_neq. by apply Habs.
Qed.

Lemma get_events_unknown_type_is_empty_witness :
  (get_events Iso.to_datetime Iso.strftime Fixture.world
     [("event_type", "Natural_Disaster")]%string).1
  = jsonify (Success {| count := 0; data := [] |}).
Proof.
  apply (get_events_unknown_type_is_empty Iso.to_datetime Iso.strftime Fixture.world
           [("event_type", "Natural_Disaster")]%string Fixture.events_df None None
           "Natural_Disaster").
  - exists 0%nat. eexists. vm_compute. done.
  - reflexivity.
  - reflexivity.
  - reflexivity.
  - discriminate.
  - intros row Hin. vm_compute in Hin.
    repeat (destruct Hin as [<-|Hin]; [discriminate|]). destruct Hin.
Defined.

(** ** Requests that fail *)

Section Failures.
Context (to_datetime : string → option Timestamp).
Context (strftime : Timestamp → string).
Context (sqrt : Q → Q).

Lemma bound_None o :
  bound to_datetime o = None →
  ∃ s, o = Some s ∧ String.eqb s "" = false ∧ to_datetime s = None.
Proof.
  unfold bound. destruct o as [s|]; [|done].
  destruct (String.eqb s "") eqn:E; [done|].
  destruct (to_datetime s) eqn:Ht; [done|]. eauto.
Qed.

(** A supplied date the parser rejects makes the filter block raise. *)
Lemma apply_date_filters_raises {F} (h : Heap F) df d l s e :
  h !! df = Some d → rows d = DatetimeRows l →
  bound to_datetime s = None ∨ bound to_datetime e = None →
  ∃ bad h',
    apply_date_filters to_datetime df s e h = (inl (parse_error bad), h')
    ∧ (s = Some bad ∨ e = Some bad).
Proof.
  intros Hd Hl Hbad. unfold apply_date_filters.
  destruct (bound to_datetime s) as [lo|] eqn:Hs.
  - destruct Hbad as [|He]; [done|].
    destruct (filter_from_ok to_datetime h df d l s lo Hd Hl Hs) as (df1 & h1 & E1 & L1).
    rewrite (bind_ok _ _ _ _ _ E1).
    destruct (bound_None _ He) as (bad & -> & Hne & Hp).
    exists bad, h1. split; [|by right].
    unfold if_str. rewrite Hne. mrun. by rewrite L1, Hp.
  - destruct (bound_None _ Hs) as (bad & -> & Hne & Hp).
    exists bad, h. split; [|by left].
    erewrite bind_raise; [done|].
    unfold if_str. rewrite Hne. mrun. by rewrite Hd, Hp.
Qed.

Lemma get_prices_view_raises h r d l args :
  h !! r = Some d → rows d = DatetimeRows l →
  bound to_datetime (args_get args "start_date") = None
  ∨ bound to_datetime (args_get args "end_date") = None →
  ∃ bad h',
    get_prices_view to_datetime strftime (Some r) args h
    = (inr (jsonify_code (Failure (str (parse_error bad))) 500), h').
Proof.
  intros Hd Hl Hbad. unfold get_prices_view, try_except.
  rewrite (bind_ok _ _ _ _ _ (copy_ok h r d Hd)).
  destruct (apply_date_filters_raises (h ++ [d]) (length h) d l _ _
              (lookup_fresh h d) Hl Hbad) as (bad & h' & E & _).
  rewrite (bind_raise _ _ _ _ _ E). by exists bad, h'.
Qed.

Lemma get_events_view_raises h r d l args :
  h !! r = Some d → rows d = DatetimeRows l →
  bound to_datetime (args_get args "start_date") = None
  ∨ bound to_datetime (args_get args "end_date") = None →
  ∃ bad h',
    get_events_view to_datetime strftime (Some r) args h
    = (inr (jsonify_code (Failure (str (parse_error bad))) 500), h').
Proof.
  intros Hd Hl Hbad. unfold get_events_view, try_except.
  rewrite (bind_ok _ _ _ _ _ (copy_ok h r d Hd)).
  destruct (apply_date_filters_raises (h ++ [d]) (length h) d l _ _
              (lookup_fresh h d) Hl Hbad) as (bad & h' & E & _).
  rewrite (bind_raise _ _ _ _ _ E). by exists bad, h'.
Qed.

Lemma get_statistics_view_raises h r d l args :
  h !! r = Some d → rows d = DatetimeRows l →
  bound to_datetime (args_get args "start_date") = None
  ∨ bound to_datetime (args_get args "end_date") = None →
  ∃ bad h',
    get_statistics_view to_datetime sqrt (Some r) args h
    = (inr (jsonify_code (Failure (str (parse_error bad))) 500), h').
Proof.
  intros Hd Hl Hbad. unfold get_statistics_view, try_except.
  rewrite (bind_ok _ _ _ _ _ (copy_ok h r d Hd)).
  destruct (apply_date_filters_raises (h ++ [d]) (length h) d l _ _
              (lookup_fresh h d) Hl Hbad) as (bad & h' & E & _).
  rewrite (bind_raise _ _ _ _ _ E). by exists bad, h'.
Qed.

(** The store is not loaded: the first use of the global raises. *)
Lemma get_prices_unloaded w args :
  price_data w = None →
  (get_prices to_datetime strftime w args).1
  = jsonify_code (Failure "'NoneType' object has no attribute 'copy'") 500.
Proof. intros H. unfold get_prices. by rewrite H. Qed.

Lemma get_events_unloaded w args :
  events_data w = None →
  (get_events to_datetime strftime w args).1
  = jsonify_code (Failure "'NoneType' object has no attribute 'copy'") 500.
Proof. intros H. unfold get_events. by rewrite H. Qed.

Lemma get_statistics_unloaded w args :
  price_data w = None →
  (get_statistics to_datetime sqrt w args).1
  = jsonify_code (Failure "'NoneType' object has no attribute 'copy'") 500.
Proof. intros H. unfold get_statistics. by rewrite H. Qed.

Lemma get_event_types_unloaded w :
  events_data w = None →
  (get_event_types w).1
  = jsonify_code (Failure "'NoneType' object is not subscriptable") 500.
Proof. intros H. unfold get_event_types. by rewrite H. Qed.

Lemma get_date_range_unloaded w :
  price_data w = None →
  (get_date_range strftime w).1
  = jsonify_code (Failure "'NoneType' object is not subscriptable") 500.
Proof. intros H. unfold get_date_range. by rewrite H. Qed.

(** [get_changepoint] hands out the global as it is. *)
Lemma get_changepoint_unloaded w :
  changepoint_results w = None →
  (get_changepoint w).1 = jsonify (Success None).
Proof. intros H. unfold get_changepoint. by rewrite H. Qed.

(** The health check does not look at the store. *)
Lemma health_check_healthy w :
  status_code (health_check w).1 = 200
  ∧ status (json (health_check w).1) = "healthy"%string
  ∧ (health_check w).2 = w.
Proof. done. Qed.

Lemma parse_dates_datetime {F} (d d' : DataFrame F) :
  parse_dates to_datetime d = Some d' → ∃ l, rows d' = DatetimeRows l.
Proof.
  unfold parse_dates. destruct (rows d) as [l|l] eqn:E.
  - intros [= <-]. eauto.
  - destruct (mapM _ l) as [l'|]; simpl; [|done]. intros [= <-]. eauto.
Qed.

(** A load binds the three globals together or none of them. *)
Lemma load_all_or_nothing a :
  let w := load_all_data to_datetime a in
  (price_data w = None ∧ events_data w = None ∧ changepoint_results w = None
   ∧ price_heap w = [] ∧ event_heap w = [])
  ∨ (∃ df ev res,
       stored_rows (price_heap w) (price_data w) df
       ∧ stored_rows (event_heap w) (events_data w) ev
       ∧ changepoint_results w = Some res).
Proof.
  unfold load_all_data.
  destruct (brent_with_changepoint_csv a) as [df|]; simpl; [|by left].
  destruct (parse_dates to_datetime df) as [df'|] eqn:Ep; simpl; [|by left].
  destruct (structured_events_csv a) as [ev|]; simpl; [|by left].
  destruct (parse_dates to_datetime ev) as [ev'|] eqn:Ee; simpl; [|by left].
  destruct (changepoint_results_json a) as [res|]; simpl; [|by left].
  right.
  destruct (parse_dates_datetime _ _ Ep) as [l1 H1].
  destruct (parse_dates_datetime _ _ Ee) as [l2 H2].
  exists l1, l2, res. repeat split; try done.
  - by exists 0%nat, df'.
  - by exists 0%nat, ev'.
Qed.

End Failures.

Lemma reply_500 {B} (e : string) :
  generic_failure (jsonify_code (B:=Reply B) (Failure e) 500).
Proof. split; [done|]. by exists e. Qed.

(** C7 as stated does not hold: on the loaded fixture a request with an
    unreadable [start_date] is answered with status 500, which is not a
    client-error status and is the status of the unloaded store. *)
Lemma malformed_date_not_client_error :
  ¬ malformed_date_is_client_error Iso.to_datetime Iso.strftime.
Proof.
  intros H.
  destruct (H Fixture.world Fixture.failed_world
              [("start_date", "not-a-date")]%string Fixture.df) as (_ & [_ Hlt] & _).
  - exists 0%nat. eexists. vm_compute. done.
  - reflexivity.
  - reflexivity.
  - vm_compute in Hlt. discriminate.
Qed.

(** C7, amended.  On a loaded store, a request to [get_prices],
    [get_events] or [get_statistics] whose [start_date] or [end_date]
    is supplied (non-empty) and rejected by the date parser fails with
    the generic failure reply, status 500; a store that is not loaded
    answers the same request with the same status and shape. *)
Theorem malformed_date_is_generic_failure
    (to_datetime : string → option Timestamp) (strftime : Timestamp → string)
    (sqrt : Q → Q) (w w0 : World) (args : Args)
    (lp : list (Timestamp * PriceFields)) (le : list (Timestamp * EventFields)) :
  stored_rows (price_heap w) (price_data w) lp →
  stored_rows (event_heap w) (events_data w) le →
  price_data w0 = None →
  events_data w0 = None →
  bound to_datetime (args_get args "start_date") = None
  ∨ bound to_datetime (args_get args "end_date") = None →
  generic_failure (get_prices to_datetime strftime w args).1
  ∧ generic_failure (get_events to_datetime strftime w args).1
  ∧ generic_failure (get_statistics to_datetime sqrt w args).1
  ∧ generic_failure (get_prices to_datetime strftime w0 args).1
  ∧ generic_failure (get_events to_datetime strftime w0 args).1
  ∧ generic_failure (get_statistics to_datetime sqrt w0 args).1.
Proof.
  intros (rp & dp & Hgp & Hdp & Hlp) (re & de & Hge & Hde & Hle) Hp0 He0 Hbad.
  destruct (get_prices_view_raises to_datetime strftime _ _ _ _ args Hdp Hlp Hbad)
    as (b1 & h1 & E1).
  destruct (get_events_view_raises to_datetime strftime _ _ _ _ args Hde Hle Hbad)
    as (b2 & h2 & E2).
  destruct (get_statistics_view_raises to_datetime sqrt _ _ _ _ args Hdp Hlp Hbad)
    as (b3 & h3 & E3).
  split; [|split; [|split; [|split; [|split]]]].
  - unfold get_prices, dispatch. rewrite Hgp, E1. apply reply_500.
  - unfold get_events, dispatch. rewrite Hge, E2. apply reply_500.
  - unfold get_statistics, dispatch. rewrite Hgp, E3. apply reply_500.
  - rewrite get_prices_unloaded by done. apply reply_500.
  - rewrite get_events_unloaded by done. apply reply_500.
  - rewrite get_statistics_unloaded by done. apply reply_500.
Qed.

Lemma malformed_date_is_generic_failure_witness :
  generic_failure (get_prices Iso.to_datetime Iso.strftime Fixture.world
                     [("end_date", "03/01/2020")]%string).1
  ∧ generic_failure (get_prices Iso.to_datetime Iso.strftime Fixture.failed_world
                       [("end_date", "03/01/2020")]%string).1.
Proof.
  destruct (malformed_date_is_generic_failure Iso.to_datetime Iso.strftime Qsqrt_approx
              Fixture.world Fixture.failed_world [("end_date", "03/01/2020")]%string
              Fixture.df Fixture.events_df) as (H1 & _ & _ & H2 & _).
  - exists 0%nat. eexists. vm_compute. done.
  - exists 0%nat. eexists. vm_compute. done.
  - reflexivity.
  - reflexivity.
  - right. reflexivity.
  - split; [exact H1 | exact H2].
Defined.

(** An empty date parameter is not rejected: it is no parameter. *)
Example get_prices_empty_start_date :
  (get_prices Iso.to_datetime Iso.strftime Fixture.world [("start_date", "")]%string).1
  = (get_prices Iso.to_datetime Iso.strftime Fixture.world []).1.
Proof. vm_compute. reflexivity. Qed.

(** ** The store after a failed load *)

(** After a failed load the health check answers, and the views that
    use [price_data] or [events_data] fail with status 500. *)
Lemma unloaded_store_replies
    (to_datetime : string → option Timestamp) (strftime : Timestamp → string)
    (sqrt : Q → Q) (a : Artifacts) (args : Args) :
  let w := load_all_data to_datetime a in
  price_data w = None →
  status_code (health_check w).1 = 200
  ∧ generic_failure (get_prices to_datetime strftime w args).1
  ∧ generic_failure (get_events to_datetime strftime w args).1
  ∧ generic_failure (get_statistics to_datetime sqrt w args).1
  ∧ generic_failure (get_event_types w).1
  ∧ generic_failure (get_date_range strftime w).1
  ∧ (get_changepoint w).1 = jsonify (Success None).
Proof.
  intros w Hp.
  destruct (load_all_or_nothing to_datetime a) as [(_ & He & Hc & _)|(df & _ & _ & H & _)].
  - fold w in He, Hc.
    rewrite get_prices_unloaded, get_events_unloaded, get_statistics_unloaded,
      get_event_types_unloaded, get_date_range_unloaded, get_changepoint_unloaded by done.
    repeat (split; [first [done | apply reply_500]|]). done.
  - fold w in H. destruct H as (r & d & Hg & _). congruence.
Qed.

(** C9, at the failing input.  The events file is missing, the load
    fails and binds the three globals to [None]; [get_changepoint] then
    answers 200 with [success] true and [data] null. *)
Theorem get_changepoint_succeeds_after_failed_load :
  price_data Fixture.failed_world = None
  ∧ events_data Fixture.failed_world = None
  ∧ changepoint_results Fixture.failed_world = None
  ∧ (get_changepoint Fixture.failed_world).1
    = {| status_code := 200; json := Success None |}.
Proof. vm_compute. done. Qed.

(** ** The reductions of a column *)

Section Nanops.
Import nanops.
Local Open Scope Q_scope.

Lemma get_counts_dropna s : get_counts s = length (dropna s).
Proof.
  unfold get_counts, dropna.
  induction s as [|[|q] s IH]; simpl; [done|done|]. by rewrite IH.
Qed.

(** Filling the gaps with zero does not change the sum. *)
Lemma Qsum_fill0 s : Qsum (map fill0 s) == Qsum (dropna s).
Proof.
  unfold dropna.
  induction s as [|[|q] s IH]; simpl.
  - reflexivity.
  - rewrite IH. apply Qplus_0_l.
  - by rewrite IH.
Qed.

Lemma Qsum_sqr a b s :
  a == b →
  Qsum (map (λ x, match x with
                  | NaN => 0
                  | Fin q => (a - q) * (a - q)
                  end) s)
  == Qsum (map (λ x, (x - b) * (x - b)) (dropna s)).
Proof.
  intros Hab. unfold dropna.
  induction s as [|[|q] s IH]; simpl.
  - reflexivity.
  - rewrite IH. apply Qplus_0_l.
  - rewrite IH, Hab. ring.
Qed.

Lemma dropna_Fin {A} (f : A → Q) (l : list A) :
  dropna (map (λ x, Fin (f x)) l) = map f l.
Proof. unfold dropna. induction l as [|x l IH]; simpl; congruence. Qed.

Lemma nanops_dropna_prices (sel : list PriceFields) :
  dropna (map (λ f, Fin (Price f)) sel) = map Price sel.
Proof. apply dropna_Fin. Qed.

(** The mean leaves the missing entries out of the sum and of the
    count. *)
Lemma nanmean_spec s :
  match dropna s with
  | [] => nanmean s = NaN
  | _ :: _ => ∃ m, nanmean s = Fin m ∧ m == Qmean (dropna s)
  end.
Proof.
  unfold nanmean, Qmean. rewrite get_counts_dropna.
  destruct (dropna s) as [|x xs] eqn:E; [done|].
  cbn [length fdiv]. eexists. split; [done|].
  rewrite Qsum_fill0, E. reflexivity.
Qed.

(** The variance is NaN below two entries, the sample variance of the
    entries present from two on. *)
Lemma nanvar_spec s :
  if (length (dropna s) <=? 1)%nat
  then nanvar s = NaN
  else ∃ v, nanvar s = Fin v ∧ v == sample_variance (dropna s).
Proof.
  unfold nanvar. rewrite get_counts_dropna.
  destruct (length (dropna s) <=? 1)%nat eqn:E; [done|].
  apply Nat.leb_gt in E.
  eexists. split; [done|]. unfold sample_variance.
  rewrite Nat2Z.inj_sub by lia. change (Z.of_nat 1) with 1%Z.
  apply Qdiv_comp; [|reflexivity].
  apply Qsum_sqr. unfold Qmean. by rewrite Qsum_fill0.
Qed.

Lemma nanstd_spec sqrt s :
  if (length (dropna s) <=? 1)%nat
  then nanstd sqrt s = NaN
  else ∃ v, nanstd sqrt s = Fin (sqrt v) ∧ v == sample_variance (dropna s).
Proof.
  pose proof (nanvar_spec s) as H. unfold nanstd.
  destruct (length (dropna s) <=? 1)%nat.
  - by rewrite H.
  - destruct H as (v & -> & Hv). eauto.
Qed.

End Nanops.

(** ** The statistics of a slice *)

Section Statistics.
Context (to_datetime : string → option Timestamp).
Context (sqrt : Q → Q).

Lemma get_statistics_view_ok h r d l args lo hi :
  h !! r = Some d → rows d = DatetimeRows l →
  bound to_datetime (args_get args "start_date") = Some lo →
  bound to_datetime (args_get args "end_date") = Some hi →
  ∃ h',
    get_statistics_view to_datetime sqrt (Some r) args h
    = (inr (jsonify (Success
         (stats_of_slice sqrt (in_columns "log_return" d)
            (map snd (List.filter (λ row, in_range lo hi (fst row)) l))))), h').
Proof.
  intros Hd Hl Hs He. unfold get_statistics_view, try_except.
  rewrite (bind_ok _ _ _ _ _ (copy_ok h r d Hd)).
  destruct (apply_date_filters_ok to_datetime (h ++ [d]) (length h) d l _ _ lo hi
              (lookup_fresh h d) Hl Hs He) as (df' & h' & E & L).
  rewrite (bind_ok _ _ _ _ _ E).
  exists h'. mrun. repeat (rewrite L; simpl). reflexivity.
Qed.

Lemma get_statistics_ok w r d l args lo hi :
  price_data w = Some r → price_heap w !! r = Some d → rows d = DatetimeRows l →
  bound to_datetime (args_get args "start_date") = Some lo →
  bound to_datetime (args_get args "end_date") = Some hi →
  (get_statistics to_datetime sqrt w args).1
  = jsonify (Success
      (stats_of_slice sqrt (in_columns "log_return" d)
         (map snd (List.filter (λ row, in_range lo hi (fst row)) l)))).
Proof.
  intros Hg Hd Hl Hs He.
  destruct (get_statistics_view_ok _ _ _ _ args lo hi Hd Hl Hs He) as [h' E].
  unfold get_statistics, dispatch. by rewrite Hg, E.
Qed.

End Statistics.

(** C2 as stated does not hold: the statistics of the one-observation
    slice 2020-01-01 of the fixture carry a NaN standard deviation. *)
Lemma statistics_break_n_policy :
  ¬ statistics_follow_n_policy Iso.to_datetime Qsqrt_approx.
Proof.
  intros H.
  assert (E : (get_statistics Iso.to_datetime Qsqrt_approx Fixture.world
                 [("start_date", "2020-01-01"); ("end_date", "2020-01-01")]%string).1
              = jsonify (Success
                  {| Stats.count := 1;
                     Stats.mean_price := Fin 50; Stats.median_price := Fin 50;
                     Stats.std_price := NaN;
                     Stats.min_price := Fin 50; Stats.max_price := Fin 50;
                     Stats.mean_return := Some NaN; Stats.volatility := Some NaN |}))
    by (vm_compute; reflexivity).
  destruct (H _ _ _ E) as [(_ & _ & Hstd & _) _].
  by apply Hstd.
Qed.

(** The empty slice: a count of zero and NaN, not null, elsewhere. *)
Example statistics_of_empty_slice :
  json (get_statistics Iso.to_datetime Qsqrt_approx Fixture.world
          [("start_date", "2021-01-01")]%string).1
  = Success {| Stats.count := 0;
               Stats.mean_price := NaN; Stats.median_price := NaN;
               Stats.std_price := NaN; Stats.min_price := NaN;
               Stats.max_price := NaN;
               Stats.mean_return := Some NaN; Stats.volatility := Some NaN |}.
Proof. vm_compute. reflexivity. Qed.

(** C2, amended.  On a loaded price series and readable bounds,
    [get_statistics] succeeds with [count] the number N of observations
    of the slice; for N = 0 the five price statistics are NaN and the
    two return statistics are NaN when the series has a [log_return]
    column, null otherwise; for N = 1 [std_price] is NaN; for N >= 2
    [std_price] is the square root of the sample variance, with
    denominator N - 1. *)
Theorem statistics_of_small_slices
    (to_datetime : string → option Timestamp) (sqrt : Q → Q)
    (w : World) (args : Args) (r : ref) (d : DataFrame PriceFields)
    (l : list (Timestamp * PriceFields)) (lo hi : option Timestamp) :
  price_data w = Some r →
  price_heap w !! r = Some d →
  rows d = DatetimeRows l →
  bound to_datetime (args_get args "start_date") = Some lo →
  bound to_datetime (args_get args "end_date") = Some hi →
  let sel := List.filter (λ row, in_range lo hi (fst row)) l in
  ∃ st,
    (get_statistics to_datetime sqrt w args).1 = jsonify (Success st)
    ∧ Stats.count st = length sel
    ∧ (length sel = 0%nat →
       Stats.mean_price st = NaN ∧ Stats.median_price st = NaN
       ∧ Stats.std_price st = NaN ∧ Stats.min_price st = NaN
       ∧ Stats.max_price st = NaN
       ∧ Stats.mean_return st = (if in_columns "log_return" d then Some NaN else None)
       ∧ Stats.volatility st = (if in_columns "log_return" d then Some NaN else None))
    ∧ (length sel = 1%nat → Stats.std_price st = NaN)
    ∧ ((2 ≤ length sel)%nat →
       ∃ v, Stats.std_price st = Fin (sqrt v)
            ∧ (v == sample_variance (map (λ row, Price (snd row)) sel))%Q).
Proof.
  intros Hg Hd Hl Hs He sel.
  eexists. split; [by eapply get_statistics_ok|].
  fold sel. unfold stats_of_slice. cbn [Stats.count Stats.mean_price Stats.median_price
    Stats.std_price Stats.min_price Stats.max_price Stats.mean_return Stats.volatility].
  split; [by rewrite length_map|].
  pose proof (nanstd_spec sqrt (map (λ f, Fin (Price f)) (map snd sel))) as Hstd.
  rewrite nanops_dropna_prices in Hstd. rewrite !length_map in Hstd.
  split; [|split].
  - intros H0. apply nil_length_inv in H0. rewrite H0. simpl.
    by destruct (in_columns "log_return" d).
  - intros H1. rewrite H1 in Hstd. exact Hstd.
  - intros H2. destruct (length sel <=? 1)%nat eqn:E.
    + apply Nat.leb_le in E. lia.
    + destruct Hstd as (v & Hv & Hq). exists v. split; [done|].
      by rewrite map_map in Hq.
Qed.

Lemma statistics_of_small_slices_witness :
  ∃ st,
    (get_statistics Iso.to_datetime Qsqrt_approx Fixture.world
       [("start_date", "2020-01-01"); ("end_date", "2020-01-02")]%string).1
    = jsonify (Success st)
    ∧ Stats.count st = 2%nat
    ∧ ∃ v, Stats.std_price st = Fin (Qsqrt_approx v) ∧ (v == 1 # 2)%Q.
Proof.
  destruct (statistics_of_small_slices Iso.to_datetime Qsqrt_approx Fixture.world
              [("start_date", "2020-01-01"); ("end_date", "2020-01-02")]%string
              0%nat _ _ _ _ eq_refl eq_refl eq_refl eq_refl eq_refl)
    as (st & E & Hc & _ & _ & H2).
  exists st. split; [exact E|]. split; [exact Hc|].
  destruct H2 as (v & Hv & Hq); [vm_compute; lia|].
  exists v. split; [exact Hv|]. rewrite Hq. vm_compute. reflexivity.
Defined.

(** ** The return statistics *)

(** C5 as stated does not hold: the slice 2020-01-01 of the fixture
    has no defined [log_return], and the reply carries [mean_return]
    and [volatility] all the same (as NaN). *)
Lemma returns_present_without_defined_value :
  ¬ returns_present_iff_defined Iso.to_datetime Qsqrt_approx.
Proof.
  intros H.
  assert (E : (get_statistics Iso.to_datetime Qsqrt_approx Fixture.world
                 [("start_date", "2020-01-01"); ("end_date", "2020-01-01")]%string).1
              = jsonify (Success
                  {| Stats.count := 1;
                     Stats.mean_price := Fin 50; Stats.median_price := Fin 50;
                     Stats.std_price := NaN;
                     Stats.min_price := Fin 50; Stats.max_price := Fin 50;
                     Stats.mean_return := Some NaN; Stats.volatility := Some NaN |}))
    by (vm_compute; reflexivity).
  assert (Hb : bound Iso.to_datetime (Some "2020-01-01"%string)
               = Some (Some 1577836800000000000)) by (vm_compute; reflexivity).
  assert (Hs : stored_rows (price_heap Fixture.world) (price_data Fixture.world)
                 Fixture.df).
  { exists 0%nat. eexists. vm_compute. repeat split. }
  pose proof (H Fixture.world
                [("start_date", "2020-01-01"); ("end_date", "2020-01-01")]%string
                Fixture.df (Some 1577836800000000000) (Some 1577836800000000000) _
                Hs Hb Hb E) as [Hlr _].
  destruct Hlr as (row & Hin & Hdef); [split; discriminate|].
  vm_compute in Hin. destruct Hin as [<-|[]]. by apply Hdef.
Qed.

(** With exactly one defined [log_return] in the slice the mean is a
    number and the volatility is NaN. *)
Example volatility_of_one_return :
  json (get_statistics Iso.to_datetime Qsqrt_approx Fixture.world
          [("end_date", "2020-01-02")]%string).1
  = Success {| Stats.count := 2;
               Stats.mean_price := Fin (101 # 2); Stats.median_price := Fin (101 # 2);
               Stats.std_price := Fin (707106 # 1000000);
               Stats.min_price := Fin 50; Stats.max_price := Fin 51;
               Stats.mean_return := Some (Fin (198 # 10000));
               Stats.volatility := Some NaN |}.
Proof. vm_compute. reflexivity. Qed.

(** C5, amended.  [mean_return] and [volatility] are non-null exactly
    when the series has a [log_return] column.  Then they are computed
    over the observations of the slice whose [log_return] is defined,
    the others left out: the mean is NaN when there is none and their
    arithmetic mean otherwise; the volatility is NaN below two and the
    square root of their sample variance from two on. *)
Theorem return_statistics_skip_missing
    (to_datetime : string → option Timestamp) (sqrt : Q → Q)
    (w : World) (args : Args) (r : ref) (d : DataFrame PriceFields)
    (l : list (Timestamp * PriceFields)) (lo hi : option Timestamp) :
  price_data w = Some r →
  price_heap w !! r = Some d →
  rows d = DatetimeRows l →
  bound to_datetime (args_get args "start_date") = Some lo →
  bound to_datetime (args_get args "end_date") = Some hi →
  let sel := List.filter (λ row, in_range lo hi (fst row)) l in
  let vs := nanops.dropna (map (λ row, log_return (snd row)) sel) in
  ∃ st,
    (get_statistics to_datetime sqrt w args).1 = jsonify (Success st)
    ∧ (Stats.mean_return st ≠ None ↔ in_columns "log_return" d = true)
    ∧ (Stats.volatility st ≠ None ↔ in_columns "log_return" d = true)
    ∧ (in_columns "log_return" d = true →
       (vs = [] → Stats.mean_return st = Some NaN)
       ∧ (vs ≠ [] → ∃ m, Stats.mean_return st = Some (Fin m) ∧ (m == Qmean vs)%Q)
       ∧ ((length vs ≤ 1)%nat → Stats.volatility st = Some NaN)
       ∧ ((2 ≤ length vs)%nat →
          ∃ v, Stats.volatility st = Some (Fin (sqrt v)) ∧ (v == sample_variance vs)%Q)).
Proof.
  intros Hg Hd Hl Hs He sel vs.
  eexists. split; [by eapply get_statistics_ok|].
  fold sel. unfold stats_of_slice. cbn [Stats.mean_return Stats.volatility].
  rewrite map_map. fold vs.
  destruct (in_columns "log_return" d).
  2: { repeat split; try done; intros H; by apply H. }
  split; [done|]. split; [done|]. intros _.
  pose proof (nanmean_spec (map (λ row, log_return (snd row)) sel)) as Hm.
  pose proof (nanstd_spec sqrt (map (λ row, log_return (snd row)) sel)) as Hv.
  fold vs in Hm, Hv.
  split; [|split; [|split]].
  - intros E. rewrite E in Hm. by rewrite Hm.
  - intros E. destruct vs as [|x xs]; [done|].
    destruct Hm as (m & -> & Hq). eauto.
  - intros E. apply Nat.leb_le in E. rewrite E in Hv. by rewrite Hv.
  - intros E. destruct (length vs <=? 1)%nat eqn:E'.
    + apply Nat.leb_le in E'. lia.
    + destruct Hv as (v & -> & Hq). eauto.
Qed.

Lemma return_statistics_skip_missing_witness :
  ∃ st,
    (get_statistics Iso.to_datetime Qsqrt_approx Fixture.world
       [("end_date", "2020-01-03")]%string).1 = jsonify (Success st)
    ∧ ∃ m, Stats.mean_return st = Some (Fin m) ∧ (m == -101 # 10000)%Q.
Proof.
  destruct (return_statistics_skip_missing Iso.to_datetime Qsqrt_approx Fixture.world
              [("end_date", "2020-01-03")]%string
              0%nat _ _ _ _ eq_refl eq_refl eq_refl eq_refl eq_refl)
    as (st & E & _ & _ & H).
  exists st. split; [exact E|].
  destruct (H eq_refl) as (_ & Hm & _).
  destruct Hm as (m & Hm & Hq); [vm_compute; discriminate|].
  exists m. split; [exact Hm|]. rewrite Hq. vm_compute. reflexivity.
Defined.

(** ** The regime split of the dashboard *)

Section Regimes.
Import Dashboard.

Lemma filter_split_perm {A} (p q : A → bool) (l : list A) :
  (∀ x, q x = negb (p x)) →
  Permutation (List.filter p l ++ List.filter q l) l.
Proof.
  intros Hq. induction l as [|x l IH]; simpl; [constructor|].
  rewrite Hq. destruct (p x); simpl.
  - by constructor.
  - symmetry. etransitivity; [|apply Permutation_middle].
    constructor. by symmetry.
Qed.

Lemma before_filter {F} (df : Frame F) cd :
  before df cd = List.filter (λ r, fst r <? cd) df.
Proof. apply boolean_index_map. Qed.

Lemma after_filter {F} (df : Frame F) cd :
  after df cd = List.filter (λ r, cd <=? fst r) df.
Proof. apply boolean_index_map. Qed.

Lemma df_filtered_range df d0 d1 :
  df_filtered df [d0; d1]
  = List.filter (λ r, (d0 <=? dt_date (fst r)) && (dt_date (fst r) <=? d1)) df.
Proof.
  unfold df_filtered. rewrite !map_map.
  apply (boolean_index_zip_and (λ r, d0 <=? dt_date (fst r))
                               (λ r, dt_date (fst r) <=? d1)).
Qed.

(** A split of a date-sorted frame is a cut: the two parts are a prefix
    and the matching suffix. *)
Lemma split_sorted_is_cut {F} (df : Frame F) cd :
  Sorted (λ x y, fst x <= fst y) df →
  before df cd ++ after df cd = df.
Proof.
  rewrite before_filter, after_filter. intros Hs.
  apply Sorted_StronglySorted in Hs; [|intros x y z; lia].
  induction Hs as [|x l Hl IH Hx]; simpl; [done|].
  destruct (fst x <? cd) eqn:E1, (cd <=? fst x) eqn:E2; try lia.
  - simpl. by rewrite IH.
  - rewrite filter_none.
    2: { intros y Hy. rewrite List.Forall_forall in Hx. specialize (Hx y Hy). lia. }
    simpl. f_equal. clear IH Hl.
    induction l as [|y l IH]; simpl; [done|].
    inversion Hx as [|? ? Hy Hx']; subst.
    destruct (cd <=? fst y) eqn:E3; [|lia]. f_equal. by apply IH.
Qed.

End Regimes.

(** C3.  Whatever the date filter, the split of the filtered slice at
    the changepoint date puts an observation in "before" exactly when
    its date is strictly earlier, and in "after" otherwise: no
    observation is in both, the two parts together are the slice (as
    they stand when the slice is sorted by date), and an observation
    dated at the changepoint is in "after". *)
Theorem regime_split_is_a_partition
    (df : Dashboard.Frame PriceFields) (date_range : list Z) (cd : Timestamp) :
  let slice := Dashboard.df_filtered df date_range in
  let b := Dashboard.before slice cd in
  let a := Dashboard.after slice cd in
  (∀ row, In row b ↔ In row slice ∧ fst row < cd)
  ∧ (∀ row, In row a ↔ In row slice ∧ cd <= fst row)
  ∧ (∀ row, ¬ (In row b ∧ In row a))
  ∧ Permutation (b ++ a) slice
  ∧ (Sorted (λ x y, fst x <= fst y) slice → b ++ a = slice)
  ∧ (∀ row, In row slice → fst row = cd → In row a ∧ ¬ In row b).
Proof.
  intros slice b a.
  assert (Hb : ∀ row, In row b ↔ In row slice ∧ fst row < cd).
  { intros row. subst b. rewrite before_filter, filter_In, Z.ltb_lt. done. }
  assert (Ha : ∀ row, In row a ↔ In row slice ∧ cd <= fst row).
  { intros row. subst a. rewrite after_filter, filter_In, Z.leb_le. done. }
  split; [done|]. split; [done|]. split; [|split; [|split]].
  - intros row [H1 H2]. apply Hb in H1. apply Ha in H2. lia.
  - subst a b. rewrite before_filter, after_filter.
    apply filter_split_perm. intros x. lia.
  - apply split_sorted_is_cut.
  - intros row Hin Hcd. rewrite Ha, Hb. split; [split; [done|lia]|]. lia.
Qed.

(** The five-row fixture split at 2020-01-03: two observations before,
    three after, the one dated 2020-01-03 after. *)
Example regime_split_of_fixture :
  let cd := 1578009600000000000 in
  Dashboard.change_date Iso.to_datetime Fixture.results = Some cd
  ∧ map (λ row, Price (snd row)) (Dashboard.before Fixture.df cd)
    = [inject_Z 50; inject_Z 51]
  ∧ map (λ row, Price (snd row)) (Dashboard.after Fixture.df cd)
    = [inject_Z 49; inject_Z 52; inject_Z 53].
Proof. vm_compute. done. Qed.

(** ** The nearest-first ordering *)

Section InsertionSort.
Import Dashboard.
Context {A : Type} (key : A → Z).

Lemma insert_by_perm x l : Permutation (insert_by key x l) (x :: l).
Proof.
  induction l as [|y l IH]; simpl; [done|].
  destruct (key x <=? key y); [done|].
  etransitivity; [apply perm_skip, IH|]. apply perm_swap.
Qed.

Lemma insertion_sort_perm l : Permutation (insertion_sort key l) l.
Proof.
  induction l as [|x l IH]; simpl; [done|].
  etransitivity; [apply insert_by_perm|]. by constructor.
Qed.

Lemma insert_by_hd a x l :
  key a <= key x →
  HdRel (λ u v, key u <= key v) a l →
  HdRel (λ u v, key u <= key v) a (insert_by key x l).
Proof.
  intros Hax Hal. destruct l as [|y l]; simpl; [by constructor|].
  destruct (key x <=? key y); constructor; [done|].
  by inversion Hal.
Qed.

Lemma insert_by_sorted x l :
  Sorted (λ u v, key u <= key v) l →
  Sorted (λ u v, key u <= key v) (insert_by key x l).
Proof.
  induction 1 as [|y l Hl IH Hy]; simpl; [by repeat constructor|].
  destruct (key x <=? key y) eqn:E.
  - constructor; [by constructor|]. constructor. lia.
  - constructor; [done|]. apply insert_by_hd; [lia|done].
Qed.

Lemma insertion_sort_sorted l :
  Sorted (λ u v, key u <= key v) (insertion_sort key l).
Proof.
  induction l as [|x l IH]; simpl; [constructor|]. by apply insert_by_sorted.
Qed.

(** An insertion goes past strictly smaller keys only: among equal keys
    the inserted row stays first. *)
Lemma insert_by_same_key k x l :
  List.filter (λ u, key u =? k) (insert_by key x l)
  = List.filter (λ u, key u =? k) (x :: l).
Proof.
  induction l as [|y l IH]; simpl; [done|].
  destruct (key x <=? key y) eqn:E; [done|].
  simpl in *. rewrite IH.
  destruct (key x =? k) eqn:Ex, (key y =? k) eqn:Ey; try done. lia.
Qed.

(** The insertion sort is stable: rows with the same key keep their
    order. *)
Lemma insertion_sort_stable k l :
  List.filter (λ u, key u =? k) (insertion_sort key l)
  = List.filter (λ u, key u =? k) l.
Proof.
  induction l as [|x l IH]; simpl; [done|].
  rewrite insert_by_same_key. simpl. by rewrite IH.
Qed.

End InsertionSort.

Section Indexer.
Import Dashboard.
Context {A : Type} (key : A → Z).

(** Taking rows by an indexer. *)
Lemma take_rows_seq (l1 l2 : list A) :
  take_rows (l1 ++ l2) (seq (length l1) (length l2)) = l2.
Proof.
  revert l1. induction l2 as [|x l2 IH]; intros l1; simpl; [done|].
  unfold take_rows in *. simpl.
  rewrite lookup_app_r, Nat.sub_diag by done. simpl. f_equal.
  specialize (IH (l1 ++ [x])). rewrite <- app_assoc, length_app in IH. simpl in IH.
  by rewrite Nat.add_1_r in IH.
Qed.

Lemma take_rows_all (l : list A) : take_rows l (seq 0 (length l)) = l.
Proof. apply (take_rows_seq [] l). Qed.

Lemma take_rows_perm (l : list A) idx :
  Permutation idx (seq 0 (length l)) → Permutation (take_rows l idx) l.
Proof.
  intros H. unfold take_rows. rewrite H. fold (take_rows l (seq 0 (length l))).
  by rewrite take_rows_all.
Qed.

Lemma take_rows_map (l : list A) idx :
  map key (take_rows l idx) = take_rows (map key l) idx.
Proof.
  unfold take_rows. induction idx as [|i idx IH]; simpl; [done|].
  change (map key l) with (key <$> l). rewrite list_lookup_fmap.
  destruct (l !! i); simpl; [f_equal|]; exact IH.
Qed.

Lemma Sorted_map_key l :
  Sorted Z.le (map key l) → Sorted (λ u v, key u <= key v) l.
Proof.
  induction l as [|x l IH]; simpl; [constructor|].
  intros H. inversion H as [|? ? Hs Hh]; subst. constructor; [by apply IH|].
  destruct l; simpl in *; constructor. by inversion Hh.
Qed.

(** What follows from the contract of [argsort] alone. *)
Lemma sort_values_perm argsort l :
  argsort_ok argsort → Permutation (sort_values argsort key l) l.
Proof.
  intros H. apply take_rows_perm.
  destruct (H (map key l)) as [Hp _]. by rewrite length_map in Hp.
Qed.

Lemma sort_values_sorted argsort l :
  argsort_ok argsort →
  Sorted (λ u v, key u <= key v) (sort_values argsort key l).
Proof.
  intros H. apply Sorted_map_key. unfold sort_values. rewrite take_rows_map.
  by destruct (H (map key l)).
Qed.

(** The stable [argsort] sorts the rows as the insertion sort does. *)
Lemma take_rows_cons (l : list A) i idx y :
  l !! i = Some y → take_rows l (i :: idx) = y :: take_rows l idx.
Proof. intros H. unfold take_rows. simpl. by rewrite H. Qed.

Lemma take_rows_insert_by (l : list A) p ps x :
  l !! p.2 = Some x → key x = p.1 →
  Forall (λ q : Z * nat, ∃ y, l !! q.2 = Some y ∧ key y = q.1) ps →
  take_rows l (map snd (insert_by fst p ps))
  = insert_by key x (take_rows l (map snd ps)).
Proof.
  intros Hx Hk Hps. induction Hps as [|q ps (y & Hy & Hq) Hps IH].
  - cbn [insert_by map]. by rewrite (take_rows_cons _ _ _ _ Hx).
  - cbn [insert_by map]. rewrite (take_rows_cons _ _ _ _ Hy).
    cbn [insert_by]. rewrite Hk, Hq.
    destruct (p.1 <=? q.1); cbn [map].
    + by rewrite (take_rows_cons _ _ _ _ Hx), (take_rows_cons _ _ _ _ Hy).
    + by rewrite (take_rows_cons _ _ _ _ Hy), IH.
Qed.

Lemma take_rows_insertion_sort (l : list A) ps :
  Forall (λ q : Z * nat, ∃ y, l !! q.2 = Some y ∧ key y = q.1) ps →
  take_rows l (map snd (insertion_sort fst ps))
  = insertion_sort key (take_rows l (map snd ps)).
Proof.
  induction 1 as [|q ps (y & Hy & Hq) Hps IH]; [done|].
  cbn [insertion_sort fold_right map].
  fold (insertion_sort (A:=Z * nat) fst ps).
  rewrite (take_rows_insert_by l q _ y Hy Hq).
  - rewrite IH, (take_rows_cons _ _ _ _ Hy). done.
  - eapply Permutation_Forall; [symmetry; apply (insertion_sort_perm fst)|done].
Qed.

Lemma sort_values_stable_argsort l :
  sort_values stable_argsort key l = insertion_sort key l.
Proof.
  unfold sort_values, stable_argsort.
  rewrite take_rows_insertion_sort.
  - change (map snd ?x) with (x.*2). rewrite snd_zip by (by rewrite length_seq).
    by rewrite length_map, take_rows_all.
  - apply Forall_lookup. intros i [k j] Hi.
    apply lookup_zip_with_Some in Hi as (k' & j' & [= -> ->] & Hk & Hj).
    apply lookup_seq in Hj as [-> _]. simpl.
    change (map key l) with (key <$> l) in Hk. rewrite list_lookup_fmap in Hk.
    destruct (l !! i) as [y|]; [|done]. injection Hk as <-. eauto.
Qed.

End Indexer.

Lemma stable_argsort_ok : argsort_ok Dashboard.stable_argsort.
Proof.
  intros ks. split.
  - unfold Dashboard.stable_argsort.
    rewrite (insertion_sort_perm fst).
    change (map snd ?x) with (x.*2). by rewrite snd_zip by (by rewrite length_seq).
  - pose proof (sort_values_stable_argsort (λ k : Z, k) ks) as H.
    unfold Dashboard.sort_values in H. rewrite map_id in H. rewrite H.
    apply (insertion_sort_sorted (λ k : Z, k)).
Qed.

(** C4 as stated does not hold: in the fixture the event of 2020-01-04
    is listed before the event of 2020-01-02, both one day from the
    changepoint 2020-01-03, as in the catalog. *)
Lemma nearest_first_ignores_dates :
  ¬ nearest_first_with_date_ties Dashboard.stable_argsort Iso.to_datetime.
Proof.
  intros H.
  destruct (Dashboard.events_analysis Dashboard.stable_argsort Iso.to_datetime
              Fixture.results Fixture.events_df)
    as [out|] eqn:E; [|vm_compute in E; discriminate].
  destruct (H _ _ _ E) as [_ Ht].
  vm_compute in E. injection E as <-.
  specialize (Ht 1%nat 2%nat _ _ ltac:(lia) eq_refl eq_refl eq_refl).
  vm_compute in Ht. by apply Ht.
Qed.

(** No [argsort] rescues the tie-break: the indexer is computed from the
    [abs_days] column, so two catalogs with the same distances and
    opposite date orders are reordered alike, and one of them comes out
    with the later date first. *)
Lemma no_argsort_orders_ties_by_date (argsort : list Z → list nat) :
  argsort_ok argsort →
  ¬ nearest_first_with_date_ties argsort Iso.to_datetime.
Proof.
  intros Hok H.
  set (e := Fixture.event_row "Geopolitical" "Sanctions").
  set (t2 := 1577923200000000000). set (t4 := 1578096000000000000).
  destruct (Hok [1; 1]) as [Hp _]. simpl in Hp.
  symmetry in Hp. apply Permutation_length_2_inv in Hp.
  destruct Hp as [Hp|Hp].
  - destruct (H Fixture.results [(t4, e); (t2, e)] _ eq_refl) as [_ Ht].
    unfold Dashboard.sort_values in Ht.
    change (map Dashboard.abs_days _) with [1; 1] in Ht. rewrite Hp in Ht.
    specialize (Ht 0%nat 1%nat _ _ ltac:(lia) eq_refl eq_refl eq_refl).
    vm_compute in Ht. by apply Ht.
  - destruct (H Fixture.results [(t2, e); (t4, e)] _ eq_refl) as [_ Ht].
    unfold Dashboard.sort_values in Ht.
    change (map Dashboard.abs_days _) with [1; 1] in Ht. rewrite Hp in Ht.
    specialize (Ht 0%nat 1%nat _ _ ltac:(lia) eq_refl eq_refl eq_refl).
    vm_compute in Ht. by apply Ht.
Qed.

(** The events at -1, 0 and +2 days come out nearest first. *)
Example nearest_first_of_fixture :
  (map Dashboard.days_from_changepoint
     <$> Dashboard.events_analysis Dashboard.stable_argsort Iso.to_datetime
           Fixture.results
           (Dashboard.events_filtered Fixture.events_df
              ["OPEC_Decision"; "Economic_Shock"; "Geopolitical"]%string))
  = Some [0; 1; -1; 2].
Proof. vm_compute. reflexivity. Qed.

(** With the stable [argsort], events at the same distance keep the
    order of the catalog. *)
Lemma stable_argsort_keeps_catalog_order
    (to_datetime : string → option Timestamp) (results : Results)
    (events : Dashboard.Frame EventFields) (cd : Timestamp) (k : Z) :
  Dashboard.change_date to_datetime results = Some cd →
  at_distance k <$> Dashboard.events_analysis Dashboard.stable_argsort
                      to_datetime results events
  = Some (at_distance k (Dashboard.with_distances events cd)).
Proof.
  intros Hcd. unfold Dashboard.events_analysis. rewrite Hcd. simpl. f_equal.
  rewrite sort_values_stable_argsort. apply insertion_sort_stable.
Qed.

(** C4, amended.  With a readable changepoint date and an [argsort]
    that sorts, the event analysis lists the events with their signed
    and absolute distance in days, ascending on [abs_days], and is a
    function of its input: the same input gives the same list.  The
    order is that of the indexer computed from the [abs_days] column
    alone: the dates play no part in ties. *)
Theorem nearest_first_sorts_on_abs_days_alone
    (argsort : list Z → list nat) (to_datetime : string → option Timestamp)
    (results : Results) (events : Dashboard.Frame EventFields) (cd : Timestamp) :
  argsort_ok argsort →
  Dashboard.change_date to_datetime results = Some cd →
  ∃ out,
    Dashboard.events_analysis argsort to_datetime results events = Some out
    ∧ (∀ out', Dashboard.events_analysis argsort to_datetime results events = Some out' →
               out' = out)
    ∧ Sorted nearer out
    ∧ Permutation out (Dashboard.with_distances events cd)
    ∧ Forall (λ x, Dashboard.days_from_changepoint x
                     = timedelta_days (fst (Dashboard.event x)) cd
                   ∧ Dashboard.abs_days x = Z.abs (Dashboard.days_from_changepoint x)) out
    ∧ out = Dashboard.take_rows (Dashboard.with_distances events cd)
              (argsort (map (λ row, Z.abs (timedelta_days (fst row) cd)) events)).
Proof.
  intros Hok Hcd. unfold Dashboard.events_analysis. rewrite Hcd. simpl.
  eexists. split; [done|]. split; [by intros out' [= <-]|].
  split; [by apply sort_values_sorted|].
  split; [by apply sort_values_perm|].
  split.
  - eapply Permutation_Forall; [symmetry; by apply sort_values_perm|].
    unfold Dashboard.with_distances. apply List.Forall_forall.
    intros x Hx. apply in_map_iff in Hx. by destruct Hx as (row & <- & _).
  - unfold Dashboard.sort_values, Dashboard.with_distances. by rewrite map_map.
Qed.

Lemma nearest_first_sorts_on_abs_days_alone_witness :
  ∃ out,
    Dashboard.events_analysis Dashboard.stable_argsort Iso.to_datetime
      Fixture.results Fixture.events_df = Some out
    ∧ map Dashboard.abs_days out = [0; 1; 1; 2].
Proof.
  destruct (nearest_first_sorts_on_abs_days_alone Dashboard.stable_argsort
              Iso.to_datetime Fixture.results Fixture.events_df
              1578009600000000000 stable_argsort_ok eq_refl)
    as (out & E & _ & _ & _ & _ & ->).
  eexists. split; [exact E|]. vm_compute. reflexivity.
Defined.

(** * More of the backend *)

(** ** The event listing in full *)

(** On a loaded catalog, with each date bound absent or readable,
    [get_events] lists exactly the events whose date lies in the range
    and, when an event type is requested, whose type is the requested
    one, in the order of the catalog. *)
Theorem get_events_lists_matching_events
    (to_datetime : string → option Timestamp) (strftime : Timestamp → string)
    (w : World) (args : Args) (l : list (Timestamp * EventFields))
    (lo hi : option Timestamp) :
  stored_rows (event_heap w) (events_data w) l →
  bound to_datetime (args_get args "start_date") = Some lo →
  bound to_datetime (args_get args "end_date") = Some hi →
  ∃ sel : list (Timestamp * EventFields),
    (get_events to_datetime strftime w args).1
      = jsonify (Success {| count := length sel; data := map (render strftime) sel |})
    ∧ sel `sublist_of` l
    ∧ (∀ row, In row sel ↔
              In row l
              ∧ (∀ a, lo = Some a → a <= fst row)
              ∧ (∀ b, hi = Some b → fst row <= b)
              ∧ (∀ t, args_get args "event_type" = Some t → t ≠ ""%string →
                      Event_Type (snd row) = t)).
Proof.
  intros (r & d & Hg & Hd & Hl) Hs He.
  destruct (get_events_view_ok to_datetime strftime _ _ _ _ args lo hi Hd Hl Hs He)
    as [h' E].
  eexists. split; [|split].
  - unfold get_events, dispatch. rewrite Hg, E. reflexivity.
  - apply filter_sublist.
  - intros row. rewrite filter_In, andb_true_iff.
    unfold in_range, lower_ok, upper_ok, type_ok, if_str.
    rewrite andb_true_iff.
    split.
    + intros (Hin & (H1 & H2) & H3). split; [exact Hin|].
      split; [|split].
      * intros a ->. by apply Z.leb_le.
      * intros b ->. by apply Z.leb_le.
      * intros t Ht Hne. rewrite Ht in H3.
        apply String.eqb_neq in Hne. rewrite Hne in H3. by apply String.eqb_eq.
    + intros (Hin & H1 & H2 & H3). split; [exact Hin|]. split; [split|].
      * destruct lo as [a|]; [|reflexivity]. apply Z.leb_le. by apply H1.
      * destruct hi as [b|]; [|reflexivity]. apply Z.leb_le. by apply H2.
      * destruct (args_get args "event_type") as [t|]; [|reflexivity].
        destruct (String.eqb t "") eqn:Et; [reflexivity|].
        apply String.eqb_eq. apply H3; [reflexivity|]. by apply String.eqb_neq.
Qed.

Lemma get_events_lists_matching_events_witness :
  ∃ sel,
    (get_events Iso.to_datetime Iso.strftime Fixture.world
       [("start_date", "2020-01-03"); ("event_type", "Geopolitical")]%string).1
    = jsonify (Success {| count := length sel; data := map (render Iso.strftime) sel |})
    ∧ sel `sublist_of` Fixture.events_df.
Proof.
  destruct (get_events_lists_matching_events Iso.to_datetime Iso.strftime Fixture.world
              [("start_date", "2020-01-03"); ("event_type", "Geopolitical")]%string
              Fixture.events_df (Some 1578009600000000000) None)
    as (sel & E & Hsub & _).
  - exists 0%nat. eexists. vm_compute. repeat split.
  - vm_compute. reflexivity.
  - reflexivity.
  - exists sel. split; [exact E | exact Hsub].
Defined.

(** ** Loading *)

Section Loading.
Context (to_datetime : string → option Timestamp).
Context (strftime : Timestamp → string).

Lemma parse_dates_is_Some {F} (d : DataFrame F) :
  is_Some (parse_dates to_datetime d) ↔ dates_readable to_datetime d.
Proof.
  unfold parse_dates, dates_readable. destruct (rows d) as [l|csv].
  - split; [done|]. by eexists.
  - transitivity (is_Some (mapM (λ r : string * F,
                    t ← to_datetime (fst r); Some (t, snd r)) csv)).
    { destruct (mapM _ csv); simpl; split; intros [x Hx];
        try discriminate; by eexists. }
    rewrite mapM_is_Some. apply Forall_iff. intros r. simpl.
    destruct (to_datetime (fst r)); simpl; split; intros [x Hx];
      try discriminate; by eexists.
Qed.

(** The parsed frame has the rows of the CSV, dates converted. *)
Lemma parse_dates_object {F} (d d' : DataFrame F) csv :
  rows d = ObjectRows csv →
  parse_dates to_datetime d = Some d' →
  ∃ l, rows d' = DatetimeRows l
       ∧ columns d' = columns d
       ∧ Forall2 (λ r r', to_datetime (fst r) = Some (fst r') ∧ snd r' = snd r) csv l.
Proof.
  intros Hr. unfold parse_dates. rewrite Hr.
  destruct (mapM _ csv) as [l|] eqn:E; simpl; [|done]. intros [= <-].
  exists l. split; [done|]. split; [done|].
  apply mapM_Some_1 in E. eapply Forall2_impl; [exact E|].
  intros r r'. simpl. destruct (to_datetime (fst r)); simpl; [|done].
  by intros [= <-].
Qed.

Lemma load_success a :
  price_data (load_all_data to_datetime a) ≠ None →
  ∃ pc ec res df ev,
    brent_with_changepoint_csv a = Some pc
    ∧ parse_dates to_datetime pc = Some df
    ∧ structured_events_csv a = Some ec
    ∧ parse_dates to_datetime ec = Some ev
    ∧ changepoint_results_json a = Some res
    ∧ load_all_data to_datetime a
      = {| price_heap := [df]; event_heap := [ev];
           price_data := Some 0%nat; events_data := Some 0%nat;
           changepoint_results := Some res |}.
Proof.
  unfold load_all_data.
  destruct (brent_with_changepoint_csv a) as [pc|]; simpl; [|done].
  destruct (parse_dates to_datetime pc) as [df|] eqn:E1; simpl; [|done].
  destruct (structured_events_csv a) as [ec|]; simpl; [|done].
  destruct (parse_dates to_datetime ec) as [ev|] eqn:E2; simpl; [|done].
  destruct (changepoint_results_json a) as [res|]; simpl; [|done].
  intros _. by exists pc, ec, res, df, ev.
Qed.

End Loading.

(** [load_all_data] binds the three globals together or none of them:
    they are all set exactly when the three artifacts are read and
    every date of the two frames is readable; otherwise all three are
    [None] and nothing is kept of the artifacts that were read. *)
Theorem load_binds_all_globals_or_none
    (to_datetime : string → option Timestamp) (a : Artifacts) :
  let w := load_all_data to_datetime a in
  (price_data w ≠ None ↔
     ∃ pc ec res,
       brent_with_changepoint_csv a = Some pc
       ∧ structured_events_csv a = Some ec
       ∧ changepoint_results_json a = Some res
       ∧ dates_readable to_datetime pc
       ∧ dates_readable to_datetime ec)
  ∧ (price_data w ≠ None →
       events_data w ≠ None
       ∧ changepoint_results w = changepoint_results_json a
       ∧ (∃ lp, stored_rows (price_heap w) (price_data w) lp)
       ∧ (∃ le, stored_rows (event_heap w) (events_data w) le))
  ∧ (price_data w = None →
       events_data w = None ∧ changepoint_results w = None
       ∧ price_heap w = [] ∧ event_heap w = []).
Proof.
  intros w. split; [|split].
  - split.
    + intros H. destruct (load_success to_datetime a H)
        as (pc & ec & res & df & ev & H1 & H2 & H3 & H4 & H5 & _).
      exists pc, ec, res. repeat split; try done.
      * apply parse_dates_is_Some. by eexists.
      * apply parse_dates_is_Some. by eexists.
    + intros (pc & ec & res & H1 & H2 & H3 & H4 & H5). subst w.
      apply parse_dates_is_Some in H4 as [df H4].
      apply parse_dates_is_Some in H5 as [ev H5].
      unfold load_all_data. rewrite H1. simpl. rewrite H4. simpl.
      rewrite H2. simpl. rewrite H5. simpl. rewrite H3. simpl. done.
  - intros H. destruct (load_success to_datetime a H)
      as (pc & ec & res & df & ev & H1 & H2 & H3 & H4 & H5 & E).
    subst w. rewrite E. simpl.
    destruct (parse_dates_datetime to_datetime _ _ H2) as [lp Hlp].
    destruct (parse_dates_datetime to_datetime _ _ H4) as [le Hle].
    split; [done|]. split; [done|]. split.
    + exists lp, 0%nat, df. done.
    + exists le, 0%nat, ev. done.
  - intros H. destruct (load_all_or_nothing to_datetime a)
      as [(_ & He & Hc & Hp & Hh)|(df & _ & _ & Hs & _)]; [done|].
    destruct Hs as (r & d & Hg & _). fold w in Hg. congruence.
Qed.

(** Load, then list: when the dates of the price file are written as
    the formatter writes them, [get_prices] without arguments gives the
    rows of the file back, all of them, in order, dates as they were. *)
Theorem loaded_prices_list_back_the_file
    (to_datetime : string → option Timestamp) (strftime : Timestamp → string)
    (a : Artifacts) (pc : DataFrame PriceFields) (csv : list (string * PriceFields)) :
  brent_with_changepoint_csv a = Some pc →
  rows pc = ObjectRows csv →
  canonical_dates to_datetime strftime csv →
  price_data (load_all_data to_datetime a) ≠ None →
  (get_prices to_datetime strftime (load_all_data to_datetime a) []).1
  = jsonify (Success {| count := length csv;
                        data := map (λ r, (DateStr (fst r), snd r)) csv |}).
Proof.
  intros Hpc Hrows Hcan Hload.
  destruct (load_success to_datetime a Hload)
    as (pc' & ec & res & df & ev & H1 & H2 & H3 & H4 & H5 & E).
  rewrite Hpc in H1. injection H1 as <-.
  destruct (parse_dates_object to_datetime pc df csv Hrows H2) as (l & Hl & _ & Hall).
  rewrite E.
  destruct (get_prices_view_ok to_datetime strftime [df] 0%nat df l [] None None
              eq_refl Hl eq_refl eq_refl) as [h' Ev].
  unfold get_prices, dispatch. cbn [price_data price_heap].
  change (@Some nat 0%nat) with (@Some ref 0%nat). rewrite Ev.
  cbn [fst]. rewrite filter_all. unfold jsonify. do 3 f_equal.
  - symmetry. by eapply Forall2_length.
  - unfold canonical_dates in Hcan. clear -Hall Hcan.
    induction Hall as [|r r' csv l [Hd Hf] Hall IH]; simpl; [done|].
    inversion Hcan as [|? ? (t & Ht & Hfmt) Hcan']; subst.
    rewrite IH by done. f_equal. unfold render.
    destruct r as [s f], r' as [t' f']. simpl in *.
    rewrite Hd in Ht. injection Ht as ->. by rewrite Hfmt, Hf.
Qed.

Lemma loaded_prices_list_back_the_file_witness :
  ∃ csv,
    rows Fixture.prices_csv = ObjectRows csv
    ∧ (get_prices Iso.to_datetime Iso.strftime Fixture.world []).1
      = jsonify (Success {| count := length csv;
                            data := map (λ r, (DateStr (fst r), snd r)) csv |}).
Proof.
  eexists. split; [reflexivity|].
  apply (loaded_prices_list_back_the_file Iso.to_datetime Iso.strftime
           Fixture.artifacts Fixture.prices_csv _ eq_refl eq_refl).
  - unfold canonical_dates.
    repeat (apply List.Forall_cons;
            [eexists; split; [vm_compute; reflexivity|]; vm_compute; reflexivity|]).
    apply List.Forall_nil.
  - vm_compute. discriminate.
Defined.

(** ** The event types and the date range *)

Section Unique.

Lemma existsb_eqb_In (x : string) (acc : list string) :
  existsb (String.eqb x) acc = true ↔ In x acc.
Proof.
  rewrite existsb_exists. split.
  - intros (y & Hy & E). apply String.eqb_eq in E. by subst.
  - intros H. exists x. split; [done|]. apply String.eqb_refl.
Qed.

(** The accumulator of [unique] only grows at its end, by values not
    yet seen, in the order they are met. *)
Lemma unique_from (acc l : list string) :
  let step := λ (acc : list string) (x : string),
                if existsb (String.eqb x) acc then acc else acc ++ [x] in
  NoDup acc →
  NoDup (fold_left step l acc)
  ∧ (∀ t, In t (fold_left step l acc) ↔ In t acc ∨ In t l)
  ∧ ∃ k, fold_left step l acc = acc ++ k ∧ k `sublist_of` l.
Proof.
  intros step. revert acc. induction l as [|x l IH]; intros acc Hnd.
  - simpl. split; [done|]. split; [tauto|].
    exists []. by rewrite app_nil_r.
  - cbn [fold_left]. unfold step at 2 4 6.
    destruct (existsb (String.eqb x) acc) eqn:E.
    + apply existsb_eqb_In in E.
      destruct (IH acc Hnd) as (H1 & H2 & k & H3 & H4).
      split; [done|]. split.
      * intros t. rewrite H2. simpl. split; [tauto|].
        intros [H|[<-|H]]; tauto.
      * exists k. split; [done|]. by constructor.
    + assert (Hx : ¬ In x acc).
      { intros H. apply existsb_eqb_In in H. congruence. }
      assert (Hnd' : NoDup (acc ++ [x])).
      { apply NoDup_app. split; [done|]. split.
        - intros y Hy Hy'. apply list_elem_of_singleton in Hy'. subst.
          by apply list_elem_of_In in Hy.
        - apply NoDup_singleton. }
      destruct (IH (acc ++ [x]) Hnd') as (H1 & H2 & k & H3 & H4).
      split; [done|]. split.
      * intros t. rewrite H2, in_app_iff. simpl. tauto.
      * exists (x :: k). split; [by rewrite H3, <- app_assoc|]. by constructor.
Qed.

Lemma unique_spec (l : list string) :
  NoDup (unique l)
  ∧ (∀ t, In t (unique l) ↔ In t l)
  ∧ unique l `sublist_of` l.
Proof.
  destruct (unique_from [] l (NoDup_nil_2)) as (H1 & H2 & k & H3 & H4).
  unfold unique. split; [done|]. split.
  - intros t. rewrite H2. simpl. tauto.
  - by rewrite H3.
Qed.

End Unique.


Lemma set_price_heap_id (w : World) : set_price_heap w (price_heap w) = w.
Proof. by destruct w. Qed.



Section Extrema.

Lemma fold_min_spec (l : list Z) (t : Z) :
  In (fold_left Z.min l t) (t :: l)
  ∧ ∀ d, In d (t :: l) → fold_left Z.min l t <= d.
Proof.
  revert t. induction l as [|x l IH]; intros t; simpl.
  - split; [by left|]. intros d [<-|[]]. lia.
  - destruct (IH (Z.min t x)) as [H1 H2]. split.
    + destruct H1 as [H1|H1]; [|by right; right].
      rewrite <- H1. destruct (Z.min_spec t x) as [[_ ->]|[_ ->]]; auto.
    + intros d Hd. assert (fold_left Z.min l (Z.min t x) <= Z.min t x)
        by (apply H2; by left).
      destruct Hd as [<-|[<-|Hd]]; [lia|lia|]. apply H2. by right.
Qed.

Lemma fold_max_spec (l : list Z) (t : Z) :
  In (fold_left Z.max l t) (t :: l)
  ∧ ∀ d, In d (t :: l) → d <= fold_left Z.max l t.
Proof.
  revert t. induction l as [|x l IH]; intros t; simpl.
  - split; [by left|]. intros d [<-|[]]. lia.
  - destruct (IH (Z.max t x)) as [H1 H2]. split.
    + destruct H1 as [H1|H1]; [|by right; right].
      rewrite <- H1. destruct (Z.max_spec t x) as [[_ ->]|[_ ->]]; auto.
    + intros d Hd. assert (Z.max t x <= fold_left Z.max l (Z.max t x))
        by (apply H2; by left).
      destruct Hd as [<-|[<-|Hd]]; [lia|lia|]. apply H2. by right.
Qed.

End Extrema.

(** On a loaded price series with at least one observation,
    [get_date_range] answers with the earliest and the latest date of
    the series, formatted, whatever the order of the rows; on a loaded
    series with no observation it fails with status 500. *)
Theorem date_range_is_earliest_and_latest
    (strftime : Timestamp → string) (w : World)
    (l : list (Timestamp * PriceFields)) :
  stored_rows (price_heap w) (price_data w) l →
  (l = [] → generic_failure (get_date_range strftime w).1)
  ∧ (l ≠ [] →
     ∃ lo hi,
       get_date_range strftime w
       = (jsonify (Success {| min_date := strftime lo; max_date := strftime hi |}), w)
       ∧ In lo (map fst l) ∧ In hi (map fst l)
       ∧ ∀ row, In row l → lo <= fst row <= hi).
Proof.
  intros (r & d & Hg & Hd & Hl). split.
  - intros ->. unfold get_date_range, dispatch, get_date_range_view.
    rewrite Hg. mrun. rewrite Hd, Hl. simpl. apply reply_500.
  - intros Hne. destruct l as [|[t f] l]; [done|].
    destruct (fold_min_spec (map fst l) t) as [Hm1 Hm2].
    destruct (fold_max_spec (map fst l) t) as [HM1 HM2].
    exists (fold_left Z.min (map fst l) t), (fold_left Z.max (map fst l) t).
    split; [|split; [done|split; [done|]]].
    + unfold get_date_range, dispatch, get_date_range_view.
      rewrite Hg. mrun. rewrite Hd, Hl. simpl. rewrite Hd, Hl. simpl.
      by rewrite set_price_heap_id.
    + intros row Hin. apply (in_map fst) in Hin. split; [by apply Hm2 | by apply HM2].
Qed.

Lemma date_range_is_earliest_and_latest_witness :
  ∃ lo hi,
    get_date_range Iso.strftime Fixture.world
    = (jsonify (Success {| min_date := Iso.strftime lo;
                           max_date := Iso.strftime hi |}), Fixture.world)
    ∧ ∀ row, In row Fixture.df → lo <= fst row <= hi.
Proof.
  destruct (date_range_is_earliest_and_latest Iso.strftime Fixture.world Fixture.df)
    as [_ H].
  - exists 0%nat. eexists. vm_compute. repeat split.
  - destruct H as (lo & hi & E & _ & _ & Hall); [vm_compute; discriminate|].
    exists lo, hi. split; [exact E | exact Hall].
Defined.

(** ** The shape of the replies *)

Section Coherence.
Context (to_datetime : string → option Timestamp).
Context (strftime : Timestamp → string).
Context (sqrt : Q → Q).

Lemma coherent_success {F A} (x : A) :
  hoare (F:=F) (λ _, True) (mret (jsonify (Success x)))
        (λ r _, coherent r) (λ _, True).
Proof. by apply hoare_ret. Qed.

Lemma coherent_on_exception {F A} (e : Exn) :
  hoare (F:=F) (λ _, True) (on_exception (A:=A) e) (λ r _, coherent r) (λ _, False).
Proof. by apply hoare_ret. Qed.

Lemma coherent_listing_reply {F} df :
  hoare (F:=F) (λ _, True) (listing_reply strftime df)
        (λ r _, coherent r) (λ _, True).
Proof.
  unfold listing_reply.
  eapply hoare_bind; [apply hoare_any|]. intros col.
  eapply hoare_bind; [apply hoare_any|]. intros strs.
  eapply hoare_bind; [apply hoare_any|]. intros u.
  eapply hoare_bind; [apply hoare_any|]. intros n.
  eapply hoare_bind; [apply hoare_any|]. intros recs.
  apply coherent_success.
Qed.

(** The [except] clause of a view catches whatever its body raises:
    the view itself returns, and returns a coherent reply. *)
Lemma get_prices_view_returns g args :
  hoare (λ _, True) (get_prices_view to_datetime strftime g args)
        (λ r _, coherent r) (λ _, False).
Proof.
  unfold get_prices_view.
  eapply hoare_try; [|intros e; apply coherent_on_exception].
  eapply hoare_bind; [apply hoare_any|]. intros df.
  eapply hoare_bind; [apply hoare_any|]. intros df'.
  apply coherent_listing_reply.
Qed.

Lemma get_events_view_returns g args :
  hoare (λ _, True) (get_events_view to_datetime strftime g args)
        (λ r _, coherent r) (λ _, False).
Proof.
  unfold get_events_view.
  eapply hoare_try; [|intros e; apply coherent_on_exception].
  eapply hoare_bind; [apply hoare_any|]. intros df.
  eapply hoare_bind; [apply hoare_any|]. intros df'.
  eapply hoare_bind; [apply hoare_any|]. intros df''.
  apply coherent_listing_reply.
Qed.

Lemma get_statistics_view_returns g args :
  hoare (λ _, True) (get_statistics_view to_datetime sqrt g args)
        (λ r _, coherent r) (λ _, False).
Proof.
  unfold get_statistics_view.
  eapply hoare_try; [|intros e; apply coherent_on_exception].
  eapply hoare_bind; [apply hoare_any|]. intros df.
  eapply hoare_bind; [apply hoare_any|]. intros df'.
  eapply hoare_bind; [apply hoare_any|]. intros n.
  eapply hoare_bind; [apply hoare_any|]. intros price.
  eapply hoare_bind; [apply hoare_any|]. intros d.
  eapply hoare_bind; [apply hoare_any|]. intros ret_col.
  apply coherent_success.
Qed.

Lemma get_event_types_view_returns g :
  hoare (λ _, True) (get_event_types_view g) (λ r _, coherent r) (λ _, False).
Proof.
  unfold get_event_types_view.
  eapply hoare_try; [|intros e; apply coherent_on_exception].
  eapply hoare_bind; [apply hoare_any|]. intros df.
  eapply hoare_bind; [apply hoare_any|]. intros col.
  apply coherent_success.
Qed.

Lemma get_date_range_view_returns g :
  hoare (λ _, True) (get_date_range_view strftime g) (λ r _, coherent r) (λ _, False).
Proof.
  unfold get_date_range_view.
  eapply hoare_try; [|intros e; apply coherent_on_exception].
  eapply hoare_bind; [apply hoare_any|]. intros df.
  eapply hoare_bind; [apply hoare_any|]. intros col.
  eapply hoare_bind; [apply hoare_any|]. intros lo.
  eapply hoare_bind; [apply hoare_any|]. intros df'.
  eapply hoare_bind; [apply hoare_any|]. intros col'.
  eapply hoare_bind; [apply hoare_any|]. intros hi.
  apply coherent_success.
Qed.

Lemma dispatch_of_returning {F A} (view : M F (Response (Reply A))) (h : Heap F) :
  hoare (λ _, True) view (λ r _, coherent r) (λ _, False) →
  coherent (dispatch view h).1
  ∧ ∃ r h', view h = (inr r, h') ∧ dispatch view h = (r, h').
Proof.
  intros H. specialize (H h I). unfold dispatch.
  destruct (view h) as [[e|r] h']; [done|]. split; [done|]. eauto.
Qed.

End Coherence.

(** In every state and for every request, each data view returns by
    itself (its [except] clause catches whatever the body raises, so the
    500 handler of the application is never reached from a view), and
    its reply is coherent: status 200 with [success] true, or status 500
    with [success] false.  The health check always answers 200. *)
Theorem views_reply_200_or_500
    (to_datetime : string → option Timestamp) (strftime : Timestamp → string)
    (sqrt : Q → Q) (w : World) (args : Args) :
  coherent (get_prices to_datetime strftime w args).1
  ∧ coherent (get_events to_datetime strftime w args).1
  ∧ coherent (get_statistics to_datetime sqrt w args).1
  ∧ coherent (get_event_types w).1
  ∧ coherent (get_date_range strftime w).1
  ∧ coherent (get_changepoint w).1
  ∧ status_code (health_check w).1 = 200
  ∧ (∀ h, ∃ r h', get_prices_view to_datetime strftime (price_data w) args h = (inr r, h'))
  ∧ (∀ h, ∃ r h', get_events_view to_datetime strftime (events_data w) args h = (inr r, h'))
  ∧ (∀ h, ∃ r h', get_statistics_view to_datetime sqrt (price_data w) args h = (inr r, h'))
  ∧ (∀ h, ∃ r h', get_event_types_view (events_data w) h = (inr r, h'))
  ∧ (∀ h, ∃ r h', get_date_range_view strftime (price_data w) h = (inr r, h')).
Proof.
  pose proof (λ h, dispatch_of_returning _ h
    (get_prices_view_returns to_datetime strftime (price_data w) args)) as H1.
  pose proof (λ h, dispatch_of_returning _ h
    (get_events_view_returns to_datetime strftime (events_data w) args)) as H2.
  pose proof (λ h, dispatch_of_returning _ h
    (get_statistics_view_returns to_datetime sqrt (price_data w) args)) as H3.
  pose proof (λ h, dispatch_of_returning _ h
    (get_event_types_view_returns (events_data w))) as H4.
  pose proof (λ h, dispatch_of_returning _ h
    (get_date_range_view_returns strftime (price_data w))) as H5.
  split; [|split; [|split; [|split; [|split; [|split; [|split]]]]]].
  - unfold get_prices. destruct (H1 (price_heap w)) as [H _].
    by destruct (dispatch _ _).
  - unfold get_events. destruct (H2 (event_heap w)) as [H _].
    by destruct (dispatch _ _).
  - unfold get_statistics. destruct (H3 (price_heap w)) as [H _].
    by destruct (dispatch _ _).
  - unfold get_event_types. destruct (H4 (event_heap w)) as [H _].
    by destruct (dispatch _ _).
  - unfold get_date_range. destruct (H5 (price_heap w)) as [H _].
    by destruct (dispatch _ _).
  - reflexivity.
  - reflexivity.
  - repeat split; intros h.
    + destruct (H1 h) as (_ & r & h' & E & _). eauto.
    + destruct (H2 h) as (_ & r & h' & E & _). eauto.
    + destruct (H3 h) as (_ & r & h' & E & _). eauto.
    + destruct (H4 h) as (_ & r & h' & E & _). eauto.
    + destruct (H5 h) as (_ & r & h' & E & _). eauto.
Qed.

(** After the failed load of the fixture the health check answers and
    the views that use the frames fail. *)
Lemma unloaded_store_replies_witness :
  status_code (health_check Fixture.failed_world).1 = 200
  ∧ generic_failure (get_prices Iso.to_datetime Iso.strftime Fixture.failed_world []).1
  ∧ generic_failure (get_event_types Fixture.failed_world).1.
Proof.
  destruct (unloaded_store_replies Iso.to_datetime Iso.strftime Qsqrt_approx
              Fixture.broken_artifacts [] eq_refl) as (H1 & H2 & _ & _ & H3 & _).
  split; [exact H1|]. split; [exact H2 | exact H3].
Defined.

(** ** Requests in sequence *)

Section Sequence.
Context (to_datetime : string → option Timestamp).
Context (strftime : Timestamp → string).
Context (sqrt : Q → Q).

(** The filter block ends as [window] says: the exception of the first
    unreadable date, or the frame of the rows in the window. *)
Lemma apply_date_filters_window {F} (h : Heap F) df d l args :
  h !! df = Some d → rows d = DatetimeRows l →
  match window to_datetime args with
  | inl e =>
      ∃ h', apply_date_filters to_datetime df (args_get args "start_date")
              (args_get args "end_date") h = (inl e, h')
  | inr (lo, hi) =>
      ∃ df' h',
        apply_date_filters to_datetime df (args_get args "start_date")
          (args_get args "end_date") h = (inr df', h')
        ∧ h' !! df' = Some {| columns := columns d;
                              rows := DatetimeRows
                                        (List.filter (λ r, in_range lo hi (fst r)) l) |}
  end.
Proof.
  intros Hd Hl. unfold window.
  destruct (bound to_datetime (args_get args "start_date")) as [lo|] eqn:Hs.
  - destruct (bound to_datetime (args_get args "end_date")) as [hi|] eqn:He.
    + by apply apply_date_filters_ok.
    + destruct (filter_from_ok to_datetime h df d l _ lo Hd Hl Hs)
        as (df1 & h1 & E1 & L1).
      destruct (bound_None _ _ He) as (bad & Hb & Hne & Hp).
      exists h1. unfold apply_date_filters. rewrite (bind_ok _ _ _ _ _ E1).
      rewrite Hb. unfold if_str. rewrite Hne. mrun. by rewrite L1, Hp.
  - destruct (bound_None _ _ Hs) as (bad & Hb & Hne & Hp).
    exists h. unfold apply_date_filters. rewrite Hb. simpl.
    erewrite bind_raise; [done|].
    unfold if_str. rewrite Hne. mrun. by rewrite Hd, Hp.
Qed.

(** The reply of [get_prices] is determined by the stored frame and the
    request, not by what else the heap holds. *)
Lemma get_prices_view_depends_on_frame h1 h2 r d l args :
  h1 !! r = Some d → h2 !! r = Some d → rows d = DatetimeRows l →
  (get_prices_view to_datetime strftime (Some r) args h1).1
  = (get_prices_view to_datetime strftime (Some r) args h2).1.
Proof.
  intros H1 H2 Hl. unfold get_prices_view, try_except.
  rewrite (bind_ok _ _ _ _ _ (copy_ok h1 r d H1)).
  rewrite (bind_ok _ _ _ _ _ (copy_ok h2 r d H2)).
  pose proof (apply_date_filters_window (h1 ++ [d]) (length h1) d l args
                (lookup_fresh h1 d) Hl) as W1.
  pose proof (apply_date_filters_window (h2 ++ [d]) (length h2) d l args
                (lookup_fresh h2 d) Hl) as W2.
  destruct (window to_datetime args) as [e|[lo hi]].
  - destruct W1 as [h1' E1], W2 as [h2' E2].
    by rewrite (bind_raise _ _ _ _ _ E1), (bind_raise _ _ _ _ _ E2).
  - destruct W1 as (df1 & h1' & E1 & L1), W2 as (df2 & h2' & E2 & L2).
    rewrite (bind_ok _ _ _ _ _ E1), (bind_ok _ _ _ _ _ E2).
    by rewrite (listing_reply_ok strftime h1' df1 _ _ L1 eq_refl),
               (listing_reply_ok strftime h2' df2 _ _ L2 eq_refl).
Qed.

Lemma get_statistics_view_depends_on_frame h1 h2 r d l args :
  h1 !! r = Some d → h2 !! r = Some d → rows d = DatetimeRows l →
  (get_statistics_view to_datetime sqrt (Some r) args h1).1
  = (get_statistics_view to_datetime sqrt (Some r) args h2).1.
Proof.
  intros H1 H2 Hl. unfold get_statistics_view, try_except.
  rewrite (bind_ok _ _ _ _ _ (copy_ok h1 r d H1)).
  rewrite (bind_ok _ _ _ _ _ (copy_ok h2 r d H2)).
  pose proof (apply_date_filters_window (h1 ++ [d]) (length h1) d l args
                (lookup_fresh h1 d) Hl) as W1.
  pose proof (apply_date_filters_window (h2 ++ [d]) (length h2) d l args
                (lookup_fresh h2 d) Hl) as W2.
  destruct (window to_datetime args) as [e|[lo hi]].
  - destruct W1 as [h1' E1], W2 as [h2' E2].
    by rewrite (bind_raise _ _ _ _ _ E1), (bind_raise _ _ _ _ _ E2).
  - destruct W1 as (df1 & h1' & E1 & L1), W2 as (df2 & h2' & E2 & L2).
    rewrite (bind_ok _ _ _ _ _ E1), (bind_ok _ _ _ _ _ E2).
    mrun. repeat (rewrite L1; simpl). repeat (rewrite L2; simpl). reflexivity.
Qed.

Lemma dispatch_reply {F A} (view : M F (Response (Reply A))) (h1 h2 : Heap F) :
  (view h1).1 = (view h2).1 → (dispatch view h1).1 = (dispatch view h2).1.
Proof.
  unfold dispatch. destruct (view h1) as [[e1|r1] h1'], (view h2) as [[e2|r2] h2'];
    simpl; intros [= ?]; by subst.
Qed.

(** The price heap after a view of the price series still holds the
    stored frame at its place. *)
Lemma price_frame_after_get_prices w args r d :
  price_data w = Some r → price_heap w !! r = Some d →
  price_heap (get_prices to_datetime strftime w args).2 !! r = Some d.
Proof.
  intros Hg Hd.
  pose proof (dispatch_frame _ _ (get_prices_view_frame to_datetime strftime
                                    (price_heap w) (price_data w) args)) as Hp.
  unfold get_prices. destruct (dispatch _ _) as [rp h']. simpl in *.
  by eapply prefix_lookup_Some.
Qed.

Lemma price_frame_after_get_statistics w args r d :
  price_data w = Some r → price_heap w !! r = Some d →
  price_heap (get_statistics to_datetime sqrt w args).2 !! r = Some d.
Proof.
  intros Hg Hd.
  pose proof (dispatch_frame _ _ (get_statistics_view_frame to_datetime sqrt
                                    (price_heap w) (price_data w) args)) as Hp.
  unfold get_statistics. destruct (dispatch _ _) as [rp h']. simpl in *.
  by eapply prefix_lookup_Some.
Qed.

Lemma price_data_after_get_prices w args :
  price_data (get_prices to_datetime strftime w args).2 = price_data w.
Proof. unfold get_prices. by destruct (dispatch _ _). Qed.

Lemma price_data_after_get_statistics w args :
  price_data (get_statistics to_datetime sqrt w args).2 = price_data w.
Proof. unfold get_statistics. by destruct (dispatch _ _). Qed.

End Sequence.

(** On a loaded price series, what [get_prices] and [get_statistics]
    answer to a request does not depend on the requests served before:
    after any earlier call of either view, with any arguments, the reply
    is the one the freshly loaded store would give. *)
Theorem replies_do_not_depend_on_earlier_requests
    (to_datetime : string → option Timestamp) (strftime : Timestamp → string)
    (sqrt : Q → Q) (w : World) (earlier args : Args)
    (l : list (Timestamp * PriceFields)) :
  stored_rows (price_heap w) (price_data w) l →
  let w1 := (get_prices to_datetime strftime w earlier).2 in
  let w2 := (get_statistics to_datetime sqrt w earlier).2 in
  (get_prices to_datetime strftime w1 args).1
    = (get_prices to_datetime strftime w args).1
  ∧ (get_statistics to_datetime sqrt w1 args).1
    = (get_statistics to_datetime sqrt w args).1
  ∧ (get_prices to_datetime strftime w2 args).1
    = (get_prices to_datetime strftime w args).1
  ∧ (get_statistics to_datetime sqrt w2 args).1
    = (get_statistics to_datetime sqrt w args).1.
Proof.
  intros (r & d & Hg & Hd & Hl) w1 w2.
  pose proof (price_frame_after_get_prices to_datetime strftime w earlier r d Hg Hd) as F1.
  pose proof (price_frame_after_get_statistics to_datetime sqrt w earlier r d Hg Hd) as F2.
  pose proof (price_data_after_get_prices to_datetime strftime w earlier) as G1.
  pose proof (price_data_after_get_statistics to_datetime sqrt w earlier) as G2.
  fold w1 in F1, G1. fold w2 in F2, G2. rewrite Hg in G1, G2.
  assert (P : ∀ w', price_data w' = Some r → price_heap w' !! r = Some d →
              (get_prices to_datetime strftime w' args).1
              = (get_prices to_datetime strftime w args).1).
  { intros w' Hg' Hd'.
    pose proof (dispatch_reply _ (price_heap w') (price_heap w)
      (get_prices_view_depends_on_frame to_datetime strftime _ _ r d l args Hd' Hd Hl))
      as E.
    unfold get_prices. rewrite Hg', Hg.
    by destruct (dispatch _ (price_heap w')), (dispatch _ (price_heap w)). }
  assert (S : ∀ w', price_data w' = Some r → price_heap w' !! r = Some d →
              (get_statistics to_datetime sqrt w' args).1
              = (get_statistics to_datetime sqrt w args).1).
  { intros w' Hg' Hd'.
    pose proof (dispatch_reply _ (price_heap w') (price_heap w)
      (get_statistics_view_depends_on_frame to_datetime sqrt _ _ r d l args Hd' Hd Hl))
      as E.
    unfold get_statistics. rewrite Hg', Hg.
    by destruct (dispatch _ (price_heap w')), (dispatch _ (price_heap w)). }
  auto.
Qed.

Lemma replies_do_not_depend_on_earlier_requests_witness :
  (get_prices Iso.to_datetime Iso.strftime
     (get_prices Iso.to_datetime Iso.strftime Fixture.world
        [("start_date", "2020-01-04")]%string).2
     [("end_date", "2020-01-02")]%string).1
  = (get_prices Iso.to_datetime Iso.strftime Fixture.world
       [("end_date", "2020-01-02")]%string).1.
Proof.
  destruct (replies_do_not_depend_on_earlier_requests Iso.to_datetime Iso.strftime
              Qsqrt_approx Fixture.world [("start_date", "2020-01-04")]%string
              [("end_date", "2020-01-02")]%string Fixture.df) as [H _].
  - exists 0%nat. eexists. vm_compute. repeat split.
  - exact H.
Defined.

(** ** Order among the price statistics *)

Section Order.
Import nanops.
Local Open Scope Q_scope.












Lemma insert_sorted_sorted x l :
  Sorted Qle l → Sorted Qle (insert_sorted x l).
Proof.
  induction 1 as [|y l Hl IH Hy]; simpl; [by repeat constructor|].
  destruct (Qle_bool x y) eqn:E.
  - apply Qle_bool_iff in E. constructor; [by constructor|]. by constructor.
  - assert (y <= x).
    { apply Qlt_le_weak, Qnot_le_lt. intros H. apply Qle_bool_iff in H. congruence. }
    constructor; [done|].
    destruct l as [|z l]; simpl; [by constructor|].
    destruct (Qle_bool x z); constructor; [done|]. by inversion Hy.
Qed.

Lemma sort_sorted l : Sorted Qle (sort l).
Proof.
  induction l as [|x l IH]; simpl; [constructor|]. by apply insert_sorted_sorted.
Qed.





End Order.



(** * More of the dashboard *)

(** ** The filters of the sidebar *)

Lemma filter_keeps_all {A} (p : A → bool) (l : list A) :
  (∀ x, In x l → p x = true) → List.filter p l = l.
Proof.
  induction l as [|x l IH]; simpl; [done|]. intros H.
  rewrite (H x) by auto. f_equal. apply IH. auto.
Qed.

(** The date picker filters on calendar days, both ends included, and
    only once both ends are picked: with any other number of dates in
    the tuple the frame is left whole. *)
Theorem date_picker_filters_by_calendar_day
    (df : Dashboard.Frame PriceFields) (date_range : list Z) :
  Dashboard.df_filtered df date_range `sublist_of` df
  ∧ (∀ d0 d1, date_range = [d0; d1] →
       ∀ row, In row (Dashboard.df_filtered df date_range) ↔
              In row df ∧ d0 <= dt_date (fst row) <= d1)
  ∧ (length date_range ≠ 2%nat → Dashboard.df_filtered df date_range = df).
Proof.
  split; [|split].
  - destruct date_range as [|d0 [|d1 [|d2 rest]]]; try done.
    rewrite df_filtered_range. apply filter_sublist.
  - intros d0 d1 ->. intros row.
    rewrite df_filtered_range, filter_In, andb_true_iff, !Z.leb_le. tauto.
  - intros Hlen. by destruct date_range as [|d0 [|d1 [|d2 rest]]].
Qed.

(** The type selection keeps the events whose type is selected, in
    order; with the default selection (every type of the catalog)
    nothing is dropped, with an empty selection nothing is kept. *)
Theorem type_selection_filters_events
    (events_df : Dashboard.Frame EventFields) (event_types : list string) :
  (∀ row, In row (Dashboard.events_filtered events_df event_types) ↔
          In row events_df ∧ In (Event_Type (snd row)) event_types)
  ∧ Dashboard.events_filtered events_df event_types `sublist_of` events_df
  ∧ Dashboard.events_filtered events_df
      (unique (map (λ row, Event_Type (snd row)) events_df)) = events_df
  ∧ Dashboard.events_filtered events_df [] = [].
Proof.
  assert (E : ∀ ts, Dashboard.events_filtered events_df ts
                    = List.filter (λ r, existsb (String.eqb (Event_Type (snd r))) ts)
                        events_df).
  { intros ts. apply boolean_index_map. }
  split; [|split; [|split]].
  - intros row. by rewrite E, filter_In, existsb_eqb_In.
  - rewrite E. apply filter_sublist.
  - rewrite E. apply filter_keeps_all. intros row Hin.
    apply existsb_eqb_In.
    destruct (unique_spec (map (λ row, Event_Type (snd row)) events_df)) as (_ & H & _).
    apply H. by apply (in_map (λ row, Event_Type (snd row))).
  - rewrite E. by apply filter_none.
Qed.

(** ** The markers of the price chart *)

Section Argmin.
Import Charts.

Lemma argmin_from_spec (pre l : list Z) (best_i : nat) (best : Z) :
  (pre ++ l) !! best_i = Some best →
  (best_i < length pre)%nat →
  (∀ j v, (j < length pre)%nat → (pre ++ l) !! j = Some v →
          best <= v ∧ ((j < best_i)%nat → best < v)) →
  ∃ v, (pre ++ l) !! argmin_from best_i best (length pre) l = Some v
       ∧ ∀ j v', (pre ++ l) !! j = Some v' →
                 v <= v' ∧ ((j < argmin_from best_i best (length pre) l)%nat → v < v').
Proof.
  revert pre best_i best. induction l as [|x l IH]; intros pre best_i best Hb Hlt Hinv.
  - simpl. exists best. split; [done|]. intros j v' Hj.
    apply Hinv; [|done]. apply lookup_lt_Some in Hj. by rewrite app_nil_r in Hj.
  - cbn [argmin_from].
    assert (Hx : (pre ++ x :: l) !! length pre = Some x)
      by (by rewrite lookup_app_r, Nat.sub_diag).
    assert (Hl : length (pre ++ [x]) = S (length pre))
      by (rewrite length_app; simpl; lia).
    assert (Hc : pre ++ x :: l = (pre ++ [x]) ++ l) by (by rewrite <- app_assoc).
    destruct (x <? best) eqn:E.
    + specialize (IH (pre ++ [x]) (length pre) x).
      rewrite Hl, <- Hc in IH. apply IH; [done|lia|].
      intros j v Hj Hv. destruct (decide (j = length pre)) as [->|Hne].
      * rewrite Hx in Hv. injection Hv as <-. split; [lia|]. lia.
      * destruct (Hinv j v ltac:(lia) Hv) as [H1 H2]. split; lia.
    + specialize (IH (pre ++ [x]) best_i best).
      rewrite Hl, <- Hc in IH. apply IH; [done|lia|].
      intros j v Hj Hv. destruct (decide (j = length pre)) as [->|Hne].
      * rewrite Hx in Hv. injection Hv as <-. split; [lia|]. lia.
      * apply Hinv; [lia|done].
Qed.

(** [argmin] returns the first position of the least value. *)
Lemma argmin_spec (l : list Z) :
  l ≠ [] →
  ∃ i v, argmin l = Some i ∧ l !! i = Some v
         ∧ ∀ j v', l !! j = Some v' → v <= v' ∧ ((j < i)%nat → v < v').
Proof.
  intros Hne. destruct l as [|x l]; [done|]. simpl.
  destruct (argmin_from_spec [x] l 0 x) as (v & Hv & Hall); [done|simpl; lia|..].
  - intros j v Hj Hjv. simpl in Hj. assert (j = 0)%nat as -> by lia.
    simpl in Hjv. injection Hjv as <-. split; lia.
  - exists (argmin_from 0 x 1 l), v. done.
Qed.

End Argmin.

(** The price plotted for an event is the price of the observation
    nearest in time to the event, the first such row of the frame when
    several are equally near; in particular the price of the event's
    own date when the series has it.  On an empty price frame the
    lookup raises. *)
Theorem event_marker_takes_nearest_price
    (df : Dashboard.Frame PriceFields) (date : Timestamp) :
  (df = [] → Charts.closest_price df date = None)
  ∧ (df ≠ [] →
     ∃ i row,
       Charts.closest_idx df date = Some i
       ∧ df !! i = Some row
       ∧ Charts.closest_price df date = Some (Price (snd row))
       ∧ (∀ j row', df !! j = Some row' →
            Z.abs (fst row - date) <= Z.abs (fst row' - date)
            ∧ ((j < i)%nat → Z.abs (fst row - date) < Z.abs (fst row' - date)))
       ∧ ((∃ row', In row' df ∧ fst row' = date) → fst row = date)).
Proof.
  split; [by intros ->|]. intros Hne.
  destruct (argmin_spec (map (λ r, Z.abs (fst r - date)) df)) as (i & v & Hi & Hv & Hall).
  { by destruct df. }
  change (map ?f df) with (f <$> df) in Hv, Hall.
  rewrite list_lookup_fmap in Hv.
  apply fmap_Some in Hv as (row & Hrow & ->).
  assert (Hmin : ∀ j row', df !! j = Some row' →
            Z.abs (fst row - date) <= Z.abs (fst row' - date)
            ∧ ((j < i)%nat → Z.abs (fst row - date) < Z.abs (fst row' - date))).
  { intros j row' Hj. apply Hall.
    rewrite list_lookup_fmap. apply fmap_Some. by exists row'. }
  exists i, row. split; [exact Hi|]. split; [exact Hrow|]. split; [|split; [exact Hmin|]].
  - unfold Charts.closest_price.
    change (Charts.closest_idx df date)
      with (Charts.argmin (map (λ r : Z * PriceFields, Z.abs (r.1 - date)) df)).
    rewrite Hi. simpl. unfold Dashboard.Frame, Timestamp in *. by rewrite Hrow.
  - intros (row' & Hin & Hd). apply list_elem_of_In, list_elem_of_lookup in Hin.
    destruct Hin as [j Hj]. destruct (Hmin j row' Hj) as [H _].
    unfold Dashboard.Frame, Timestamp in *.
    rewrite Hd, Z.sub_diag in H. simpl in H. lia.
Qed.

(** ** The traces of the price chart *)

Section Groups.

Lemma filter_ext_in {A} (p q : A → bool) (l : list A) :
  (∀ x, In x l → p x = q x) → List.filter p l = List.filter q l.
Proof.
  induction l as [|x l IH]; simpl; [done|]. intros H.
  rewrite (H x) by auto. rewrite IH by auto. done.
Qed.

Lemma flat_map_ext_on {A B} (f g : A → list B) (l : list A) :
  (∀ x, In x l → f x = g x) → flat_map f l = flat_map g l.
Proof.
  induction l as [|x l IH]; simpl; [done|]. intros H.
  rewrite (H x) by auto. rewrite IH by auto. done.
Qed.

(** Grouping by a key over a duplicate-free list of keys that covers
    the rows puts every row in exactly one group. *)
Lemma group_by_perm {A} (key : A → string) (ts : list string) (l : list A) :
  NoDup ts → (∀ x, In x l → In (key x) ts) →
  Permutation (flat_map (λ t, List.filter (λ x, String.eqb (key x) t) l) ts) l.
Proof.
  revert l. induction ts as [|t ts IH]; intros l Hnd Hcov.
  - destruct l as [|x l]; [done|]. destruct (Hcov x). by left.
  - apply NoDup_cons in Hnd as [Ht Hnd]. cbn [flat_map].
    set (rest := List.filter (λ x, negb (String.eqb (key x) t)) l).
    assert (E : flat_map (λ t', List.filter (λ x, String.eqb (key x) t') l) ts
                = flat_map (λ t', List.filter (λ x, String.eqb (key x) t') rest) ts).
    { apply flat_map_ext_on. intros t' Ht'. subst rest.
      rewrite filter_filter_and. apply filter_ext_in. intros x _.
      destruct (String.eqb (key x) t') eqn:E1; [|by rewrite andb_false_r].
      apply String.eqb_eq in E1. subst t'.
      destruct (String.eqb (key x) t) eqn:E2; [|done].
      apply String.eqb_eq in E2. subst t. destruct Ht. by apply list_elem_of_In. }
    rewrite E. rewrite (IH rest Hnd).
    + apply filter_split_perm. done.
    + intros x Hx. subst rest. apply filter_In in Hx as [Hx Hk].
      destruct (Hcov x Hx) as [->|H]; [|done].
      by rewrite String.eqb_refl in Hk.
Qed.

Lemma zip_map_map {A B C} (f : A → B) (g : A → C) (l : list A) :
  zip (map f l) (map g l) = map (λ x, (f x, g x)) l.
Proof. induction l as [|x l IH]; simpl; congruence. Qed.

End Groups.

Section PriceChart.
Import Charts.
Context (to_datetime : string → option Timestamp).

Lemma event_trace_Some df events_df t tr :
  event_trace df events_df t = Some tr →
  let group := List.filter (λ r, String.eqb (Event_Type (snd r)) t) events_df in
  Trace.x tr = map fst group
  ∧ Trace.text tr = map (λ r, Description (snd r)) group
  ∧ Forall2 (λ d p, closest_price df d = Some p) (map fst group) (Trace.y tr)
  ∧ Trace.name tr = replace_underscore t
  ∧ Trace.marker_color tr = default "gray"%string (event_colors !! t).
Proof.
  unfold event_trace. rewrite boolean_index_map.
  destruct (mapM _ _) as [ps|] eqn:E; simpl; [|done]. intros [= <-]. simpl.
  apply mapM_Some_1 in E. done.
Qed.

Lemma closest_price_is_Some df date :
  df ≠ [] → is_Some (closest_price df date).
Proof.
  intros Hne.
  destruct (argmin_spec (map (λ r, Z.abs (fst r - date)) df)) as (i & v & Hi & Hv & _).
  { by destruct df. }
  change (map ?f df) with (f <$> df) in Hv. rewrite list_lookup_fmap in Hv.
  apply fmap_Some in Hv as (row & Hrow & _).
  exists (Price (snd row)). unfold closest_price.
  change (closest_idx df date)
    with (argmin (map (λ r : Z * PriceFields, Z.abs (r.1 - date)) df)).
  rewrite Hi. simpl. unfold Dashboard.Frame, Timestamp in *. by rewrite Hrow.
Qed.

Lemma event_trace_is_Some df events_df t :
  df ≠ [] → is_Some (event_trace df events_df t).
Proof.
  intros Hne. unfold event_trace.
  destruct (mapM (closest_price df) _) as [ps|] eqn:E; simpl; [by eexists|].
  assert (H : is_Some (mapM (closest_price df)
            (map fst (boolean_index events_df
               (map (λ r, String.eqb (Event_Type (snd r)) t) events_df))))).
  { apply mapM_is_Some, Forall_forall. intros d _. by apply closest_price_is_Some. }
  rewrite E in H. by destruct H.
Qed.

Lemma event_trace_without_prices events_df t :
  In t (map (λ r, Event_Type (snd r)) events_df) →
  event_trace [] events_df t = None.
Proof.
  intros Hin. unfold event_trace. rewrite boolean_index_map.
  destruct (List.filter _ events_df) as [|r group] eqn:E; [|done].
  apply in_map_iff in Hin as (r & <- & Hr).
  assert (H : In r (List.filter (λ r', String.eqb (Event_Type (snd r'))
                                         (Event_Type (snd r))) events_df)).
  { apply filter_In. split; [done|]. apply String.eqb_refl. }
  rewrite E in H. destruct H.
Qed.

End PriceChart.

(** When [create_price_chart] returns, its marker traces show every
    event of the frame exactly once, with its own date and description:
    one trace per event type of the frame, each with as many prices and
    texts as dates. *)
Theorem price_chart_shows_every_event_once
    (to_datetime : string → option Timestamp)
    (df : Dashboard.Frame PriceFields) (events_df : Dashboard.Frame EventFields)
    (results : Results) (chart : Charts.PriceChart) :
  Charts.create_price_chart to_datetime df events_df results = Some chart →
  Permutation
    (flat_map (λ tr, zip (Charts.Trace.x tr) (Charts.Trace.text tr))
              (Charts.event_traces chart))
    (map (λ r, (fst r, Description (snd r))) events_df)
  ∧ Forall (λ tr, length (Charts.Trace.y tr) = length (Charts.Trace.x tr)
                  ∧ length (Charts.Trace.text tr) = length (Charts.Trace.x tr))
           (Charts.event_traces chart)
  ∧ map Charts.Trace.name (Charts.event_traces chart)
    = map Charts.replace_underscore (unique (map (λ r, Event_Type (snd r)) events_df))
  ∧ Charts.price_line chart = map (λ r, (fst r, Price (snd r))) df.
Proof.
  unfold Charts.create_price_chart.
  destruct (to_datetime _) as [cd|]; simpl; [|done].
  destruct (mapM _ _) as [traces|] eqn:E; simpl; [|done]. intros [= <-]. simpl.
  apply mapM_Some_1 in E.
  destruct (unique_spec (map (λ r, Event_Type (snd r)) events_df)) as (Hnd & Hin & _).
  set (types := unique (map (λ r, Event_Type (snd r)) events_df)) in *.
  split; [|split; [|split; [|done]]].
  - assert (Heq : flat_map (λ tr, zip (Charts.Trace.x tr) (Charts.Trace.text tr)) traces
                  = map (λ r : Timestamp * EventFields, (fst r, Description (snd r)))
                      (flat_map (λ t, List.filter
                                   (λ r, String.eqb (Event_Type (snd r)) t) events_df)
                                types)).
    { clear Hnd Hin.
      induction E as [|t tr types traces Ht E IH]; simpl; [done|].
      apply event_trace_Some in Ht as (Hx & Htx & _).
      rewrite Hx, Htx, zip_map_map, map_app. by rewrite IH. }
    rewrite Heq.
    apply Permutation_map. apply (group_by_perm (λ r, Event_Type (snd r))); [done|].
    intros x Hx. apply Hin. by apply (in_map (λ r, Event_Type (snd r))).
  - clear Hnd Hin. induction E as [|t tr types traces Ht E IH]; [constructor|].
    constructor; [|done].
    apply event_trace_Some in Ht as (Hx & Htx & Hy & _).
    rewrite Hx, Htx. split; [|by rewrite !length_map].
    symmetry. by eapply Forall2_length.
  - clear Hnd Hin. induction E as [|t tr types traces Ht E IH]; simpl; [done|].
    apply event_trace_Some in Ht as (_ & _ & _ & Hn & _). by rewrite Hn, IH.
Qed.

Lemma price_chart_shows_every_event_once_witness :
  ∃ chart,
    Charts.create_price_chart Iso.to_datetime Fixture.df Fixture.events_df
      Fixture.results = Some chart
    ∧ Permutation
        (flat_map (λ tr, zip (Charts.Trace.x tr) (Charts.Trace.text tr))
                  (Charts.event_traces chart))
        (map (λ r, (fst r, Description (snd r))) Fixture.events_df).
Proof.
  destruct (Charts.create_price_chart Iso.to_datetime Fixture.df Fixture.events_df
              Fixture.results) as [chart|] eqn:E; [|vm_compute in E; discriminate].
  exists chart. split; [reflexivity|].
  exact (proj1 (price_chart_shows_every_event_once _ _ _ _ _ E)).
Defined.

(** [create_price_chart] raises exactly when the changepoint date is
    unreadable or there is an event to place and no price to place it
    on. *)
Theorem price_chart_raises_without_prices
    (to_datetime : string → option Timestamp)
    (df : Dashboard.Frame PriceFields) (events_df : Dashboard.Frame EventFields)
    (results : Results) :
  Charts.create_price_chart to_datetime df events_df results = None
  ↔ to_datetime (change_point_date results) = None ∨ (df = [] ∧ events_df ≠ []).
Proof.
  unfold Charts.create_price_chart.
  destruct (to_datetime _) as [cd|]; simpl; [|by split; [left|]].
  split.
  - intros H. right. destruct df as [|p df].
    + split; [done|]. intros ->. done.
    + exfalso.
      assert (Hs : is_Some (mapM (Charts.event_trace (p :: df) events_df)
                (unique (map (λ r, Event_Type (snd r)) events_df)))).
      { apply mapM_is_Some, Forall_forall. intros t _.
        by apply event_trace_is_Some. }
      destruct Hs as [traces Hs]. by rewrite Hs in H.
  - intros [H|[-> Hne]]; [done|].
    destruct events_df as [|[d e] events_df]; [done|].
    destruct (unique_from [] (map (λ r, Event_Type (snd r)) ((d, e) :: events_df))
                NoDup_nil_2) as (_ & _ & k & Hk & _).
    cbn [map fold_left existsb snd app] in Hk.
    destruct (unique_from [Event_Type e] (map (λ r, Event_Type (snd r)) events_df))
      as (_ & _ & k' & Hk' & _); [apply NoDup_singleton|].
    unfold unique. cbn [map fold_left existsb snd app]. rewrite Hk'.
    cbn [app mapM]. rewrite event_trace_without_prices; [done|]. by left.
Qed.

(** ** The event timeline *)

Section Timelines.
Import Charts.

Lemma Sorted_map_rel {A B} (R : A → A → Prop) (S : B → B → Prop) (g : A → B) l :
  (∀ x y, R x y → S (g x) (g y)) → Sorted R l → Sorted S (map g l).
Proof.
  intros H. induction 1 as [|x l Hl IH Hx]; simpl; constructor; [done|].
  destruct Hx; simpl; constructor. by apply H.
Qed.

Lemma timedelta_days_neg (a b : Timestamp) : timedelta_days a b < 0 ↔ a < b.
Proof.
  unfold timedelta_days, ns_per_day. split.
  - intros H. destruct (Z_lt_le_dec a b) as [|Hge]; [done|].
    assert (0 <= (a - b) / 86400000000000) by (apply Z.div_pos; lia). lia.
  - intros H. apply Z.div_lt_upper_bound; lia.
Qed.

Lemma color_map_None (t : string) :
  color_map !! t = None
  ↔ t ≠ "OPEC_Decision"%string ∧ t ≠ "Geopolitical"%string
    ∧ t ≠ "Economic_Shock"%string.
Proof.
  unfold color_map. cbn [list_to_map foldr fst snd uncurry].
  rewrite !lookup_insert_None, lookup_empty. intuition congruence.
Qed.

End Timelines.

(** Whatever the order of the events it is given (the dashboard passes
    them sorted by distance), [create_event_timeline] plots every event
    once, in date order, with its distance in whole days from the
    changepoint: negative exactly for the events dated before it.  An
    event whose type is not one of the three known types has no colour. *)
Theorem timeline_is_chronological
    (argsort : list Z → list nat) (to_datetime : string → option Timestamp)
    (events_df : Dashboard.Frame EventFields) (results : Results) (cd : Timestamp) :
  argsort_ok argsort →
  to_datetime (change_point_date results) = Some cd →
  ∃ tl,
    Charts.create_event_timeline argsort to_datetime events_df results = Some tl
    ∧ Sorted (λ u v, fst (Charts.Timeline.event u) <= fst (Charts.Timeline.event v)) tl
    ∧ Permutation (map Charts.Timeline.event tl) events_df
    ∧ Forall (λ x,
        Charts.Timeline.days_from_cp x = timedelta_days (fst (Charts.Timeline.event x)) cd
        ∧ Charts.Timeline.abs_days x = Z.abs (Charts.Timeline.days_from_cp x)
        ∧ (Charts.Timeline.days_from_cp x < 0 ↔ fst (Charts.Timeline.event x) < cd)
        ∧ (Charts.Timeline.color x = None
           ↔ Event_Type (snd (Charts.Timeline.event x)) ≠ "OPEC_Decision"%string
             ∧ Event_Type (snd (Charts.Timeline.event x)) ≠ "Geopolitical"%string
             ∧ Event_Type (snd (Charts.Timeline.event x)) ≠ "Economic_Shock"%string))
        tl.
Proof.
  intros Hok Hcd. unfold Charts.create_event_timeline. rewrite Hcd. simpl.
  set (f := λ r : Timestamp * EventFields,
         {| Charts.Timeline.event := r;
            Charts.Timeline.days_from_cp := timedelta_days (fst r) cd;
            Charts.Timeline.abs_days := Z.abs (timedelta_days (fst r) cd);
            Charts.Timeline.color := None |}).
  set (key := λ x : Charts.Timeline.t, fst (Charts.Timeline.event x)).
  set (sorted := Dashboard.sort_values argsort key (map f events_df)).
  assert (Hperm : Permutation sorted (map f events_df))
    by (by apply sort_values_perm).
  eexists. split; [done|]. split; [|split].
  - eapply Sorted_map_rel; [|by apply (sort_values_sorted key argsort (map f events_df))].
    intros x y H. exact H.
  - rewrite map_map. cbn [Charts.Timeline.event]. rewrite Hperm, map_map.
    cbn [Charts.Timeline.event f]. by rewrite map_id.
  - apply List.Forall_forall. intros x Hx.
    apply in_map_iff in Hx as (x0 & <- & Hx0).
    apply (Permutation_in _ Hperm) in Hx0.
    apply in_map_iff in Hx0 as (r & <- & _). cbn.
    split; [done|]. split; [done|]. split; [apply timedelta_days_neg|].
    apply color_map_None.
Qed.

Lemma timeline_is_chronological_witness :
  ∃ tl,
    Charts.create_event_timeline Dashboard.stable_argsort Iso.to_datetime
      Fixture.events_df Fixture.results = Some tl
    ∧ Sorted (λ u v, fst (Charts.Timeline.event u) <= fst (Charts.Timeline.event v)) tl
    ∧ Permutation (map Charts.Timeline.event tl) Fixture.events_df.
Proof.
  destruct (timeline_is_chronological Dashboard.stable_argsort Iso.to_datetime
              Fixture.events_df Fixture.results 1578009600000000000
              stable_argsort_ok eq_refl)
    as (tl & E & Hs & Hp & _).
  exists tl. split; [exact E|]. split; [exact Hs|exact Hp].
Defined.

(** ** The closest events *)

Lemma StronglySorted_app_split {A} (R : A → A → Prop) (l1 l2 : list A) :
  StronglySorted R (l1 ++ l2) →
  StronglySorted R l1 ∧ ∀ x y, In x l1 → In y l2 → R x y.
Proof.
  induction l1 as [|a l1 IH]; simpl; intros H.
  - split; [constructor|]. by intros x y [].
  - inversion H as [|? ? Hs Ha]; subst. destruct (IH Hs) as [IH1 IH2].
    rewrite List.Forall_forall in Ha. split.
    + constructor; [done|]. apply List.Forall_forall. intros x Hx.
      apply Ha, in_or_app. by left.
    + intros x y [<-|Hx] Hy; [|by apply IH2]. apply Ha, in_or_app. by right.
Qed.

(** The table "Closest Events to Change Point" lists the five events
    nearest to the changepoint (all of them when there are fewer),
    nearest first: no event left out of it is nearer than a listed
    one. *)
Theorem closest_events_are_the_nearest
    (argsort : list Z → list nat) (to_datetime : string → option Timestamp)
    (results : Results) (events : Dashboard.Frame EventFields) (cd : Timestamp) :
  argsort_ok argsort →
  Dashboard.change_date to_datetime results = Some cd →
  ∃ out rest,
    Dashboard.events_analysis argsort to_datetime results events = Some out
    ∧ length (Dashboard.closest_events out) = Nat.min 5 (length events)
    ∧ Sorted nearer (Dashboard.closest_events out)
    ∧ Permutation (Dashboard.closest_events out ++ rest)
                  (Dashboard.with_distances events cd)
    ∧ (∀ x y, In x (Dashboard.closest_events out) → In y rest → nearer x y).
Proof.
  intros Hok Hcd. unfold Dashboard.events_analysis. rewrite Hcd. simpl.
  set (out := Dashboard.sort_values argsort Dashboard.abs_days
                (Dashboard.with_distances events cd)).
  assert (Hperm : Permutation out (Dashboard.with_distances events cd))
    by (by apply sort_values_perm).
  assert (Hsorted : StronglySorted nearer (Dashboard.closest_events out ++ drop 5 out)).
  { unfold Dashboard.closest_events. rewrite take_drop.
    apply Sorted_StronglySorted; [intros x y z; unfold nearer; lia|].
    by apply sort_values_sorted. }
  apply StronglySorted_app_split in Hsorted as [Hs Hle].
  exists out, (drop 5 out). split; [done|]. split; [|split; [|split]].
  - unfold Dashboard.closest_events. rewrite length_take.
    apply Permutation_length in Hperm. rewrite Hperm.
    unfold Dashboard.with_distances. by rewrite length_map.
  - by apply StronglySorted_Sorted.
  - unfold Dashboard.closest_events. by rewrite take_drop.
  - exact Hle.
Qed.

Lemma closest_events_are_the_nearest_witness :
  ∃ out,
    Dashboard.events_analysis Dashboard.stable_argsort Iso.to_datetime
      Fixture.results Fixture.events_df = Some out
    ∧ length (Dashboard.closest_events out) = 4%nat
    ∧ Sorted nearer (Dashboard.closest_events out).
Proof.
  destruct (closest_events_are_the_nearest Dashboard.stable_argsort Iso.to_datetime
              Fixture.results Fixture.events_df 1578009600000000000
              stable_argsort_ok eq_refl)
    as (out & rest & E & Hlen & Hs & _).
  exists out. split; [exact E|]. split; [exact Hlen|exact Hs].
Defined.

(** ** The mean lines of the returns chart *)

Section ReturnsChart.
Import Charts.

Lemma length_filter_pos {A} (p : A → bool) (l : list A) :
  (0 <? length (List.filter p l))%nat = true ↔ ∃ x, In x l ∧ p x = true.
Proof.
  rewrite Nat.ltb_lt. split.
  - destruct (List.filter p l) as [|x k] eqn:E; simpl; [lia|]. intros _.
    exists x. apply filter_In. rewrite E. by left.
  - intros (x & Hx & Hp).
    assert (H : In x (List.filter p l)) by (by apply filter_In).
    destruct (List.filter p l); [done|simpl; lia].
Qed.

Lemma filter_on_dates {F} (p : Timestamp → bool) (df df' : Dashboard.Frame F) :
  map fst df' = map fst df →
  length (List.filter (λ r, p (fst r)) df') = length (List.filter (λ r, p (fst r)) df).
Proof.
  revert df. induction df' as [|r' df' IH]; intros [|r df]; simpl; try done.
  intros [= H1 H2]. rewrite H1. destruct (p (fst r)); simpl; by rewrite (IH df H2).
Qed.

Lemma regime_lengths_on_dates {F} (df df' : Dashboard.Frame F) cd :
  map fst df' = map fst df →
  length (Dashboard.before df' cd) = length (Dashboard.before df cd)
  ∧ length (Dashboard.after df' cd) = length (Dashboard.after df cd).
Proof.
  intros Hd. rewrite !before_filter, !after_filter. split.
  - by apply (filter_on_dates (λ t, t <? cd)).
  - by apply (filter_on_dates (λ t, cd <=? t)).
Qed.

Lemma create_returns_chart_on_dates to_datetime (df df' : Dashboard.Frame PriceFields)
    results :
  map fst df' = map fst df →
  create_returns_chart to_datetime df' results
  = create_returns_chart to_datetime df results.
Proof.
  intros Hd. unfold create_returns_chart.
  destruct (to_datetime _) as [cd|]; simpl; [|done].
  destruct (regime_lengths_on_dates df df' cd Hd) as [E1 E2].
  by rewrite E1, E2.
Qed.

End ReturnsChart.

(** [create_returns_chart] draws the line of the "before" mean exactly
    when some observation is dated before the changepoint, and the line
    of the "after" mean exactly when some observation is dated at or
    after it: one line at least on a non-empty frame, the "before" line
    first.  The lines are the means of the fitted model; apart from the
    dates, the values of the frame play no part in them. *)
Theorem returns_chart_mean_lines
    (to_datetime : string → option Timestamp)
    (df : Dashboard.Frame PriceFields) (results : Results) (cd : Timestamp) :
  to_datetime (change_point_date results) = Some cd →
  let before_line := {| Charts.HLine.y := mu_before results;
                        Charts.HLine.annotation_position := "left" |} in
  let after_line := {| Charts.HLine.y := mu_after results;
                       Charts.HLine.annotation_position := "right" |} in
  ∃ lines,
    Charts.create_returns_chart to_datetime df results = Some lines
    ∧ (In before_line lines ↔ ∃ row, In row df ∧ fst row < cd)
    ∧ (In after_line lines ↔ ∃ row, In row df ∧ cd <= fst row)
    ∧ lines `sublist_of` [before_line; after_line]
    ∧ (df ≠ [] → lines ≠ [])
    ∧ (∀ df', map fst df' = map fst df →
              Charts.create_returns_chart to_datetime df' results = Some lines).
Proof.
  intros Hcd before_line after_line.
  assert (Hdates : ∀ df', map fst df' = map fst df →
            Charts.create_returns_chart to_datetime df' results
            = Charts.create_returns_chart to_datetime df results)
    by (intros df' Hd; by apply create_returns_chart_on_dates).
  unfold Charts.create_returns_chart. rewrite Hcd. simpl.
  rewrite before_filter, after_filter. unfold Dashboard.Frame, Timestamp in *.
  pose proof (length_filter_pos (λ r : Z * PriceFields, fst r <? cd) df) as Hb.
  pose proof (length_filter_pos (λ r : Z * PriceFields, cd <=? fst r) df) as Ha.
  assert (Hb' : (∃ row, In row df ∧ fst row < cd)
                ↔ ∃ x, In x df ∧ (fst x <? cd) = true).
  { split; intros (x & Hx & H); exists x; split; try done; lia. }
  assert (Ha' : (∃ row, In row df ∧ cd <= fst row)
                ↔ ∃ x, In x df ∧ (cd <=? fst x) = true).
  { split; intros (x & Hx & H); exists x; split; try done; lia. }
  set (bb := Nat.ltb 0 (length (List.filter
              (λ r : Z * PriceFields, fst r <? cd) df))) in *.
  set (ba := Nat.ltb 0 (length (List.filter
              (λ r : Z * PriceFields, cd <=? fst r) df))) in *.
  eexists. split; [done|]. split; [|split; [|split; [|split]]].
  - rewrite Hb', <- Hb. subst before_line after_line.
    destruct bb, ba; simpl; split; intros H;
      first [done | by left | by (destruct H as [H|H]; [discriminate H|done])].
  - rewrite Ha', <- Ha. subst before_line after_line.
    destruct bb, ba; simpl; split; intros H;
      first [done | by left | by right; left
            | by (destruct H as [H|H]; [discriminate H|done])].
  - destruct bb, ba; simpl;
      repeat (done || (apply sublist_skip) || (apply sublist_cons) || constructor).
  - intros Hne. destruct df as [|r df]; [done|].
    destruct bb eqn:E1; [done|]. destruct ba eqn:E2; [done|].
    exfalso. subst bb ba. simpl in E1, E2.
    destruct (fst r <? cd) eqn:E3; [done|].
    destruct (cd <=? fst r) eqn:E4; [done|]. lia.
  - intros df' Hd. specialize (Hdates df' Hd).
    unfold Charts.create_returns_chart in Hdates. rewrite Hcd in Hdates.
    etransitivity; [exact Hdates|]. simpl.
    by rewrite before_filter, after_filter.
Qed.

Lemma returns_chart_mean_lines_witness :
  ∃ lines,
    Charts.create_returns_chart Iso.to_datetime Fixture.df Fixture.results = Some lines
    ∧ length lines = 2%nat.
Proof.
  destruct (returns_chart_mean_lines Iso.to_datetime Fixture.df Fixture.results
              1578009600000000000 eq_refl)
    as (lines & E & _).
  exists lines. split; [exact E|].
  vm_compute in E. injection E as <-. reflexivity.
Defined.

(** ** The table of the two regimes *)

Section RegimeTable.
Import Charts.
Context (sqrt : Q → Q).




End RegimeTable.


